(** * stratagem.py: layout, composition, metadata and cleanup

    A shallow embedding of the document-composition core of
    [src/stratagem/stratagem.py] and the properties its specification
    states about it.

    Conventions of the embedding.
    - A text (a profile value, a watermark text, what is drawn) is a
      Python [str]: a sequence of Unicode code points ([str]). White
      space and line boundaries are the tables of [str.isspace] and
      [str.splitlines]; the case mappings and the decimal-digit class of
      the Unicode database are read from the surroundings ([env]).
    - A name (a path, a dictionary key, a font name, a metadata entry)
      is kept as its UTF-8 bytes ([string]): the source only looks for
      ASCII pieces in names, which is the same on bytes and on code
      points.
    - A field of a JSON record is a text or another JSON value, of
      which only the truth value matters ([value]).
    - Python floats are rationals ([Q]); every comparison and arithmetic
      step of the source is written out. The additions of the tiling
      loops go through the float addition of the surroundings, which
      rounds; the other float steps are exact.
    - A [while] loop is a fuelled iteration: [OutOfFuel] means the loop
      is still running when the fuel is spent.
    - reportlab's [stringWidth] is a parameter of the vector fitters.
    - A canvas is the list of drawing operations issued on it, oldest
      first. *)

From Stdlib Require Import ZArith NArith QArith Qround Qabs Qpower Lqa List String Ascii Bool Lia
  DecimalString.
From stdpp Require Import gmap strings.
Import ListNotations.

Open Scope string_scope.

(** ** Names: Python string primitives on UTF-8 bytes *)

Module Py.

Definition lower_ascii (a : ascii) : ascii :=
  let n := nat_of_ascii a in
  if (65 <=? n)%nat && (n <=? 90)%nat then ascii_of_nat (n + 32) else a.

(** [s.lower()] where the result is compared with an ASCII word: only
    the ASCII letters matter, no other character lowers into ASCII
    letters of such a word. *)
Fixpoint lower (s : string) : string :=
  match s with
  | EmptyString => EmptyString
  | String a r => String (lower_ascii a) (lower r)
  end.

(** [s.startswith(p)], [s.endswith(p)] and [p in s] *)
Definition startswith (p s : string) : bool := String.prefix p s.

Definition endswith (p s : string) : bool :=
  let n := String.length s in let k := String.length p in
  (k <=? n)%nat && String.eqb (substring (n - k) k s) p.

Fixpoint contains (p s : string) : bool :=
  String.prefix p s ||
  match s with
  | EmptyString => false
  | String _ r => contains p r
  end.

(** Truthiness of a string: [bool(s)] *)
Definition truthy (s : string) : bool :=
  match s with EmptyString => false | _ => true end.

End Py.

Open Scope list_scope.

(** ** Texts: Python [str] as code points *)

(** A text: the code points of a Python [str]. *)
Definition str : Type := list N.

(** The code points of a literal, read as UTF-8. *)
Fixpoint decode (need : nat) (acc : N) (s : string) : str :=
  match s with
  | EmptyString => []
  | String a r =>
      let b := N_of_ascii a in
      match need with
      | O =>
          if (b <? 128)%N then b :: decode 0 0%N r
          else if (b <? 192)%N then b :: decode 0 0%N r
          else if (b <? 224)%N then decode 1 (N.land b 31) r
          else if (b <? 240)%N then decode 2 (N.land b 15) r
          else decode 3 (N.land b 7) r
      | S k =>
          let acc := (acc * 64 + N.land b 63)%N in
          match k with
          | O => acc :: decode 0 0%N r
          | _ => decode k acc r
          end
      end
  end.

Definition u (s : string) : str := decode 0 0%N s.

Module Txt.

(** [str.isspace] on one code point, which is also what [str.strip]
    removes: TAB..CR, FS..US, SPACE, NEL, NBSP, OGHAM SPACE MARK,
    EN QUAD..HAIR SPACE, LINE and PARAGRAPH SEPARATOR, NARROW NBSP,
    MEDIUM MATHEMATICAL SPACE and IDEOGRAPHIC SPACE. *)
Definition is_space (c : N) : bool :=
  ((9 <=? c) && (c <=? 13) || (28 <=? c) && (c <=? 32)
   || (c =? 133) || (c =? 160) || (c =? 5760)
   || (8192 <=? c) && (c <=? 8202)
   || (c =? 8232) || (c =? 8233) || (c =? 8239) || (c =? 8287) || (c =? 12288))%N.

(** The line boundaries of [str.splitlines]: LF, VT, FF, CR, FS, GS, RS,
    NEL, LINE SEPARATOR and PARAGRAPH SEPARATOR. *)
Definition is_linebreak (c : N) : bool :=
  ((10 <=? c) && (c <=? 13) || (28 <=? c) && (c <=? 30)
   || (c =? 133) || (c =? 8232) || (c =? 8233))%N.

Fixpoint eqb (a b : str) : bool :=
  match a, b with
  | [], [] => true
  | x :: a', y :: b' => (x =? y)%N && eqb a' b'
  | _, _ => false
  end.

Fixpoint lstrip (s : str) : str :=
  match s with
  | [] => []
  | c :: r => if is_space c then lstrip r else s
  end.

Fixpoint rstrip (s : str) : str :=
  match s with
  | [] => []
  | c :: r =>
      match rstrip r with
      | [] => if is_space c then [] else [c]
      | r' => c :: r'
      end
  end.

(** [s.strip()] *)
Definition strip (s : str) : str := rstrip (lstrip s).

(** [re.sub(r"\D", "", s)]; [dec] is the decimal-digit class [\d] of the
    Unicode database. *)
Definition digits_only (dec : N -> bool) (s : str) : str := List.filter dec s.

(** [s.split(" ")]: every single space separates; never returns []. *)
Fixpoint split_space (s : str) : list str :=
  match s with
  | [] => [[]]
  | c :: r =>
      if (c =? 32)%N then [] :: split_space r
      else match split_space r with
           | w :: ws => (c :: w) :: ws
           | [] => [[c]]
           end
  end.

(** [s.splitlines()]: CR LF counts as one boundary, no trailing empty
    line, and the empty string has no lines. *)
Fixpoint splitlines (s : str) : list str :=
  match s with
  | [] => []
  | c :: r =>
      if is_linebreak c then
        match r with
        | b :: r2 =>
            if (c =? 13)%N && (b =? 10)%N
            then [] :: splitlines r2
            else [] :: splitlines r
        | [] => [[]]
        end
      else match splitlines r with
           | ln :: lns => (c :: ln) :: lns
           | [] => [[c]]
           end
  end.

(** [sep.join(l)] *)
Fixpoint join (sep : str) (l : list str) : str :=
  match l with
  | [] => []
  | [x] => x
  | x :: rest => x ++ sep ++ join sep rest
  end.

(** [s[i:j]] for 0 <= i <= j and [s[i:]] *)
Definition slice (i j : nat) (s : str) : str := firstn (j - i) (skipn i s).
Definition slice_from (i : nat) (s : str) : str := skipn i s.

(** [s.startswith(p)] *)
Fixpoint startswith (p s : str) : bool :=
  match p, s with
  | [], _ => true
  | x :: p', y :: s' => (x =? y)%N && startswith p' s'
  | _ :: _, [] => false
  end.

(** Truthiness of a text: [bool(s)] *)
Definition truthy (s : str) : bool :=
  match s with [] => false | _ => true end.

(** [x in (a, b, ...)] on texts *)
Definition mem (x : str) (l : list str) : bool := existsb (eqb x) l.

End Txt.

(** ** Outcomes of a call

    A Python call returns, raises, or (a loop whose fuel is spent) is
    still running. *)

Inductive result (A : Type) : Type :=
  | Ok (a : A)
  | Raise (exn : string)
  | OutOfFuel.

Arguments Ok {A} a.
Arguments Raise {A} exn.
Arguments OutOfFuel {A}.

Definition bind {A B : Type} (r : result A) (k : A -> result B) : result B :=
  match r with
  | Ok a => k a
  | Raise e => Raise e
  | OutOfFuel => OutOfFuel
  end.

Notation "'let*' x ':=' r 'in' k" := (bind r (fun x => k))
  (at level 10, x name, r at level 200, k at level 200).

(** [while cond: body] on a state of type [S]. *)
Fixpoint while {S : Type} (fuel : nat) (cond : S -> bool) (body : S -> S) (s : S)
  : result S :=
  match fuel with
  | O => OutOfFuel
  | Datatypes.S n => if cond s then while n cond body (body s) else Ok s
  end.

(** ** Values of a JSON record *)

(** A field of a profile or of a watermark entry: a text, or any other
    JSON value, of which the source only ever takes the truth value
    ([null], [false], [0], an empty list or object are false; [true], a
    non-zero number, a non-empty list or object are true). An absent
    key is [None]. *)
Inductive value : Type :=
  | VStr (s : str)
  | VOther (truthy : bool).

(** [bool(v)] *)
Definition value_truthy (v : option value) : bool :=
  match v with
  | Some (VStr s) => Txt.truthy s
  | Some (VOther t) => t
  | None => false
  end.

(** [v or ""], used as a text by a call that raises [exn] on anything
    else: [(v or "").strip()] and [.lower()] raise [AttributeError],
    [re.sub(..., v or "")] raises [TypeError]. *)
Definition or_empty (exn : string) (v : option value) : result str :=
  match v with
  | Some (VStr s) => Ok s
  | Some (VOther true) => Raise exn
  | Some (VOther false) | None => Ok []
  end.

(** [norm(s) = (s or "").strip()] *)
Definition norm (s : option value) : result str :=
  let* t := or_empty "AttributeError" s in
  Ok (Txt.strip t).

(** ** Numbers *)

Open Scope Q_scope.
Open Scope list_scope.

Definition Qleb (x y : Q) : bool := Qle_bool x y.
Definition Qltb (x y : Q) : bool := negb (Qle_bool y x).

(** [max(a, b)] as Python evaluates it. *)
Definition pymax (a b : Q) : Q := if Qltb a b then b else a.

(** [int(q)]: truncation toward zero. *)
Definition py_int (q : Q) : Z := if Qltb q 0 then Qceiling q else Qfloor q.

(** The decrement of every font-size search. *)
Definition SIZE_STEP : Q := 0.2.

(** A float that need not be a number: [float(v)] of a JSON number or
    of a numeric string. *)
Inductive fval : Type :=
  | Fin (q : Q)
  | PosInf
  | NegInf
  | NaN.

(** [a < b] on floats; every comparison with NaN is false. *)
Definition flt (a b : fval) : bool :=
  match a, b with
  | NaN, _ | _, NaN => false
  | Fin x, Fin y => Qltb x y
  | NegInf, NegInf => false
  | NegInf, _ => true
  | _, PosInf => match a with PosInf => false | _ => true end
  | _, _ => false
  end.

(** [max(a, b)] and [min(a, b)]: the first argument unless the second
    compares beyond it. *)
Definition fmax (a b : fval) : fval := if flt a b then b else a.
Definition fmin (a b : fval) : fval := if flt b a then b else a.

(** ** Geometry and canvas *)

(** A rectangle [x0, y0, x1, y1] in page coordinates. *)
Record rect : Type := mkRect { rx0 : Q; ry0 : Q; rx1 : Q; ry1 : Q }.

Definition rect_center (r : rect) : Q * Q :=
  ((rx0 r + rx1 r) / 2, (ry0 r + ry1 r) / 2).

(** The reportlab canvas calls the source issues. *)
Inductive op : Type :=
  | SetFont (font : string) (size : Q)
  | DrawString (x y : Q) (text : str)
  | DrawCentredString (x y : Q) (text : str)
  | DrawImage (path : string) (x y w h : Q)
  | SetFillColorRGB (r g b : fval)
  | SaveState
  | Translate (x y : Q)
  | Rotate (angle : Q)
  | RestoreState
  | ShowPage
  | Save.

Definition canvas : Type := list op.

Definition FONT_MAIN : string := "Helvetica".
Definition FONT_BOLD : string := "Helvetica-Bold".
(** U+2713 CHECK MARK *)
Definition CHECK_GLYPH : str := [10003%N].

(** ** Taxpayer-number splitting *)

Section Digits.

(** The decimal-digit class [\d] of [re] on [str]. *)
Variable dec : N -> bool.

(** [re.sub(r"\D", "", s or "")] *)
Definition digits_of (s : option value) : result str :=
  let* t := or_empty "TypeError" s in
  Ok (Txt.digits_only dec t).

Definition split_ssn (ssn : option value) : result (str * str * str) :=
  let* digits := digits_of ssn in
  if (List.length digits =? 9)%nat
  then Ok (Txt.slice 0 3 digits, Txt.slice 3 5 digits, Txt.slice_from 5 digits)
  else Ok ([], [], []).

Definition split_ein (ein : option value) : result (str * str) :=
  let* digits := digits_of ein in
  if (List.length digits =? 9)%nat
  then Ok (Txt.slice 0 2 digits, Txt.slice_from 2 digits)
  else Ok ([], []).

End Digits.

(** ** Vector drawing helpers *)

Section VectorHelpers.

(** [stringWidth(text, font, size)] of reportlab. *)
Variable stringWidth : str -> string -> Q -> Q.

(** The decimal-digit class [\d] of [re] on [str]. *)
Variable dec : N -> bool.

(** The size search of [draw_text_fit_vec]: the loop and the clamp. *)
Definition fit_single_line (fuel : nat) (text : str) (font : string)
    (w max_size min_size : Q) : result Q :=
  let* size := while fuel
            (fun size => Qleb min_size size && Qltb w (stringWidth text font size))
            (fun size => size - SIZE_STEP)
            max_size in
  Ok (pymax size min_size).

Definition draw_text_fit_vec (fuel : nat) (c : canvas) (text : option value)
    (r : option rect) (font : string) (max_size min_size inset : Q) (vcenter : bool)
  : result canvas :=
  let* text := norm text in
  match r with
  | None => Ok c
  | Some r =>
      if negb (Txt.truthy text) then Ok c
      else
        let w := rx1 r - rx0 r - 2 * inset in
        let* size := fit_single_line fuel text font w max_size min_size in
        let y := if vcenter then ry0 r + (ry1 r - ry0 r - size) / 2 + 0.5
                 else ry0 r + inset in
        Ok (c ++ [SetFont font size; DrawString (rx0 r + inset) y text])
  end.

(** One word of the greedy wrap inside [draw_multiline_fit_vec]. *)
Definition wrap_word (font : string) (size max_w : Q)
    (st : list str * str) (w : str) : list str * str :=
  let '(lines, cur) := st in
  let trial := Txt.strip (cur ++ u " " ++ w) in
  if Qleb (stringWidth trial font size) max_w then (lines, trial)
  else ((if Txt.truthy cur then lines ++ [cur] else lines), w).

(** One raw line: the inner [for w in words] and the final append. *)
Definition wrap_raw (font : string) (size max_w : Q)
    (lines : list str) (raw : str) : list str :=
  let '(lines, cur) :=
    fold_left (wrap_word font size max_w) (Txt.split_space raw) (lines, []) in
  if Txt.truthy cur then lines ++ [cur] else lines.

(** The wrap of a whole text at one candidate size. *)
Definition wrap_text (font : string) (size max_w : Q) (text : str) : list str :=
  fold_left (wrap_raw font size max_w) (Txt.splitlines text) [].

(** The [while size >= min_size] loop of [draw_multiline_fit_vec]; [lines]
    is unbound ([None]) until the body has run once. *)
Fixpoint fit_multiline (fuel : nat) (text : str) (font : string)
    (max_w height min_size leading size : Q) (lines : option (list str))
  : result (Q * option (list str)) :=
  match fuel with
  | O => OutOfFuel
  | S n =>
      if Qleb min_size size then
        let lines := wrap_text font size max_w text in
        let line_h := size * leading in
        if Qleb (inject_Z (Z.of_nat (List.length lines)) * line_h) height
        then Ok (size, Some lines)
        else fit_multiline n text font max_w height min_size leading
               (size - SIZE_STEP) (Some lines)
      else Ok (size, lines)
  end.

(** The drawing loop with its [break]. *)
Fixpoint draw_lines (c : canvas) (x y line_h ylim : Q) (lines : list str) : canvas :=
  match lines with
  | [] => c
  | ln :: rest =>
      let c := c ++ [DrawString x y ln] in
      let y := y - line_h in
      if Qltb y ylim then c else draw_lines c x y line_h ylim rest
  end.

Definition draw_multiline_fit_vec (fuel : nat) (c : canvas) (text : option value)
    (r : option rect) (font : string) (max_size min_size inset leading : Q)
  : result canvas :=
  let* text := norm text in
  match r with
  | None => Ok c
  | Some r =>
      if negb (Txt.truthy text) then Ok c
      else
        let max_w := rx1 r - rx0 r - 2 * inset in
        let* fit := fit_multiline fuel text font max_w (ry1 r - ry0 r - 2 * inset)
                 min_size leading max_size None in
        let '(size, lines) := fit in
        let c := c ++ [SetFont font size] in
        let line_h := size * leading in
        let y := ry1 r - inset - size in
        match lines with
        | None => Raise "UnboundLocalError"
        | Some lines => Ok (draw_lines c (rx0 r + inset) y line_h (ry0 r + inset) lines)
        end
  end.

Definition draw_check_vec (c : canvas) (r : option rect) (glyph : str)
    (size : Q) (font : string) : canvas :=
  match r with
  | None => c
  | Some r =>
      let '(cx, cy) := rect_center r in
      c ++ [SetFont font size; DrawCentredString cx (cy - size / 3.3) glyph]
  end.

(** [for i, ch in enumerate(digits[:slots])] *)
Fixpoint draw_cells (c : canvas) (x0 inset cell_w y : Q) (i : nat) (digits : str)
  : canvas :=
  match digits with
  | [] => c
  | ch :: rest =>
      let cx := x0 + inset + cell_w * (inject_Z (Z.of_nat i) + 0.5) in
      draw_cells (c ++ [DrawCentredString cx y [ch]])
        x0 inset cell_w y (S i) rest
  end.

Definition draw_digits_in_cells_vec (fuel : nat) (c : canvas) (text : option value)
    (r : option rect) (slots : nat) (font : string) (max_size inset : Q)
  : result canvas :=
  let* digits := digits_of dec text in
  match r with
  | None => Ok c
  | Some r =>
      if negb (Txt.truthy digits) then Ok c
      else
        match slots with
        | O => Raise "ZeroDivisionError"
        | _ =>
            let cell_w := (rx1 r - rx0 r - 2 * inset) / inject_Z (Z.of_nat slots) in
            let* size := while fuel
                      (fun size => Qltb 6.5 size
                                   && Qltb (cell_w - 1) (stringWidth (u "8") font size))
                      (fun size => size - SIZE_STEP)
                      max_size in
            let y := ry0 r + (ry1 r - ry0 r - size) / 2 + 0.5 in
            Ok (draw_cells (c ++ [SetFont font size]) (rx0 r) inset cell_w y 0
                  (Txt.slice 0 slots digits))
        end
  end.

End VectorHelpers.
(** ** Documents, images and the file system *)

(** A widget annotation as [get_page_widgets] reads it. *)
Record widget : Type := mkWidget { w_name : string; w_type : string; w_rect : rect }.

(** A page's content is a stack of layers, bottom first: content that came
    with the template, or the operations of a saved canvas. *)
Inductive content : Type :=
  | TemplateContent (id : nat)
  | Drawn (ops : canvas).

(** [annots = None] is a page without an [/Annots] entry. *)
Record page : Type := mkPage {
  mediabox : Q * Q;
  contents : list content;
  annots : option (list widget)
}.

(** What a raster helper paints, kept symbolic: the glyph strings handed
    to [draw.text] and the pixel size of the bitmap. *)
Inductive png : Type :=
  | PngSingleLine (text : str) (W H font_px : Z) (align : string)
  | PngMultiLine (lines : list str) (W H font_px : Z)
  | PngDigits (glyphs : str) (W H font_px : Z) (slots : nat).

(** The variable parts of the packet [build_xmp_packet] renders. *)
Record xmp_packet : Type := mkXmp {
  xmp_title : string; xmp_creator : option string; xmp_description : string;
  xmp_keywords : string; xmp_producer : string; xmp_creator_tool : string;
  xmp_create_date : string; xmp_modify_date : string
}.

(** A PDF document: its pages, its document information dictionary and
    the XMP stream attached to its catalog. *)
Record pdf : Type := mkPdf {
  pdf_pages : list page;
  pdf_info : gmap string string;
  pdf_xmp : option xmp_packet
}.

Inductive file : Type :=
  | PdfFile (doc : pdf)
  | PngFile (img : png).

(** [PdfReader(path)] followed by [reader.pages] *)
Definition read_pdf (fs : gmap string file) (path : string) : result pdf :=
  match fs !! path with
  | Some (PdfFile doc) => Ok doc
  | Some (PngFile _) => Raise "PdfReadError"
  | None => Raise "FileNotFoundError"
  end.

(** [reader.pages[i]] *)
Definition page_at (doc : pdf) (i : nat) : result page :=
  match nth_error (pdf_pages doc) i with
  | Some p => Ok p
  | None => Raise "IndexError"
  end.

(** What [canvas.save()] writes: one page holding the canvas; the
    program never reads the information dictionary of such a file. *)
Definition canvas_file (size : Q * Q) (c : canvas) : file :=
  PdfFile (mkPdf [mkPage size [Drawn (c ++ [ShowPage; Save])] None] ∅ None).

(** Existing files by path. A path without a slash names an entry of the
    working directory. *)
Abbreviation filesystem := (gmap string file).

(** What the run reads from its surroundings. *)
Record env : Type := mkEnv {
  stringWidth : str -> string -> Q -> Q;        (* reportlab metrics *)
  textlength : Z -> str -> Q;                   (* PIL [draw.textlength] at a pixel size *)
  tmp_name : nat -> string;                     (* n-th path of [NamedTemporaryFile] *)
  today_str : str;                              (* [datetime.now()] as YYYY-MM-DD *)
  dejavu_available : bool;                      (* whether DejaVuSans.ttf registers *)
  str_lower : str -> str;                       (* [str.lower] of the Unicode database *)
  str_upper : str -> str;                       (* [str.upper] of the Unicode database *)
  is_decimal : N -> bool                        (* the class [\d] of [re] on [str] *)
}.

(** The widgets of one page; a page without annotations has none. *)
Definition get_page_widgets (p : page) : list widget :=
  match annots p with
  | None => []
  | Some ws => ws
  end.

(** [{w["name"]: w["rect"] for w in widgets}]: a later widget of the same
    name replaces an earlier one. *)
Definition rects_of (ws : list widget) : gmap string rect :=
  fold_left (fun m w => <[w_name w := w_rect w]> m) ws ∅.

Definition roles : list (string * string) :=
  [ ("name", "f1_01[0]"); ("business", "f1_02[0]");
    ("chk_individual", "c1_1[0]"); ("chk_c_corp", "c1_1[1]"); ("chk_s_corp", "c1_1[2]");
    ("chk_partnership", "c1_1[3]"); ("chk_trust_estate", "c1_1[4]"); ("chk_llc", "c1_1[5]");
    ("llc_code", "f1_03[0]"); ("chk_other", "c1_1[6]"); ("other_text", "f1_04[0]");
    ("chk_3b", "c1_2[0]"); ("exempt", "f1_05[0]"); ("fatca", "f1_06[0]");
    ("addr1", "f1_07[0]"); ("addr2", "f1_08[0]");
    ("requester", "f1_09[0]"); ("accounts", "f1_10[0]");
    ("ssn_1", "f1_11[0]"); ("ssn_2", "f1_12[0]"); ("ssn_3", "f1_13[0]");
    ("ein_1", "f1_14[0]"); ("ein_2", "f1_15[0]") ].

Fixpoint assoc (k : string) (l : list (string * string)) : option string :=
  match l with
  | [] => None
  | (k', v) :: rest => if String.eqb k k' then Some v else assoc k rest
  end.

(** The local [r(key)] of [compose_overlay_page1]. *)
Definition role_rect (rects : gmap string rect) (key : string) : option rect :=
  match assoc key roles with
  | Some name => rects !! name
  | None => None
  end.

(** ** Font selection *)

Definition register_fonts_for_overlay (E : env) : string * list string * string :=
  if dejavu_available E
  then ("DejaVuSans", ["DejaVuSans"; "WarpA"; "WarpB"], FONT_BOLD)
  else ("Helvetica", ["Helvetica"; "Courier"; "Times-Roman"], "Helvetica-Bold").

(** [FontCycler]: the pool ([fonts or [FONT_MAIN]]) and the cursor [i]. *)
Record FontCycler : Type := mkCycler { fonts : list string; cursor : nat }.

Definition FontCycler_init (fs : list string) : FontCycler :=
  mkCycler (match fs with [] => [FONT_MAIN] | _ => fs end) 0.

Definition FontCycler_next (cy : FontCycler) : string * FontCycler :=
  (nth (cursor cy mod List.length (fonts cy)) (fonts cy) FONT_MAIN,
   mkCycler (fonts cy) (S (cursor cy))).

(** ** Raster helpers (aggressive mode) *)

Definition RASTER_SCALE : Q := 3.

(** [max(1, int(pt * scale))] *)
Definition px (pt : Q) : Z := Z.max 1 (py_int (pt * RASTER_SCALE)).

(** [max(6, int(font_px * scale / 0.75))] *)
Definition pil_font_size (font_px : Z) : Z :=
  Z.max 6 (py_int (inject_Z font_px * RASTER_SCALE / 0.75)).

(** One word of [_wrap_lines]; [measure] is [draw.textlength(., font)]. *)
Definition _wrap_word (measure : str -> Q) (max_w : Q)
    (st : list str * str) (w : str) : list str * str :=
  let '(lines, cur) := st in
  let trial := Txt.strip (cur ++ u " " ++ w) in
  if Qleb (measure trial) max_w || negb (Txt.truthy cur) then (lines, trial)
  else (lines ++ [cur], w).

Definition _wrap_raw (measure : str -> Q) (max_w : Q)
    (lines : list str) (raw : str) : list str :=
  let '(lines, cur) :=
    fold_left (_wrap_word measure max_w) (Txt.split_space raw) (lines, []) in
  if Txt.truthy cur then lines ++ [cur] else lines.

(** [_wrap_lines]; [(text or "").splitlines()] raises on anything but a
    text. *)
Definition _wrap_lines (measure : str -> Q) (text : option value) (max_w : Q)
  : result (list str) :=
  let* t := or_empty "AttributeError" text in
  Ok (fold_left (_wrap_raw measure max_w) (Txt.splitlines t) []).

(** The state threaded through the raster helpers: the files on disk and
    how many temporary names have been handed out. *)
Record disk : Type := mkDisk { files : filesystem; tmp_used : nat }.

(** [_save_png(img)]: a new temporary file holding the image. *)
Definition _save_png (E : env) (img : png) (d : disk) : string * disk :=
  let path := tmp_name E (tmp_used d) in
  (path, mkDisk (<[path := PngFile img]> (files d)) (S (tmp_used d))).

(** The three raster helpers normalise their text after the image has
    been set up and before it is saved. *)
Definition _draw_singleline_to_png (E : env) (text : option value) (w_pt h_pt : Q)
    (font_px : Z) (align : string) (d : disk) : result (string * disk) :=
  let* text := norm text in
  Ok (_save_png E (PngSingleLine text (px w_pt) (px h_pt) (pil_font_size font_px) align) d).

Definition _draw_multiline_to_png (E : env) (text : option value) (w_pt h_pt : Q)
    (font_px : Z) (d : disk) : result (string * disk) :=
  let W := px w_pt in
  let font := pil_font_size font_px in
  let* text := norm text in
  let* lines := _wrap_lines (textlength E font) (Some (VStr text)) (inject_Z (W - 6)) in
  Ok (_save_png E (PngMultiLine lines W (px h_pt) font) d).

Definition _draw_digits_grid_to_png (E : env) (digits : option value) (w_pt h_pt : Q)
    (slots : nat) (font_px : Z) (d : disk) : result (string * disk) :=
  let* digits := digits_of (is_decimal E) digits in
  match slots with
  | O => Raise "ZeroDivisionError"
  | _ => Ok (_save_png E (PngDigits (Txt.slice 0 slots digits) (px w_pt) (px h_pt)
                            (pil_font_size font_px) slots) d)
  end.

Definition draw_image_into_canvas (c : canvas) (png_path : string) (r : option rect)
  : canvas :=
  match r with
  | None => c
  | Some r =>
      let w := pymax 1 (rx1 r - rx0 r) in
      let h := pymax 1 (ry1 r - ry0 r) in
      c ++ [DrawImage png_path (rx0 r) (ry0 r) w h]
  end.

(** ** Overlay composer *)

(** The mutable locals of [compose_overlay_page1]: the canvas [c], the
    cycler, [tmp_images], and the disk the raster helpers write to. *)
Record overlay_state : Type := mkOverlay {
  o_canvas : canvas;
  o_cycler : FontCycler;
  o_tmp_images : list string;
  o_disk : disk
}.

(** The profile record: the JSON fields by key; an absent field has no
    entry. *)
Abbreviation profile := (gmap string value).

Section Overlay.

Variable E : env.
Variable fuel : nat.
(** [fontwarp_aggr] *)
Variable aggressive : bool.

(** The branch shared by the three local drawers in aggressive mode:
    [tmp_images.append(png); draw_image_into_canvas(c, png, rect)]. *)
Definition place_png (st : overlay_state) (r : rect) (saved : string * disk)
  : overlay_state :=
  let '(path, d) := saved in
  mkOverlay (draw_image_into_canvas (o_canvas st) path (Some r)) (o_cycler st)
    (o_tmp_images st ++ [path]) d.

(** In vector mode [cycler.next()] is evaluated before the helper runs. *)
Definition with_next_font (st : overlay_state)
    (draw : string -> canvas -> result canvas) : result overlay_state :=
  let '(font, cy) := FontCycler_next (o_cycler st) in
  let* c := draw font (o_canvas st) in
  Ok (mkOverlay c cy (o_tmp_images st) (o_disk st)).

(** The local [draw_text(rect, text, max_size, align)]. In aggressive mode
    [rect[2]-rect[0]] is evaluated first, so a missing rectangle raises. *)
Definition draw_text (st : overlay_state) (r : option rect) (text : option value)
    (max_size : Q) : result overlay_state :=
  if aggressive then
    match r with
    | None => Raise "TypeError"
    | Some r =>
        let* saved := _draw_singleline_to_png E text (rx1 r - rx0 r) (ry1 r - ry0 r)
                        (py_int max_size) "left" (o_disk st) in
        Ok (place_png st r saved)
    end
  else
    with_next_font st (fun font c =>
      draw_text_fit_vec (stringWidth E) fuel c text r font max_size 7 2 true).

(** The local [draw_multiline(rect, text, max_size)]. *)
Definition draw_multiline (st : overlay_state) (r : option rect) (text : option value)
    (max_size : Q) : result overlay_state :=
  if aggressive then
    match r with
    | None => Raise "TypeError"
    | Some r =>
        let* saved := _draw_multiline_to_png E text (rx1 r - rx0 r) (ry1 r - ry0 r)
                        (py_int max_size) (o_disk st) in
        Ok (place_png st r saved)
    end
  else
    with_next_font st (fun font c =>
      draw_multiline_fit_vec (stringWidth E) fuel c text r font max_size 7.5 2 1.2).

(** The local [draw_digits(rect, digits, slots, max_size)]. *)
Definition draw_digits (st : overlay_state) (r : option rect) (digits : str)
    (slots : nat) (max_size : Q) : result overlay_state :=
  if aggressive then
    match r with
    | None => Raise "TypeError"
    | Some r =>
        let* saved := _draw_digits_grid_to_png E (Some (VStr digits)) (rx1 r - rx0 r)
                        (ry1 r - ry0 r) slots (py_int max_size) (o_disk st) in
        Ok (place_png st r saved)
    end
  else
    with_next_font st (fun font c =>
      draw_digits_in_cells_vec (stringWidth E) (is_decimal E) fuel c (Some (VStr digits)) r
        slots font max_size 2).

(** The local [ck(role_key)]: always the vector helper, in bold. *)
Definition ck (rects : gmap string rect) (st : overlay_state) (role_key : string)
  : overlay_state :=
  mkOverlay (draw_check_vec (o_canvas st) (role_rect rects role_key) CHECK_GLYPH 9.5 FONT_BOLD)
    (o_cycler st) (o_tmp_images st) (o_disk st).


(** Lines 477-489: the classification chain. *)
Definition draw_classification (rects : gmap string rect) (data : profile)
    (st : overlay_state) : result overlay_state :=
  let* raw := or_empty "AttributeError" (data !! "classification") in
  let cls := Txt.strip (str_lower E raw) in
  if Txt.mem cls [u "individual"; u "sole proprietor"; u "sole_proprietor"]
  then Ok (ck rects st "chk_individual")
  else if Txt.mem cls [u "c_corp"; u "c corp"; u "c corporation"; u "c"]
  then Ok (ck rects st "chk_c_corp")
  else if Txt.mem cls [u "s_corp"; u "s corp"; u "s corporation"; u "s"]
  then Ok (ck rects st "chk_s_corp")
  else if Txt.mem cls [u "partnership"; u "p"]
  then Ok (ck rects st "chk_partnership")
  else if Txt.mem cls [u "trust_estate"; u "trust"; u "estate"]
  then Ok (ck rects st "chk_trust_estate")
  else if Txt.startswith (u "llc") cls then
    let st := ck rects st "chk_llc" in
    let* tax := or_empty "AttributeError" (data !! "llc_tax_class") in
    let code := str_upper E (Txt.strip tax) in
    let code := if Txt.truthy code then code else u "C" in
    draw_text st (role_rect rects "llc_code") (Some (VStr code)) 10
  else if Txt.eqb cls (u "other") then
    let st := ck rects st "chk_other" in
    let* other := norm (data !! "other_text") in
    draw_text st (role_rect rects "other_text") (Some (VStr other)) 10
  else Ok st.

(** Line 490: the separate 3b flag, by truthiness of the field. *)
Definition draw_line3b (rects : gmap string rect) (data : profile)
    (st : overlay_state) : overlay_state :=
  if value_truthy (data !! "line3b_foreign_flowthrough")
  then ck rects st "chk_3b" else st.

(** Lines 493-502: the taxpayer number. *)
Definition draw_tin (rects : gmap string rect) (data : profile)
    (st : overlay_state) : result overlay_state :=
  let* ssn := norm (data !! "ssn") in
  let* ein := norm (data !! "ein") in
  if Txt.truthy ssn && negb (Txt.truthy ein) then
    let* groups := split_ssn (is_decimal E) (Some (VStr ssn)) in
    let '(a, b, c3) := groups in
    let* st := draw_digits st (role_rect rects "ssn_1") a 3 12 in
    let* st := draw_digits st (role_rect rects "ssn_2") b 2 12 in
    draw_digits st (role_rect rects "ssn_3") c3 4 12
  else if Txt.truthy ein then
    let* groups := split_ein (is_decimal E) (Some (VStr ein)) in
    let '(a, b) := groups in
    let* st := draw_digits st (role_rect rects "ein_1") a 2 12 in
    draw_digits st (role_rect rects "ein_2") b 7 12
  else Ok st.

End Overlay.

(** [compose_overlay_page1]: returns [tmp_images] and the disk with the
    saved overlay file. *)
Definition compose_overlay_page1 (E : env) (fuel : nat) (template_pdf : string)
    (data : profile) (overlay_pdf : string) (fontwarp fontwarp_aggr : bool) (d : disk)
  : result (list string * disk) :=
  let* reader := read_pdf (files d) template_pdf in
  let* p0 := page_at reader 0 in
      let '(w, h) := mediabox p0 in
      let rects := rects_of (get_page_widgets p0) in
      let r := role_rect rects in
      let '(main_font, warp_list, bold_font) := register_fonts_for_overlay E in
      let cycler := FontCycler_init (if fontwarp then warp_list else [main_font]) in
      let text := draw_text E fuel fontwarp_aggr in
      let st := mkOverlay [] cycler [] d in
      (* Basics *)
      let* st := text st (r "name") (data !! "name") 11 in
      let* st := text st (r "business") (data !! "business_name") 11 in
      let* st := text st (r "exempt") (data !! "exempt_payee_code") 10 in
      let* st := text st (r "fatca") (data !! "fatca_code") 10 in
      let* st := text st (r "addr1") (data !! "address") 10.5 in
      let* city := norm (data !! "city") in
      let* state := norm (data !! "state") in
      let* zipc := norm (data !! "zip") in
      let combined := Txt.join (u ", ") (List.filter Txt.truthy [city; state]) in
      let combined := if Txt.truthy zipc then Txt.strip (combined ++ u " " ++ zipc)
                      else combined in
      let* st := text st (r "addr2") (Some (VStr combined)) 10.5 in
      let* st := draw_multiline E fuel fontwarp_aggr st (r "requester")
                   (data !! "requester_info") 9.5 in
      let* st := text st (r "accounts") (data !! "account_numbers") 10 in
      (* Classification *)
      let* st := draw_classification E fuel fontwarp_aggr rects data st in
      let st := draw_line3b rects data st in
      (* TIN *)
      let* st := draw_tin E fuel fontwarp_aggr rects data st in
      (* Signature & Date *)
      let* st :=
        if fontwarp_aggr then
          let rect_sig := mkRect 115 (197 - 2) (115 + 220) (197 + 16) in
          let rect_date := mkRect 470 (197 - 2) (470 + 120) (197 + 16) in
          let* signature := norm (data !! "signature") in
          let* saved := _draw_singleline_to_png E (Some (VStr signature))
                          (rx1 rect_sig - rx0 rect_sig) (ry1 rect_sig - ry0 rect_sig)
                          11 "left" (o_disk st) in
          let '(png, d1) := saved in
          let c1 := draw_image_into_canvas (o_canvas st) png (Some rect_sig) in
          let* date := norm (data !! "signature_date") in
          let date := if Txt.truthy date then date else today_str E in
          let* saved2 := _draw_singleline_to_png E (Some (VStr date))
                           (rx1 rect_date - rx0 rect_date) (ry1 rect_date - ry0 rect_date)
                           11 "left" d1 in
          let '(png2, d2) := saved2 in
          let c2 := draw_image_into_canvas c1 png2 (Some rect_date) in
          Ok (mkOverlay c2 (o_cycler st) (o_tmp_images st) d2)
        else
          let '(f1, cy1) := FontCycler_next (o_cycler st) in
          let* signature := norm (data !! "signature") in
          let c1 := o_canvas st ++ [SetFont f1 11; DrawString 115 197 signature] in
          let '(f2, cy2) := FontCycler_next cy1 in
          let* date := norm (data !! "signature_date") in
          let date := if Txt.truthy date then date else today_str E in
          let c2 := c1 ++ [SetFont f2 11; DrawString 470 197 date] in
          Ok (mkOverlay c2 cy2 (o_tmp_images st) (o_disk st)) in
      (* c.showPage(); c.save() *)
      let saved := canvas_file (w, h) (o_canvas st) in
      Ok (o_tmp_images st,
          mkDisk (<[overlay_pdf := saved]> (files (o_disk st))) (tmp_used (o_disk st))).

(** ** Watermark configuration *)

(** One entry of ["items"]: the raw text and the numbers after their
    [float(...)] conversions with their defaults (x, y = 0, size = 10,
    angle = 0); the conversions return, and return finite numbers. *)
Record wm_item : Type := mkItem {
  it_text : option value; it_x : Q; it_y : Q; it_size : Q; it_angle : Q
}.

(** The ["tile"] dictionary: the raw text and the numbers after their
    [float(...)] conversions with their defaults (size = 8, offsets = 24,
    steps = 144 and 120, angle = 0); the conversions return, and return
    finite numbers. *)
Record wm_tile : Type := mkTile {
  t_text : option value; t_size : Q;
  x_offset : Q; y_offset : Q; x_step : Q; y_step : Q; t_angle : Q
}.

(** The value under ["pages"]: a string, a list whose entries convert
    with [int] ([Some n]) or do not ([None]), or anything else. *)
Inductive pages_val : Type :=
  | PagesStr (s : string)
  | PagesList (ps : list (option Z))
  | PagesOther.

(** [visible_color] is the entry when it is a string; [visible_gray] is
    what [float(g)] returns for the entry, [None] when the entry is
    absent or null or [float] raises on it. *)
Record wm_config : Type := mkWm {
  cfg_items : option (list wm_item);
  cfg_tile : option wm_tile;
  cfg_pages : option pages_val;
  visible_color : option string;
  visible_gray : option fval;
  wm_other_keys : bool
}.

Definition is_some {A : Type} (o : option A) : bool :=
  match o with Some _ => true | None => false end.

(** [if wm_cfg:] - a dictionary with at least one key. *)
Definition wm_truthy (cfg : option wm_config) : bool :=
  match cfg with
  | None => false
  | Some c =>
      is_some (cfg_items c) || is_some (cfg_tile c) || is_some (cfg_pages c)
      || is_some (visible_color c) || is_some (visible_gray c) || wm_other_keys c
  end.

(** What the watermark composer takes from its surroundings:
    [_parse_hex_color], taken as given, and the addition of two floats,
    which returns their sum rounded to a float. *)
Record machine : Type := mkMachine {
  _parse_hex_color : string -> result (option (Q * Q * Q));
  fadd : Q -> Q -> Q
}.

Section Watermark.

Variable M : machine.

Definition choose_wm_color (cfg : option wm_config) (visible : bool)
  : result (fval * fval * fval) :=
  let default := Ok (Fin 0.82, Fin 0.82, Fin 0.82) in
  let gray c :=
    match visible_gray c with
    | Some g => let g := fmin (fmax g (Fin 0)) (Fin 1) in Ok (g, g, g)
    | None => default
    end in
  if negb visible then Ok (Fin 1, Fin 1, Fin 1)
  else if wm_truthy cfg then
    match cfg with
    | Some c =>
        match visible_color c with
        | Some cstr =>
            let* rgb := _parse_hex_color M cstr in
            match rgb with
            | Some (r, g, b) => Ok (Fin r, Fin g, Fin b)
            | None => gray c
            end
        | None => gray c
        end
    | None => default
    end
  else default.

(** One positioned or tiled text instance:
    [saveState; translate; rotate?; drawString(0, 0, txt); restoreState]. *)
Definition stamp (setfont : list op) (x y ang : Q) (txt : str) : list op :=
  [SaveState; Translate x y]
  ++ (if Qeq_bool ang 0 then [] else [Rotate ang])
  ++ setfont ++ [DrawString 0 0 txt; RestoreState].

(** [for it in (wm_cfg.get("items") or [])] *)
Fixpoint draw_items (c : canvas) (items : list wm_item) : result canvas :=
  match items with
  | [] => Ok c
  | it :: rest =>
      let* txt := norm (it_text it) in
      if negb (Txt.truthy txt) then draw_items c rest
      else draw_items
             (c ++ stamp [SetFont FONT_MAIN (it_size it)] (it_x it) (it_y it) (it_angle it) txt)
             rest
  end.

(** The inner loop [while x < w] with its [x += xs]; the state is
    [(x, c)]. *)
Definition tile_row (fuel : nat) (w xs y ang : Q) (ttxt : str) (x0 : Q) (c : canvas)
  : result (Q * canvas) :=
  while fuel
    (fun st => Qltb (fst st) w)
    (fun st => (fadd M (fst st) xs, snd st ++ stamp [] (fst st) y ang ttxt))
    (x0, c).

(** The outer loop [while y < h] with its [y += ys]; the state is
    [(y, c)]. Every run of the inner loop gets the whole budget
    [inner]. *)
Fixpoint tile_rows (inner fuel : nat) (w h x0 xs ys ang : Q) (ttxt : str)
    (y : Q) (c : canvas) : result (Q * canvas) :=
  match fuel with
  | O => OutOfFuel
  | S n =>
      if Qltb y h then
        let* row := tile_row inner w xs y ang ttxt x0 c in
        tile_rows inner n w h x0 xs ys ang ttxt (fadd M y ys) (snd row)
      else Ok (y, c)
  end.

(** Lines 541-557: the tile block. *)
Definition draw_tile (fuel : nat) (w h : Q) (tile : option wm_tile) (c : canvas)
  : result canvas :=
  match tile with
  | None => Ok c
  | Some t =>
      let* ttxt := norm (t_text t) in
      if negb (Txt.truthy ttxt) then Ok c
      else
        let c := c ++ [SetFont FONT_MAIN (t_size t)] in
        let* st := tile_rows fuel fuel w h (x_offset t) (x_step t) (y_step t) (t_angle t)
                     ttxt (y_offset t) c in
        Ok (snd st)
  end.

(** [compose_watermark_page]: the canvas it saves as [out_pdf]. The
    source indexes [wm_cfg] directly, so it is called with a dictionary. *)
Definition compose_watermark_page (fuel : nat) (template_pdf : string) (page_index : nat)
    (wm_cfg : wm_config) (out_pdf : string) (visible : bool) (fs : gmap string file)
  : result (gmap string file) :=
  let* reader := read_pdf fs template_pdf in
  let* p := page_at reader page_index in
  let '(w, h) := mediabox p in
  let* rgb := choose_wm_color (Some wm_cfg) visible in
  let '(r, g, b) := rgb in
  let c := [SetFillColorRGB r g b] in
  let* c := draw_items c (match cfg_items wm_cfg with Some l => l | None => [] end) in
  let* c := draw_tile fuel w h (cfg_tile wm_cfg) c in
  Ok (<[out_pdf := canvas_file (w, h) c]> fs).

End Watermark.

(** ** Metadata *)

(** A reading of the UTC clock. *)
Record utc_time : Type := mkTime {
  year : nat; month : nat; day : nat; hour : nat; minute : nat; second : nat
}.

Definition decimal (n : nat) : string := NilEmpty.string_of_uint (Nat.to_uint n).

(** [%m], [%d], [%H], [%M], [%S]: two digits; [%Y]: four digits. *)
Definition pad (width : nat) (n : nat) : string :=
  let s := decimal n in
  string_of_list_ascii (repeat "0"%char (width - String.length s)) +:+ s.

(** [datetime.now(timezone.utc).strftime("D:%Y%m%d%H%M%SZ")] *)
Definition pdf_date_now (t : utc_time) : string :=
  "D:" +:+ pad 4 (year t) +:+ pad 2 (month t) +:+ pad 2 (day t)
  +:+ pad 2 (hour t) +:+ pad 2 (minute t) +:+ pad 2 (second t) +:+ "Z".

(** [datetime.now(timezone.utc).strftime("%Y-%m-%dT%H:%M:%SZ")] *)
Definition now_iso_utc (t : utc_time) : string :=
  pad 4 (year t) +:+ "-" +:+ pad 2 (month t) +:+ "-" +:+ pad 2 (day t) +:+ "T"
  +:+ pad 2 (hour t) +:+ ":" +:+ pad 2 (minute t) +:+ ":" +:+ pad 2 (second t) +:+ "Z".

(** [d.update(other)] and [d.setdefault(k, v)] on string dictionaries. *)
Definition dict_update (d other : gmap string string) : gmap string string := other ∪ d.

Definition setdefault (k v : string) (d : gmap string string) : gmap string string :=
  match d !! k with
  | Some _ => d
  | None => <[k := v]> d
  end.

(** [read_template_info]: the entries whose key starts with a slash. *)
Definition read_template_info (reader : pdf) : gmap string string :=
  filter (fun kv => Py.startswith "/" (fst kv) = true) (pdf_info reader).

(** [finalize_info]; [now] is the clock reading of its [pdf_date_now()]
    call and [user_info = None] is Python's [None]. *)
Definition finalize_info (now : utc_time) (template_info : gmap string string)
    (user_info : option (gmap string string)) : gmap string string :=
  let out := template_info in
  let out := dict_update out (match user_info with Some u => u | None => ∅ end) in
  let out := setdefault "/Creator" "Designer 6.5" out in
  let out := setdefault "/Producer" "Designer 6.5" out in
  let out := <["/CreationDate" := pdf_date_now now]> out in
  let out := <["/ModDate" := default "" (out !! "/CreationDate")]> out in
  out.

(** [_xml_escape]: ampersand first, then the angle brackets. *)
Fixpoint _xml_escape (s : string) : string :=
  match s with
  | EmptyString => EmptyString
  | String a r =>
      (if Ascii.eqb a "&" then "&amp;"
       else if Ascii.eqb a "<" then "&lt;"
       else if Ascii.eqb a ">" then "&gt;"
       else String a EmptyString) +:+ _xml_escape r
  end.

Definition build_xmp_packet (now : utc_time) (info : gmap string string) : xmp_packet :=
  let title := default "" (info !! "/Title") in
  let author := default "" (info !! "/Author") in
  let subject := default "" (info !! "/Subject") in
  let keywords := default "" (info !! "/Keywords") in
  let producer := default "Designer 6.5" (info !! "/Producer") in
  let creatortool := default "Designer 6.5" (info !! "/Creator") in
  let create_iso := now_iso_utc now in
  let modify_iso := create_iso in
  mkXmp (_xml_escape title)
    (if Py.truthy author then Some (_xml_escape author) else None)
    (_xml_escape subject) (_xml_escape keywords) (_xml_escape producer)
    (_xml_escape creatortool) create_iso modify_iso.

(** ** Writer helpers *)

(** The annotation list a page carries; none without [/Annots]. *)
Definition annots_of (p : page) : list widget :=
  match annots p with Some ws => ws | None => [] end.

(** [strip_annots(page)]: [del page["/Annots"]] when present. *)
Definition strip_annots (p : page) : page :=
  mkPage (mediabox p) (contents p) None.

(** PyPDF2's [page.merge_page(page2)]: the content of [page2] goes on top
    and [/Annots] becomes the concatenation of both annotation arrays. *)
Definition merge_page (p p2 : page) : page :=
  mkPage (mediabox p) (contents p ++ contents p2) (Some (annots_of p ++ annots_of p2)).

(** [str.rfind] of one character *)
Fixpoint rfind (a : ascii) (s : string) : option nat :=
  match s with
  | EmptyString => None
  | String b r =>
      match rfind a r with
      | Some i => Some (S i)
      | None => if Ascii.eqb a b then Some 0%nat else None
      end
  end.

(** [os.path.splitext(p)[0]] (POSIX): the extension starts at the last dot
    of the last component, leading dots of that component aside. *)
Definition splitext_root (p : string) : string :=
  match rfind "." p with
  | None => p
  | Some dot =>
      let start := match rfind "/" p with Some i => S i | None => 0%nat end in
      if (start <=? dot)%nat
         && existsb (fun a => negb (Ascii.eqb a "."))
              (list_ascii_of_string (substring start (dot - start) p))
      then substring 0 dot p
      else p
  end.

(** The page selection both writers compute from ["pages"]. *)
Definition wm_pages_all (cfg : option wm_config) : bool :=
  match cfg with
  | Some c =>
      wm_truthy cfg &&
      match cfg_pages c with
      | Some (PagesStr s) => String.eqb (Py.lower s) "all"
      | _ => false
      end
  | None => false
  end.

(** [{int(p) for p in pages_val}], empty when one conversion raises. *)
Fixpoint ints (ps : list (option Z)) : option (list Z) :=
  match ps with
  | [] => Some []
  | Some n :: rest => match ints rest with Some l => Some (n :: l) | None => None end
  | None :: _ => None
  end.

Definition wm_pages_set (cfg : option wm_config) : list Z :=
  match cfg with
  | Some c =>
      if wm_truthy cfg then
        match cfg_pages c with
        | Some (PagesStr s) => []
        | Some (PagesList ps) => match ints ps with Some l => l | None => [] end
        | _ => []
        end
      else []
  | None => []
  end.

(** [wm_cfg and (wm_pages_all or (i+1) in wm_pages_set)] for 0-based [i] *)
Definition watermarked (cfg : option wm_config) (i : nat) : bool :=
  wm_truthy cfg
  && (wm_pages_all cfg || existsb (Z.eqb (Z.of_nat (S i))) (wm_pages_set cfg)).

(** ** The two writers *)

Section Writers.

Variable M : machine.
Variable fuel : nat.

(** What both builders thread through their page loop: the writer's
    pages, [temps], and the files on disk. *)
Record build_state : Type := mkBuild {
  b_pages : list page;
  b_temps : list string;
  b_fs : gmap string file
}.

(** The watermark branch shared by pages 2..N of the full builder and all
    pages of the bypass builder: compose the layer for page [i] as file
    [root.wm_p{i+1}.pdf], read it back and merge the template page on top. *)
Definition add_watermarked_page (template_pdf root : string) (reader : pdf)
    (cfg : wm_config) (wm_visible : bool) (i : nat) (st : build_state)
  : result build_state :=
  let wm_out_i := root +:+ ".wm_p" +:+ decimal (S i) +:+ ".pdf" in
  let* fs := compose_watermark_page M fuel template_pdf i cfg wm_out_i
               wm_visible (b_fs st) in
  let* wm_reader_i := read_pdf fs wm_out_i in
  let* page := page_at wm_reader_i 0 in
  let* tpl := page_at reader i in
  Ok (mkBuild (b_pages st ++ [merge_page page tpl]) (b_temps st ++ [wm_out_i]) fs).

(** The body of [for i in range(...)] in both builders. *)
Definition add_page (template_pdf root : string) (reader : pdf)
    (wm_cfg : option wm_config) (wm_visible : bool) (st : build_state) (i : nat)
  : result build_state :=
  match wm_cfg with
  | Some cfg =>
      if watermarked wm_cfg i
      then add_watermarked_page template_pdf root reader cfg wm_visible i st
      else
        let* tpl := page_at reader i in
        Ok (mkBuild (b_pages st ++ [tpl]) (b_temps st) (b_fs st))
  | None =>
      let* tpl := page_at reader i in
      Ok (mkBuild (b_pages st ++ [tpl]) (b_temps st) (b_fs st))
  end.

Fixpoint add_pages (template_pdf root : string) (reader : pdf)
    (wm_cfg : option wm_config) (wm_visible : bool) (st : build_state) (idxs : list nat)
  : result build_state :=
  match idxs with
  | [] => Ok st
  | i :: rest =>
      let* st := add_page template_pdf root reader wm_cfg wm_visible st i in
      add_pages template_pdf root reader wm_cfg wm_visible st rest
  end.

(** [build_writer_with_layers]: returns the writer's pages and [temps]. *)
Definition build_writer_with_layers (template_pdf overlay_pdf_page1 : string)
    (wm_cfg : option wm_config) (wm_visible : bool) (fs : gmap string file)
  : result build_state :=
  let* reader := read_pdf fs template_pdf in
  let n := List.length (pdf_pages reader) in
  let root := splitext_root overlay_pdf_page1 in
  (* Page 1: optional watermark, then template, then overlay *)
  let* first :=
    match wm_cfg with
    | Some cfg =>
        if watermarked wm_cfg 0 then
          let wm_out := root +:+ ".wm_p1.pdf" in
          let* fs := compose_watermark_page M fuel template_pdf 0 cfg wm_out
                       wm_visible fs in
          let* wm_reader := read_pdf fs wm_out in
          let* base_page := page_at wm_reader 0 in
          Ok (Some base_page, [wm_out], fs)
        else Ok (None, [], fs)
    | None => Ok (None, [], fs)
    end in
  let '(base_page, temps, fs) := first in
  let* tpl_page0 := page_at reader 0 in
  let base_page :=
    match base_page with
    | None => tpl_page0
    | Some base_page => merge_page base_page tpl_page0
    end in
  let base_page := strip_annots base_page in
  let* ov_reader := read_pdf fs overlay_pdf_page1 in
  let* ov0 := page_at ov_reader 0 in
  let base_page := merge_page base_page ov0 in
  (* Remaining pages *)
  add_pages template_pdf root reader wm_cfg wm_visible
    (mkBuild [base_page] temps fs) (seq 1 (n - 1)).

(** [build_writer_wm_only] *)
Definition build_writer_wm_only (template_pdf : string)
    (wm_cfg : option wm_config) (wm_visible : bool) (fs : gmap string file)
  : result build_state :=
  let* reader := read_pdf fs template_pdf in
  let n := List.length (pdf_pages reader) in
  add_pages template_pdf (splitext_root template_pdf) reader wm_cfg wm_visible
    (mkBuild [] [] fs) (seq 0 n).

End Writers.

(** The information dictionary a fresh PyPDF2 [PdfWriter] starts with. *)
Definition writer_default_info : gmap string string := {[ "/Producer" := "PyPDF2" ]}.

(** [flatten_all(src_pdf, dst_pdf)]: [add_metadata] lays the source's
    entries over the writer's own. The XMP stream is not carried over:
    [r.trailer.get("/Root")] is an indirect reference, so the test
    ["/Metadata" in root] raises inside its [try] and nothing is
    attached. *)
Definition flatten_all (src_pdf dst_pdf : string) (fs : gmap string file)
  : result (gmap string file) :=
  let* r := read_pdf fs src_pdf in
  Ok (<[dst_pdf := PdfFile (mkPdf (map strip_annots (pdf_pages r))
                              (pdf_info r ∪ writer_default_info) None)]> fs).

(** ** The run: [main] after argument and configuration loading *)

Record args : Type := mkArgs {
  template : string;
  w9bp : bool;
  clean : bool;
  flatten : bool;
  fontwarp : bool;
  fontwarp_aggressive : bool;
  wm_visible : bool;
  output : string
}.

(** [s.replace(old, new)] for a non-empty [old]; [skip] characters of a
    match just replaced are still to be dropped. *)
Fixpoint replace_from (old new : string) (skip : nat) (s : string) : string :=
  match s with
  | EmptyString => EmptyString
  | String a r =>
      match skip with
      | S k => replace_from old new k r
      | O =>
          if String.prefix old s
          then new +:+ replace_from old new (String.length old - 1) r
          else String a (replace_from old new 0 r)
      end
  end.

Definition replace (old new s : string) : string := replace_from old new 0 s.

(** [os.remove(pth)] inside [try ... except Exception: pass] *)
Definition try_remove (fs : gmap string file) (pth : string) : gmap string file :=
  delete pth fs.

(** The names [os.listdir(".")] yields are the paths without a slash; the
    last loop of [main] removes those ending in [.png] that contain
    [.overlay]. *)
Definition is_overlay_png (name : string) : bool :=
  negb (Py.contains "/" name) && Py.endswith ".png" name && Py.contains ".overlay" name.

(** The loop sits in one [try]: the first [os.remove] that raises ends
    it. Every entry of this file system is a regular file, whose removal
    does not raise, so the loop removes all of them. *)
Definition remove_overlay_pngs (fs : gmap string file) : gmap string file :=
  filter (fun kv => is_overlay_png (fst kv) = false) fs.

(** Lines 861-885: the cleanup at the end of [main]. *)
Definition cleanup (a : args) (temp_files : list string) (fs : gmap string file)
  : gmap string file :=
  if w9bp a then
    if clean a then fold_left try_remove temp_files fs else fs
  else
    let fs := fold_left try_remove (if clean a then temp_files else firstn 1 temp_files) fs in
    remove_overlay_pngs fs.

(** [main] from the point where the profile, the watermark configuration
    and the user metadata are loaded. [data = None] is a run without
    [--data]; [t_info] and [t_xmp] are the clock readings of the two
    timestamp calls. Returns the disk and [temp_files] as they stand at
    the end of the run. *)
Definition main (E : env) (M : machine)
    (fuel : nat) (a : args) (data : option profile) (wm_cfg : option wm_config)
    (user_meta : gmap string string) (t_info t_xmp : utc_time) (d : disk)
  : result (disk * list string) :=
  let* built :=
    if w9bp a then
      let* b := build_writer_wm_only M fuel (template a) wm_cfg
                  (wm_visible a) (files d) in
      Ok (b, tmp_used d)
    else
      match data with
      | None => Raise "SystemExit"
      | Some data =>
          let overlay_path := splitext_root (output a) +:+ ".overlay.pdf" in
          let* ov := compose_overlay_page1 E fuel (template a) data overlay_path
                       (fontwarp a) (fontwarp_aggressive a) d in
          let '(tmp_pngs, d) := ov in
          let* b := build_writer_with_layers M fuel (template a) overlay_path
                      wm_cfg (wm_visible a) (files d) in
          Ok (mkBuild (b_pages b) (overlay_path :: b_temps b) (b_fs b), tmp_used d)
      end in
  let '(b, used) := built in
  let temp_files := b_temps b in
  (* Metadata *)
  let* reader := read_pdf (b_fs b) (template a) in
  let final_info := finalize_info t_info (read_template_info reader) (Some user_meta) in
  let xmp := build_xmp_packet t_xmp final_info in
  (* Write output *)
  let fs := <[output a := PdfFile (mkPdf (b_pages b) final_info (Some xmp))]> (b_fs b) in
  (* Optional flatten *)
  let* fs :=
    if flatten a
    then flatten_all (output a) (replace ".pdf" "_flat.pdf" (output a)) fs
    else Ok fs in
  (* Cleanup temp PDFs *)
  Ok (mkDisk (cleanup a temp_files fs) used, temp_files).

(** ** Binary64 addition

    The sum of two floats is the exact sum rounded to the nearest
    float, ties to the even significand; [round64] is that rounding on
    the rationals, down to the subnormal range (overflow aside). *)

(** Rounding to the nearest integer, ties to even. *)
Definition rne (q : Q) : Z :=
  let f := Qfloor q in
  match Qcompare (q - inject_Z f) (1 # 2) with
  | Lt => f
  | Gt => (f + 1)%Z
  | Eq => if Z.even f then f else (f + 1)%Z
  end.

(** The binary exponent of a non-zero rational: the largest [e] with
    [2 ^ e <= |q|]. *)
Definition ilog2 (q : Q) : Z :=
  let e := (Z.log2 (Z.abs (Qnum q)) - Z.log2 (Zpos (Qden q)))%Z in
  if Qleb (2 ^ e) (Qabs q) then e else (e - 1)%Z.

Definition round64 (q : Q) : Q :=
  if Qeq_bool q 0 then 0
  else let s := Z.max (ilog2 q - 52) (-1074) in
       Qred (inject_Z (rne (q / 2 ^ s)) * 2 ^ s).

Definition fadd64 (x y : Q) : Q := round64 (x + y).

(** ** Concrete surroundings used to run the model

    reportlab's Courier: every printable ASCII glyph is 600/1000 em wide,
    control characters have no width. *)

Fixpoint printable_glyphs (s : str) : Z :=
  match s with
  | [] => 0%Z
  | c :: r =>
      ((if (32 <=? c)%N && (c <=? 126)%N then 1 else 0) + printable_glyphs r)%Z
  end.

Definition courier_width (text : str) (font : string) (size : Q) : Q :=
  inject_Z (printable_glyphs text) * 0.6 * size.


Definition ascii_lower (s : str) : str :=
  map (fun c => if (65 <=? c)%N && (c <=? 90)%N then (c + 32)%N else c) s.

Definition ascii_upper (s : str) : str :=
  map (fun c => if (97 <=? c)%N && (c <=? 122)%N then (c - 32)%N else c) s.

Definition ascii_decimal (c : N) : bool := ((48 <=? c) && (c <=? 57))%N.

(** Temporary files named as [tempfile] names them, in [/tmp]. *)
Definition demo_env : env :=
  mkEnv courier_width
    (fun font_px s => inject_Z (printable_glyphs s) * 0.6 * inject_Z font_px)
    (fun n => "/tmp/tmpk3x9q" +:+ pad 3 n +:+ ".png")
    (u "2026-11-04") false ascii_lower ascii_upper ascii_decimal.

(** A hex parser that recognises nothing (the gray policy applies),
    with binary64 addition. *)
Definition demo_machine : machine := mkMachine (fun _ => Ok None) fadd64.

(** The same with the additions of exact arithmetic. *)
Definition exact_machine : machine := mkMachine (fun _ => Ok None) Qplus.

(** A two-page template whose first page has every widget of [roles] and
    whose second page has one link annotation. *)
Definition demo_template : pdf :=
  mkPdf
    [ mkPage (612, 792) [TemplateContent 0]
        (Some (map (fun kv => mkWidget (snd kv) "/Tx" (mkRect 50 700 300 714)) roles));
      mkPage (612, 792) [TemplateContent 1]
        (Some [mkWidget "link" "/Link" (mkRect 10 10 60 20)]) ]
    {[ "/Title" := "Form W-9" ]} None.

(** The watermark of the specification's second scenario: DRAFT on
    every page. *)
Definition demo_wm : wm_config :=
  mkWm (Some [mkItem (Some (VStr (u "DRAFT"))) 100 100 12 0]) None (Some (PagesStr "all"))
    None None false.

(** A working directory holding the template and an overlay layer. *)
Definition demo_files : gmap string file :=
  {[ "fw9.pdf" := PdfFile demo_template;
     "out.overlay.pdf" := canvas_file (612, 792) [] ]}.

(** The fonts returned by [n] successive calls of [next()]. *)
Fixpoint cycler_take (n : nat) (cy : FontCycler) : list string :=
  match n with
  | O => []
  | S n' => fst (FontCycler_next cy) :: cycler_take n' (snd (FontCycler_next cy))
  end.

(** The centre of cell [i] of a digit grid, as [draw_digits_in_cells_vec]
    computes it. *)
Definition cell_centre (x0 inset cell_w : Q) (i : nat) : Q :=
  x0 + inset + cell_w * (inject_Z (Z.of_nat i) + 0.5).

(** The strings a canvas sets with [drawCentredString], in order. *)
Definition centred_texts (c : canvas) : list str :=
  flat_map (fun o => match o with DrawCentredString _ _ t => [t] | _ => [] end) c.

(** Applying the greedy wrap of [draw_multiline_fit_vec] once more, to a
    list of lines. *)
Definition rewrap (sw : str -> string -> Q -> Q) (font : string) (size max_w : Q)
    (lines : list str) : list str :=
  fold_left (wrap_raw sw font size max_w) lines [].

(** A word that neither starts nor ends with white space. *)
Definition clean_word (w : str) : Prop := Txt.lstrip w = w /\ Txt.rstrip w = w.

(** A text none of whose words (the pieces between single spaces of its
    lines) starts or ends with white space. *)
Definition clean_words (text : str) : Prop :=
  forall raw w, In raw (Txt.splitlines text) -> In w (Txt.split_space raw) -> clean_word w.

Fixpoint spaceless (s : str) : bool :=
  match s with
  | [] => true
  | c :: r => negb (c =? 32)%N && spaceless r
  end.

(** A full-mode run with [--fontwarp-aggressive] and [--clean] on the
    template above, writing [out.pdf]. *)
Definition demo_args : args :=
  mkArgs "fw9.pdf" false true false false true false "out.pdf".

Definition demo_disk : disk := mkDisk {[ "fw9.pdf" := PdfFile demo_template ]} 0.

(** The rectangles of the template's first page by widget name, and the
    state in which the overlay composer starts drawing on [demo_disk]
    without font warping. *)
Definition demo_rects : gmap string rect :=
  rects_of (map (fun kv => mkWidget (snd kv) "/Tx" (mkRect 50 700 300 714)) roles).

Definition demo_state : overlay_state :=
  mkOverlay [] (FontCycler_init ["Helvetica"]) [] demo_disk.

(** An output as [main] writes it: the template's pages with its
    information dictionary and the XMP packet rendered from it. *)
Definition demo_output : pdf :=
  mkPdf (pdf_pages demo_template) (pdf_info demo_template)
    (Some (build_xmp_packet (mkTime 2026 11 4 9 30 0) (pdf_info demo_template))).

(** The coordinates a tiling loop visits: [k] values from [a] in steps
    of [s], each obtained from the previous one by one addition [add]. *)
Fixpoint grid (add : Q -> Q -> Q) (k : nat) (a s : Q) : list Q :=
  match k with
  | O => []
  | S k' => a :: grid add k' (add a s) s
  end.

(** The [n]-th of these coordinates. *)
Fixpoint coord (add : Q -> Q -> Q) (a s : Q) (n : nat) : Q :=
  match n with
  | O => a
  | S n' => coord add (add a s) s n'
  end.

(** How many of the exact coordinates [a, a + s, a + 2 s, ...] lie
    strictly below [bound], for a positive step: the ceiling of
    [(bound - a) / s], or none. *)
Definition tile_count (bound a s : Q) : nat :=
  Z.to_nat (Z.max 0 (Qceiling ((bound - a) / s))).

(** The points at which a canvas places text by [translate]. *)
Definition instances (c : canvas) : list (Q * Q) :=
  flat_map (fun o => match o with Translate x y => [(x, y)] | _ => [] end) c.



(** The annotations of template page [i], none beyond the last page. *)
Definition annots_at (reader : pdf) (i : nat) : list widget :=
  match nth_error (pdf_pages reader) i with
  | Some p => annots_of p
  | None => []
  end.

(** The name of the watermark layer file of 0-based page [i]. *)
Definition layer_name (root : string) (i : nat) : string :=
  root +:+ ".wm_p" +:+ decimal (S i) +:+ ".pdf".

(** Writer page [p] stands for template page [i]: the template page
    itself, or one canvas layer under the template page's content. *)
Definition layered (wm_cfg : option wm_config) (reader : pdf) (i : nat) (p : page) : Prop :=
  exists tpl, nth_error (pdf_pages reader) i = Some tpl /\
    if watermarked wm_cfg i
    then (exists c, contents p = Drawn c :: contents tpl)
         /\ annots_of p = annots_of tpl
    else p = tpl.


(** A profile or watermark value [norm] accepts: a string, or a value
    that is false ([None], [0], [False], an empty list). *)
Definition textual (v : option value) : bool :=
  match v with
  | Some (VOther true) => false
  | _ => true
  end.

(** [v or ""] for such a value, and its text after [norm]. *)
Definition raw_text (v : option value) : str :=
  match v with
  | Some (VStr s) => s
  | _ => []
  end.

Definition text_of (v : option value) : str := Txt.strip (raw_text v).



(** [drawString(x, y, ln)] for lines paired with their baselines. *)
Definition line_ops (x : Q) (ys : list Q) (lines : list str) : list op :=
  map (fun yl => DrawString x (fst yl) (snd yl)) (combine ys lines).

(** The images recorded in [tmp_images] are the temporary files handed
    out since the counter stood at [t0], in order, and no other
    temporary file has been created since. *)
Definition numbered (E : env) (t0 : nat) (st : overlay_state) : Prop :=
  o_tmp_images st = map (tmp_name E) (seq t0 (List.length (o_tmp_images st)))
  /\ tmp_used (o_disk st) = (t0 + List.length (o_tmp_images st))%nat.

(** What the digit grid adds for a group laid out in [slots] cells of
    [r]: [setFont(font, size)], then [drawCentredString(cx, y, ch)] for
    each character, at the centre of cell 0, 1, ... and on the
    baseline that centres the size in the rectangle. *)
Definition cell_ops (r : rect) (inset : Q) (slots : nat) (font : string) (size : Q)
    (group : str) : list op :=
  SetFont font size
  :: map (fun jc =>
            DrawCentredString
              (cell_centre (rx0 r) inset
                 ((rx1 r - rx0 r - 2 * inset) / inject_Z (Z.of_nat slots)) (fst jc))
              (ry0 r + (ry1 r - ry0 r - size) / 2 + 0.5)
              [snd jc])
       (combine (seq 0 (List.length group)) group).

(** What [drawImage] adds for an image stretched over [r]. *)
Definition image_op (path : string) (r : rect) : op :=
  DrawImage path (rx0 r) (ry0 r)
    (if Qltb 1 (rx1 r - rx0 r) then rx1 r - rx0 r else 1)
    (if Qltb 1 (ry1 r - ry0 r) then ry1 r - ry0 r else 1).
(** * Properties *)

(** ** Comparisons and loops *)

Lemma Qleb_true (x y : Q) : Qleb x y = true <-> x <= y.
Proof. unfold Qleb. apply Qle_bool_iff. Qed.

Lemma Qleb_false (x y : Q) : Qleb x y = false <-> y < x.
Proof.
  unfold Qleb. split; intros H.
  - apply Qnot_le_lt. intros Hle. apply Qle_bool_iff in Hle. congruence.
  - destruct (Qle_bool x y) eqn:Hb; [|reflexivity].
    apply Qle_bool_iff in Hb. lra.
Qed.

Lemma Qltb_true (x y : Q) : Qltb x y = true <-> x < y.
Proof.
  unfold Qltb. rewrite negb_true_iff. apply (Qleb_false y x).
Qed.

Lemma Qltb_false (x y : Q) : Qltb x y = false <-> y <= x.
Proof.
  unfold Qltb. rewrite negb_false_iff. apply (Qleb_true y x).
Qed.

Lemma pymax_cases (a b : Q) : (a < b /\ pymax a b = b) \/ (b <= a /\ pymax a b = a).
Proof.
  unfold pymax. destruct (Qltb a b) eqn:Hb.
  - left. split; [now apply Qltb_true | reflexivity].
  - right. split; [now apply Qltb_false | reflexivity].
Qed.

Lemma inject_nat_succ (n : nat) :
  inject_Z (Z.of_nat (S n)) == inject_Z (Z.of_nat n) + 1.
Proof. rewrite Nat2Z.inj_succ. unfold Z.succ. rewrite inject_Z_plus. reflexivity. Qed.

(** Every rational is below some multiple of a positive step. *)
Lemma archimedes (a s : Q) : 0 < s -> exists n : nat, a < inject_Z (Z.of_nat n) * s.
Proof.
  intros Hs.
  exists (Z.to_nat (Z.max 0 (Qfloor (a / s) + 1))).
  rewrite Z2Nat.id by lia.
  assert (Hfl : a / s < inject_Z (Qfloor (a / s) + 1)) by apply Qlt_floor.
  assert (Hmx : inject_Z (Qfloor (a / s) + 1) <= inject_Z (Z.max 0 (Qfloor (a / s) + 1))).
  { rewrite <- Zle_Qle. lia. }
  assert (Ha : a == (a / s) * s) by (field; lra).
  rewrite Ha at 1.
  apply Qmult_lt_compat_r; [exact Hs | lra].
Qed.

(** More fuel does not change the outcome of a loop that has finished. *)
Lemma while_fuel_le {S : Type} (cond : S -> bool) (body : S -> S) :
  forall n m s r, (n <= m)%nat -> while n cond body s = Ok r -> while m cond body s = Ok r.
Proof.
  induction n as [|n IH]; intros m s r Hle H; simpl in H; [discriminate|].
  destruct m as [|m]; [lia|]. simpl.
  destruct (cond s); [|exact H].
  apply (IH m); [lia | exact H].
Qed.

(** ** The single-line fitter *)

Section SingleLine.

Variable sw : str -> string -> Q -> Q.
Variables (text : str) (font : string) (w min_size : Q).

Let cond := fun size : Q => Qleb min_size size && Qltb w (sw text font size).
Let body := fun size : Q => size - SIZE_STEP.

(** The size search stops within [n + 1] tests once [n] steps lead below
    [min_size]; where it stops, the text fits unless the size is already
    below the minimum. *)
Lemma size_search_stops :
  forall n size,
    size - min_size < inject_Z (Z.of_nat n) * SIZE_STEP ->
    exists r, while (S n) cond body size = Ok r
              /\ r <= size
              /\ (min_size <= r -> sw text font r <= w).
Proof.
  induction n as [|n IH]; intros size Hn.
  - exists size. simpl. unfold cond at 1.
    assert (Hlt : size < min_size).
    { change (Z.of_nat 0) with 0%Z in Hn. unfold SIZE_STEP, inject_Z in Hn. lra. }
    apply Qleb_false in Hlt. rewrite Hlt. simpl.
    repeat split; [lra|]. intros Hge. apply Qleb_false in Hlt. lra.
  - change (while (S (S n)) cond body size)
      with (if cond size then while (S n) cond body (body size) else Ok size).
    destruct (cond size) eqn:Hc.
    + destruct (IH (body size)) as (r & Hr & Hle & Hfit).
      { unfold body. rewrite inject_nat_succ in Hn. unfold SIZE_STEP in *. lra. }
      exists r. repeat split; [exact Hr | | exact Hfit].
      unfold body, SIZE_STEP in Hle. lra.
    + exists size. repeat split; [lra|]. intros Hge.
      unfold cond in Hc. apply andb_false_iff in Hc. destruct Hc as [Hc|Hc].
      * apply Qleb_false in Hc. lra.
      * now apply Qltb_false in Hc.
Qed.

Lemma fit_single_line_result (max_size : Q) :
  exists fuel0 r,
    (forall fuel, (fuel0 <= fuel)%nat ->
       fit_single_line sw fuel text font w max_size min_size = Ok (pymax r min_size))
    /\ r <= max_size
    /\ (min_size <= r -> sw text font r <= w).
Proof.
  destruct (archimedes (max_size - min_size) SIZE_STEP) as [n Hn]; [reflexivity|].
  destruct (size_search_stops n max_size Hn) as (r & Hr & Hle & Hfit).
  exists (S n), r. repeat split; [|exact Hle|exact Hfit].
  intros fuel Hfuel. unfold fit_single_line.
  pose proof (while_fuel_le cond body (S n) fuel max_size r Hfuel Hr) as Hw.
  unfold cond, body in Hw. rewrite Hw. reflexivity.
Qed.

End SingleLine.

(** What [draw_text_fit_vec] leaves on the canvas once its size search
    has returned [size]: nothing for a text that is empty after [norm],
    else [setFont(font, size)] and [drawString(x0 + inset, y, text)]. *)
Lemma draw_text_fit_vec_after sw fuel c (text : str) r font max_size min_size inset vcenter size :
  fit_single_line sw fuel (Txt.strip text) font (rx1 r - rx0 r - 2 * inset) max_size min_size
    = Ok size ->
  draw_text_fit_vec sw fuel c (Some (VStr text)) (Some r) font max_size min_size inset vcenter
    = Ok (if Txt.truthy (Txt.strip text)
          then c ++ [SetFont font size;
                     DrawString (rx0 r + inset)
                       (if vcenter then ry0 r + (ry1 r - ry0 r - size) / 2 + 0.5
                        else ry0 r + inset)
                       (Txt.strip text)]
          else c).
Proof.
  intros Hfit. unfold draw_text_fit_vec. cbn [norm or_empty bind].
  destruct (Txt.truthy (Txt.strip text)); cbn [negb]; [|reflexivity].
  rewrite Hfit. reflexivity.
Qed.

(** C1. For every text string and every rectangle that holds the text
    at [min_size] plus the two insets (with [min_size <= max_size]), the
    single-line fitter terminates and picks a size in
    [min_size, max_size] at which the measured width plus two insets is
    at most the rectangle width; when no size of that range fits, it
    picks exactly [min_size]. In both cases it returns without raising,
    and what it adds to the canvas for a text that is not blank is
    [setFont(font, size)] followed by [drawString(x0 + inset, y, text)]
    with the stripped text, at the chosen size and at the baseline
    computed from it. *)
Theorem C1_single_line_fit
    (sw : str -> string -> Q -> Q) (c : canvas) (text : str) (r : rect)
    (font : string) (max_size min_size inset : Q) (vcenter : bool) :
  (min_size <= max_size ->
   sw (Txt.strip text) font min_size + 2 * inset <= rx1 r - rx0 r ->
   exists fuel0 size,
     (forall fuel, (fuel0 <= fuel)%nat ->
        fit_single_line sw fuel (Txt.strip text) font (rx1 r - rx0 r - 2 * inset)
          max_size min_size = Ok size
        /\ draw_text_fit_vec sw fuel c (Some (VStr text)) (Some r) font
             max_size min_size inset vcenter
           = Ok (if Txt.truthy (Txt.strip text)
                 then c ++ [SetFont font size;
                            DrawString (rx0 r + inset)
                              (if vcenter then ry0 r + (ry1 r - ry0 r - size) / 2 + 0.5
                               else ry0 r + inset)
                              (Txt.strip text)]
                 else c))
     /\ min_size <= size /\ size <= max_size
     /\ sw (Txt.strip text) font size + 2 * inset <= rx1 r - rx0 r)
  /\
  ((forall s, min_size <= s -> s <= max_size ->
      rx1 r - rx0 r < sw (Txt.strip text) font s + 2 * inset) ->
   exists fuel0,
     forall fuel, (fuel0 <= fuel)%nat ->
       fit_single_line sw fuel (Txt.strip text) font (rx1 r - rx0 r - 2 * inset)
         max_size min_size = Ok min_size
       /\ draw_text_fit_vec sw fuel c (Some (VStr text)) (Some r) font
            max_size min_size inset vcenter
          = Ok (if Txt.truthy (Txt.strip text)
                then c ++ [SetFont font min_size;
                           DrawString (rx0 r + inset)
                             (if vcenter then ry0 r + (ry1 r - ry0 r - min_size) / 2 + 0.5
                              else ry0 r + inset)
                             (Txt.strip text)]
                else c)).
Proof.
  destruct (fit_single_line_result sw (Txt.strip text) font (rx1 r - rx0 r - 2 * inset)
              min_size max_size) as (fuel0 & s & Hrun & Hle & Hfit).
  split.
  - intros Hmm Hwide.
    exists fuel0, (pymax s min_size). split.
    + intros fuel Hfuel. split; [now apply Hrun|].
      apply draw_text_fit_vec_after. now apply Hrun.
    + destruct (pymax_cases s min_size) as [[Hlt ->]|[Hge ->]].
      * repeat split; lra.
      * specialize (Hfit Hge). repeat split; lra.
  - intros Hnone.
    assert (Hmin : pymax s min_size = min_size).
    { destruct (pymax_cases s min_size) as [[_ H]|[Hge _]]; [exact H|].
      specialize (Hfit Hge). specialize (Hnone s Hge Hle). lra. }
    exists fuel0. intros fuel Hfuel.
    assert (Hok : fit_single_line sw fuel (Txt.strip text) font (rx1 r - rx0 r - 2 * inset)
                    max_size min_size = Ok min_size).
    { rewrite (Hrun fuel Hfuel). now rewrite Hmin. }
    split; [exact Hok|]. now apply draw_text_fit_vec_after.
Qed.

(** C1 at work: " hello " in Courier fits a 29pt-wide box at some size
    of [7, 10.5]; in a 10pt-wide box nothing fits and the text is drawn
    at size 7. *)
Lemma C1_single_line_fit_witness :
  (exists fuel0 size,
     (forall fuel, (fuel0 <= fuel)%nat ->
        fit_single_line courier_width fuel (Txt.strip (u " hello ")) "Courier"
          (rx1 (mkRect 0 0 29 14) - rx0 (mkRect 0 0 29 14) - 2 * 2) 10.5 7 = Ok size
        /\ draw_text_fit_vec courier_width fuel [] (Some (VStr (u " hello ")))
             (Some (mkRect 0 0 29 14)) "Courier" 10.5 7 2 true
           = Ok (if Txt.truthy (Txt.strip (u " hello "))
                 then [] ++ [SetFont "Courier" size;
                             DrawString (rx0 (mkRect 0 0 29 14) + 2)
                               (if true
                                then ry0 (mkRect 0 0 29 14)
                                     + (ry1 (mkRect 0 0 29 14) - ry0 (mkRect 0 0 29 14) - size) / 2
                                     + 0.5
                                else ry0 (mkRect 0 0 29 14) + 2)
                               (Txt.strip (u " hello "))]
                 else []))
     /\ 7 <= size /\ size <= 10.5
     /\ courier_width (Txt.strip (u " hello ")) "Courier" size + 2 * 2
        <= rx1 (mkRect 0 0 29 14) - rx0 (mkRect 0 0 29 14))
  /\
  (exists fuel0,
     forall fuel, (fuel0 <= fuel)%nat ->
       fit_single_line courier_width fuel (Txt.strip (u " hello ")) "Courier"
         (rx1 (mkRect 0 0 10 14) - rx0 (mkRect 0 0 10 14) - 2 * 2) 10.5 7 = Ok 7
       /\ draw_text_fit_vec courier_width fuel [] (Some (VStr (u " hello ")))
            (Some (mkRect 0 0 10 14)) "Courier" 10.5 7 2 true
          = Ok (if Txt.truthy (Txt.strip (u " hello "))
                then [] ++ [SetFont "Courier" 7;
                            DrawString (rx0 (mkRect 0 0 10 14) + 2)
                              (if true
                               then ry0 (mkRect 0 0 10 14)
                                    + (ry1 (mkRect 0 0 10 14) - ry0 (mkRect 0 0 10 14) - 7) / 2
                                    + 0.5
                               else ry0 (mkRect 0 0 10 14) + 2)
                              (Txt.strip (u " hello "))]
                else [])).
Proof.
  split.
  - apply (proj1 (C1_single_line_fit courier_width [] (u " hello ") (mkRect 0 0 29 14)
                    "Courier" 10.5 7 2 true)).
    + apply Qle_bool_iff. reflexivity.
    + apply Qle_bool_iff. vm_compute. reflexivity.
  - apply (proj2 (C1_single_line_fit courier_width [] (u " hello ") (mkRect 0 0 10 14)
                    "Courier" 10.5 7 2 true)).
    intros s Hlo Hhi.
    change (Txt.strip (u " hello ")) with (u "hello").
    unfold courier_width. change (printable_glyphs (u "hello")) with 5%Z.
    unfold inject_Z. simpl rx1. simpl rx0. lra.
Defined.

(** ** Texts and profile values *)

Lemma truthy_false (s : str) : Txt.truthy s = false <-> s = [].
Proof. destruct s; simpl; split; congruence. Qed.

Lemma truthy_true (s : str) : Txt.truthy s = true <-> s <> [].
Proof. destruct s; simpl; split; congruence. Qed.

(** [norm] returns on a text, on a false value and on an absent key... *)
Lemma norm_textual (v : option value) : textual v = true -> norm v = Ok (text_of v).
Proof. destruct v as [[s|[|]]|]; try discriminate; reflexivity. Qed.

Lemma or_empty_textual (exn : string) (v : option value) :
  textual v = true -> or_empty exn v = Ok (raw_text v).
Proof. destruct v as [[s|[|]]|]; try discriminate; reflexivity. Qed.

Lemma or_empty_raises (exn : string) (v : option value) :
  textual v = false -> or_empty exn v = Raise exn.
Proof. destruct v as [[s|[|]]|]; try discriminate; reflexivity. Qed.

(** ... and raises on every other value. *)
Lemma norm_raises (v : option value) :
  textual v = false -> norm v = Raise "AttributeError".
Proof. destruct v as [[s|[|]]|]; try discriminate; reflexivity. Qed.

(** ** Digits *)

Lemma digits_only_all (dec : N -> bool) (s : str) :
  forallb dec (Txt.digits_only dec s) = true.
Proof.
  induction s as [|c s IH]; [reflexivity|]. unfold Txt.digits_only in *. simpl.
  destruct (dec c) eqn:Hc; [simpl; now rewrite Hc|exact IH].
Qed.

Lemma digits_only_fixed (dec : N -> bool) (s : str) :
  forallb dec s = true -> Txt.digits_only dec s = s.
Proof.
  induction s as [|c s IH]; [reflexivity|]. unfold Txt.digits_only in *. simpl. intros H.
  apply andb_true_iff in H. destruct H as [Hc Hs]. now rewrite Hc, IH.
Qed.

(** A text of nine characters, spelled out. *)
Lemma length_nine (s : str) :
  List.length s = 9%nat ->
  exists c1 c2 c3 c4 c5 c6 c7 c8 c9, s = [c1; c2; c3; c4; c5; c6; c7; c8; c9].
Proof.
  intros H.
  do 9 (destruct s as [|? s]; [discriminate H|]).
  destruct s; [|discriminate H].
  repeat eexists.
Qed.

(** The cells loop appends one centred string per character, at the
    centres of consecutive cells and on one baseline. *)
Lemma draw_cells_spec x0 inset cell_w y :
  forall ds i c,
    draw_cells c x0 inset cell_w y i ds
    = c ++ map (fun jc => DrawCentredString (cell_centre x0 inset cell_w (fst jc)) y
                            [snd jc])
             (combine (seq i (List.length ds)) ds).
Proof.
  induction ds as [|ch ds IH]; intros i c; simpl; [now rewrite app_nil_r|].
  rewrite IH, <- app_assoc. reflexivity.
Qed.

(** The size search of the digit grid: it stops within [n + 1] tests once
    [n] steps lead to 6.5 or below. *)
Lemma digit_size_search_stops (sw : str -> string -> Q -> Q) (font : string) (cell_w : Q) :
  forall n size,
    size - 6.5 < inject_Z (Z.of_nat n) * SIZE_STEP ->
    exists r,
      while (S n)
        (fun size => Qltb 6.5 size && Qltb (cell_w - 1) (sw (u "8") font size))
        (fun size => size - SIZE_STEP) size = Ok r
      /\ r <= size
      /\ (6.5 < r -> sw (u "8") font r <= cell_w - 1)
      /\ (6.5 < size -> 6.5 - SIZE_STEP < r)
      /\ (size <= 6.5 -> r = size).
Proof.
  induction n as [|n IH]; intros size Hn.
  - exists size.
    assert (Hlt : size < 6.5).
    { change (Z.of_nat 0) with 0%Z in Hn. unfold SIZE_STEP, inject_Z in Hn. lra. }
    cbn [while].
    assert (Hc : Qltb 6.5 size = false) by (apply Qltb_false; lra).
    rewrite Hc. cbn [andb]. repeat split; try reflexivity; intros; lra.
  - cbn [while].
    destruct (Qltb 6.5 size) eqn:H1; cbn [andb].
    + destruct (Qltb (cell_w - 1) (sw (u "8") font size)) eqn:H2.
      * apply Qltb_true in H1.
        destruct (IH (size - SIZE_STEP)) as (r & Hr & Hle & Hfit & Hlow & Heq).
        { rewrite inject_nat_succ in Hn. unfold SIZE_STEP in *. lra. }
        exists r. split; [exact Hr|]. split; [unfold SIZE_STEP in *; lra|].
        split; [exact Hfit|]. split; [|intros; lra].
        intros _. destruct (Qlt_le_dec 6.5 (size - SIZE_STEP)) as [Hbig|Hsmall].
        -- now apply Hlow.
        -- rewrite (Heq Hsmall). unfold SIZE_STEP in *. lra.
      * exists size. apply Qltb_true in H1. apply Qltb_false in H2.
        repeat split; try reflexivity; intros; unfold SIZE_STEP; lra.
    + exists size. apply Qltb_false in H1.
      repeat split; try reflexivity; intros; lra.
Qed.

(** Twenty-nine tests cover every size search of the composer: the
    widest one runs from 12 down to 6.5 in steps of 0.2. *)
Lemma steps_cover (max_size min_size : Q) :
  max_size - min_size <= 5.5 ->
  max_size - min_size < inject_Z (Z.of_nat 28) * SIZE_STEP.
Proof.
  intros H. change (Z.of_nat 28) with 28%Z. unfold SIZE_STEP, inject_Z. lra.
Qed.

(** ** Taxpayer number *)



(** In vector mode a group of decimal digits that fills at most its
    cells is laid out in them, at a size between 6.3 and 12, in the
    next font of the cycler. *)
Lemma draw_digits_vector_group E fuel st r g slots :
  forallb (is_decimal E) g = true -> g <> [] -> (List.length g <= slots)%nat ->
  (29 <= fuel)%nat ->
  exists size,
    draw_digits E fuel false st (Some r) g slots 12
    = Ok (mkOverlay
            (o_canvas st ++ cell_ops r 2 slots (fst (FontCycler_next (o_cycler st))) size g)
            (snd (FontCycler_next (o_cycler st))) (o_tmp_images st) (o_disk st))
    /\ 6.5 - SIZE_STEP < size /\ size <= 12.
Proof.
  intros Hdig Hne Hlen Hfuel. unfold draw_digits, with_next_font.
  destruct (FontCycler_next (o_cycler st)) as [font cy]. cbn [fst snd].
  unfold draw_digits_in_cells_vec, digits_of. cbn [or_empty bind].
  rewrite (digits_only_fixed _ _ Hdig).
  assert (Ht : Txt.truthy g = true) by now apply truthy_true.
  rewrite Ht. cbn [negb].
  destruct slots as [|k]; [destruct g; [congruence|simpl in Hlen; lia]|].
  destruct (digit_size_search_stops (stringWidth E) font
              ((rx1 r - rx0 r - 2 * 2) / inject_Z (Z.of_nat (S k))) 28 12)
    as (s & Hs & Hle & _ & Hlow & _); [apply steps_cover; lra|].
  rewrite (while_fuel_le _ _ 29 fuel 12 s Hfuel Hs). cbn [bind].
  exists s. split; [|split; [apply Hlow; lra|exact Hle]].
  rewrite draw_cells_spec, <- app_assoc.
  unfold Txt.slice. rewrite Nat.sub_0_r. cbn [skipn].
  rewrite firstn_all2 by exact Hlen. reflexivity.
Qed.

(** In aggressive mode a group of decimal digits becomes one image: a
    new temporary file holding the first [slots] digits, recorded in
    [tmp_images] and stretched over the rectangle; the cycler is not
    touched. *)
Lemma draw_digits_aggressive_group E fuel st r g slots :
  forallb (is_decimal E) g = true -> (List.length g <= slots)%nat -> slots <> 0%nat ->
  draw_digits E fuel true st (Some r) g slots 12
  = Ok (mkOverlay
          (o_canvas st ++ [image_op (tmp_name E (tmp_used (o_disk st))) r])
          (o_cycler st)
          (o_tmp_images st ++ [tmp_name E (tmp_used (o_disk st))])
          (mkDisk (<[tmp_name E (tmp_used (o_disk st))
                     := PngFile (PngDigits g (px (rx1 r - rx0 r)) (px (ry1 r - ry0 r))
                                   48 slots)]> (files (o_disk st)))
             (S (tmp_used (o_disk st))))).
Proof.
  intros Hdig Hlen Hslots. unfold draw_digits, _draw_digits_grid_to_png, digits_of.
  cbn [or_empty bind]. rewrite (digits_only_fixed _ _ Hdig).
  destruct slots as [|k]; [contradiction|]. cbn [bind].
  unfold Txt.slice. rewrite Nat.sub_0_r. cbn [skipn].
  rewrite firstn_all2 by exact Hlen. reflexivity.
Qed.



Lemma split_ssn_nine dec (t : str) c1 c2 c3 c4 c5 c6 c7 c8 c9 :
  Txt.digits_only dec t = [c1; c2; c3; c4; c5; c6; c7; c8; c9] ->
  split_ssn dec (Some (VStr t)) = Ok ([c1; c2; c3], [c4; c5], [c6; c7; c8; c9]).
Proof.
  intros H. unfold split_ssn, digits_of. cbn [or_empty bind]. rewrite H. reflexivity.
Qed.

Lemma split_ein_nine dec (t : str) c1 c2 c3 c4 c5 c6 c7 c8 c9 :
  Txt.digits_only dec t = [c1; c2; c3; c4; c5; c6; c7; c8; c9] ->
  split_ein dec (Some (VStr t)) = Ok ([c1; c2], [c3; c4; c5; c6; c7; c8; c9]).
Proof.
  intros H. unfold split_ein, digits_of. cbn [or_empty bind]. rewrite H. reflexivity.
Qed.

(** The routing of the TIN block on a profile whose two fields are
    texts or false values. *)
Lemma draw_tin_routes E fuel agg rects (data : profile) st :
  textual (data !! "ssn") = true -> textual (data !! "ein") = true ->
  draw_tin E fuel agg rects data st
  = if Txt.truthy (text_of (data !! "ssn")) && negb (Txt.truthy (text_of (data !! "ein")))
    then
      let* groups := split_ssn (is_decimal E) (Some (VStr (text_of (data !! "ssn")))) in
      let '(a, b, c3) := groups in
      let* st := draw_digits E fuel agg st (role_rect rects "ssn_1") a 3 12 in
      let* st := draw_digits E fuel agg st (role_rect rects "ssn_2") b 2 12 in
      draw_digits E fuel agg st (role_rect rects "ssn_3") c3 4 12
    else if Txt.truthy (text_of (data !! "ein")) then
      let* groups := split_ein (is_decimal E) (Some (VStr (text_of (data !! "ein")))) in
      let '(a, b) := groups in
      let* st := draw_digits E fuel agg st (role_rect rects "ein_1") a 2 12 in
      draw_digits E fuel agg st (role_rect rects "ein_2") b 7 12
    else Ok st.
Proof.
  intros Hs He. unfold draw_tin.
  rewrite (norm_textual _ Hs), (norm_textual _ He). reflexivity.
Qed.

Lemma nine_nonempty dec (t : str) :
  List.length (Txt.digits_only dec t) = 9%nat -> Txt.truthy t = true.
Proof. destruct t; [discriminate|reflexivity]. Qed.

(** Each of nine decimal digits is one. *)
Lemma nine_digits dec (t : str) c1 c2 c3 c4 c5 c6 c7 c8 c9 :
  Txt.digits_only dec t = [c1; c2; c3; c4; c5; c6; c7; c8; c9] ->
  forallb dec [c1; c2; c3] = true /\ forallb dec [c4; c5] = true
  /\ forallb dec [c6; c7; c8; c9] = true
  /\ forallb dec [c1; c2] = true /\ forallb dec [c3; c4; c5; c6; c7; c8; c9] = true.
Proof.
  intros H. pose proof (digits_only_all dec t) as Hall. rewrite H in Hall.
  cbn [forallb] in *.
  repeat (apply andb_true_iff in Hall; destruct Hall as [? Hall]).
  repeat split; repeat (apply andb_true_iff; split); assumption.
Qed.




(** C5, as far as it holds: for every profile record whose [ssn] and
    [ein] fields are texts or false values (absent, null, empty), a
    field counting as empty when nothing is left of it after [norm].
    With a nine-digit SSN and an empty EIN the composer draws the digits
    in groups of 3, 2 and 4 into the boxes of ssn_1, ssn_2 and ssn_3;
    with a nine-digit EIN, with or without an SSN beside it, it draws
    the groups of 2 and 7 digits into ein_1 and ein_2 instead; with both
    fields empty it draws nothing. Drawing a group means: in vector
    mode, one [setFont] in the next font of the cycler at a size between
    6.3 and 12, then one centred string per digit at the centre of its
    cell of the box; in aggressive mode, one new temporary image holding
    the digits of the group, stretched over the box. The SSN
    "123-45-6789" gives the groups "123", "45", "6789" and the EIN
    "12-3456789" the groups "12", "3456789". *)
Theorem C5_tin_routing E fuel rects (data : profile) st :
  textual (data !! "ssn") = true -> textual (data !! "ein") = true ->
  (29 <= fuel)%nat ->
  let ssn := text_of (data !! "ssn") in
  let ein := text_of (data !! "ein") in
  let cy1 := snd (FontCycler_next (o_cycler st)) in
  let cy2 := snd (FontCycler_next cy1) in
  let cy3 := snd (FontCycler_next cy2) in
  let f1 := fst (FontCycler_next (o_cycler st)) in
  let f2 := fst (FontCycler_next cy1) in
  let f3 := fst (FontCycler_next cy2) in
  let t := tmp_used (o_disk st) in
  (forall c1 c2 c3 c4 c5 c6 c7 c8 c9 r1 r2 r3,
     ein = [] ->
     Txt.digits_only (is_decimal E) ssn = [c1; c2; c3; c4; c5; c6; c7; c8; c9] ->
     role_rect rects "ssn_1" = Some r1 -> role_rect rects "ssn_2" = Some r2 ->
     role_rect rects "ssn_3" = Some r3 ->
     (exists s1 s2 s3,
        draw_tin E fuel false rects data st
        = Ok (mkOverlay
                (o_canvas st ++ cell_ops r1 2 3 f1 s1 [c1; c2; c3]
                 ++ cell_ops r2 2 2 f2 s2 [c4; c5]
                 ++ cell_ops r3 2 4 f3 s3 [c6; c7; c8; c9])
                cy3 (o_tmp_images st) (o_disk st))
        /\ (6.5 - SIZE_STEP < s1 /\ s1 <= 12) /\ (6.5 - SIZE_STEP < s2 /\ s2 <= 12)
        /\ (6.5 - SIZE_STEP < s3 /\ s3 <= 12))
     /\ draw_tin E fuel true rects data st
        = Ok (mkOverlay
                (o_canvas st ++ [image_op (tmp_name E t) r1; image_op (tmp_name E (S t)) r2;
                                 image_op (tmp_name E (S (S t))) r3])
                (o_cycler st)
                (o_tmp_images st ++ [tmp_name E t; tmp_name E (S t); tmp_name E (S (S t))])
                (mkDisk
                   (<[tmp_name E (S (S t))
                      := PngFile (PngDigits [c6; c7; c8; c9] (px (rx1 r3 - rx0 r3))
                                    (px (ry1 r3 - ry0 r3)) 48 4)]>
                      (<[tmp_name E (S t)
                         := PngFile (PngDigits [c4; c5] (px (rx1 r2 - rx0 r2))
                                       (px (ry1 r2 - ry0 r2)) 48 2)]>
                         (<[tmp_name E t
                            := PngFile (PngDigits [c1; c2; c3] (px (rx1 r1 - rx0 r1))
                                          (px (ry1 r1 - ry0 r1)) 48 3)]>
                            (files (o_disk st)))))
                   (S (S (S t))))))
  /\ (forall c1 c2 c3 c4 c5 c6 c7 c8 c9 r1 r2,
        Txt.digits_only (is_decimal E) ein = [c1; c2; c3; c4; c5; c6; c7; c8; c9] ->
        role_rect rects "ein_1" = Some r1 -> role_rect rects "ein_2" = Some r2 ->
        (exists s1 s2,
           draw_tin E fuel false rects data st
           = Ok (mkOverlay
                   (o_canvas st ++ cell_ops r1 2 2 f1 s1 [c1; c2]
                    ++ cell_ops r2 2 7 f2 s2 [c3; c4; c5; c6; c7; c8; c9])
                   cy2 (o_tmp_images st) (o_disk st))
           /\ (6.5 - SIZE_STEP < s1 /\ s1 <= 12) /\ (6.5 - SIZE_STEP < s2 /\ s2 <= 12))
        /\ draw_tin E fuel true rects data st
           = Ok (mkOverlay
                   (o_canvas st ++ [image_op (tmp_name E t) r1;
                                    image_op (tmp_name E (S t)) r2])
                   (o_cycler st)
                   (o_tmp_images st ++ [tmp_name E t; tmp_name E (S t)])
                   (mkDisk
                      (<[tmp_name E (S t)
                         := PngFile (PngDigits [c3; c4; c5; c6; c7; c8; c9]
                                       (px (rx1 r2 - rx0 r2)) (px (ry1 r2 - ry0 r2)) 48 7)]>
                         (<[tmp_name E t
                            := PngFile (PngDigits [c1; c2] (px (rx1 r1 - rx0 r1))
                                          (px (ry1 r1 - ry0 r1)) 48 2)]>
                            (files (o_disk st))))
                      (S (S t)))))
  /\ (ssn = [] -> ein = [] ->
      forall agg, draw_tin E fuel agg rects data st = Ok st)
  /\ ((forall c, (c < 128)%N -> is_decimal E c = ascii_decimal c) ->
      split_ssn (is_decimal E) (Some (VStr (u "123-45-6789")))
      = Ok (u "123", u "45", u "6789")
      /\ split_ein (is_decimal E) (Some (VStr (u "12-3456789")))
         = Ok (u "12", u "3456789")).
Proof.
  intros Ts Te Hfuel ssn ein cy1 cy2 cy3 f1 f2 f3 t.
  split; [|split; [|split]].
  - intros c1 c2 c3 c4 c5 c6 c7 c8 c9 r1 r2 r3 He Hd R1 R2 R3.
    destruct (nine_digits _ _ _ _ _ _ _ _ _ _ _ Hd) as (G1 & G2 & G3 & _ & _).
    assert (Hs : Txt.truthy ssn = true)
      by (apply (nine_nonempty (is_decimal E)); now rewrite Hd).
    split.
    + rewrite draw_tin_routes by assumption.
      fold ssn ein. rewrite Hs, He. cbn [Txt.truthy negb andb].
      rewrite (split_ssn_nine _ _ _ _ _ _ _ _ _ _ _ Hd). cbn [bind]. rewrite R1, R2, R3.
      destruct (draw_digits_vector_group E fuel st r1 [c1; c2; c3] 3 G1)
        as (s1 & -> & B1); [discriminate | simpl; lia | exact Hfuel |].
      cbn [bind].
      match goal with
      | |- context [draw_digits E fuel false ?s (Some r2) ?g 2 12] =>
          destruct (draw_digits_vector_group E fuel s r2 g 2 G2)
            as (s2 & -> & B2); [discriminate | simpl; lia | exact Hfuel |]
      end.
      cbn [bind].
      match goal with
      | |- context [draw_digits E fuel false ?s (Some r3) ?g 4 12] =>
          destruct (draw_digits_vector_group E fuel s r3 g 4 G3)
            as (s3 & -> & B3); [discriminate | simpl; lia | exact Hfuel |]
      end.
      exists s1, s2, s3. cbn [o_canvas o_cycler o_tmp_images o_disk].
      split; [now rewrite <- !app_assoc|]. repeat split; tauto.
    + rewrite draw_tin_routes by assumption.
      fold ssn ein. rewrite Hs, He. cbn [Txt.truthy negb andb].
      rewrite (split_ssn_nine _ _ _ _ _ _ _ _ _ _ _ Hd). cbn [bind]. rewrite R1, R2, R3.
      rewrite draw_digits_aggressive_group by (try assumption; try discriminate; simpl; lia).
      cbn [bind].
      rewrite draw_digits_aggressive_group by (try assumption; try discriminate; simpl; lia).
      cbn [bind].
      rewrite draw_digits_aggressive_group by (try assumption; try discriminate; simpl; lia).
      cbn [o_canvas o_cycler o_tmp_images o_disk files tmp_used].
      rewrite <- !app_assoc. reflexivity.
  - intros c1 c2 c3 c4 c5 c6 c7 c8 c9 r1 r2 Hd R1 R2.
    destruct (nine_digits _ _ _ _ _ _ _ _ _ _ _ Hd) as (_ & _ & _ & G1 & G2).
    assert (He : Txt.truthy ein = true)
      by (apply (nine_nonempty (is_decimal E)); now rewrite Hd).
    split.
    + rewrite draw_tin_routes by assumption.
      fold ssn ein. rewrite He. cbn [negb]. rewrite andb_false_r.
      rewrite (split_ein_nine _ _ _ _ _ _ _ _ _ _ _ Hd). cbn [bind]. rewrite R1, R2.
      destruct (draw_digits_vector_group E fuel st r1 [c1; c2] 2 G1)
        as (s1 & -> & B1); [discriminate | simpl; lia | exact Hfuel |].
      cbn [bind].
      match goal with
      | |- context [draw_digits E fuel false ?s (Some r2) ?g 7 12] =>
          destruct (draw_digits_vector_group E fuel s r2 g 7 G2)
            as (s2 & -> & B2); [discriminate | simpl; lia | exact Hfuel |]
      end.
      exists s1, s2. cbn [o_canvas o_cycler o_tmp_images o_disk].
      split; [now rewrite <- !app_assoc|]. repeat split; tauto.
    + rewrite draw_tin_routes by assumption.
      fold ssn ein. rewrite He. cbn [negb]. rewrite andb_false_r.
      rewrite (split_ein_nine _ _ _ _ _ _ _ _ _ _ _ Hd). cbn [bind]. rewrite R1, R2.
      rewrite draw_digits_aggressive_group by (try assumption; try discriminate; simpl; lia).
      cbn [bind].
      rewrite draw_digits_aggressive_group by (try assumption; try discriminate; simpl; lia).
      cbn [o_canvas o_cycler o_tmp_images o_disk files tmp_used].
      rewrite <- !app_assoc. reflexivity.
  - intros Hs He agg. rewrite draw_tin_routes by assumption.
    fold ssn ein. rewrite Hs, He. reflexivity.
  - intros Hdec.
    assert (D1 : Txt.digits_only (is_decimal E) (u "123-45-6789") = u "123456789").
    { unfold Txt.digits_only. change (u "123-45-6789") with [49; 50; 51; 45; 52; 53; 45; 54; 55; 56; 57]%N.
      cbn [List.filter]. rewrite !Hdec by reflexivity. reflexivity. }
    assert (D2 : Txt.digits_only (is_decimal E) (u "12-3456789") = u "123456789").
    { unfold Txt.digits_only. change (u "12-3456789") with [49; 50; 45; 51; 52; 53; 54; 55; 56; 57]%N.
      cbn [List.filter]. rewrite !Hdec by reflexivity. reflexivity. }
    split.
    + apply (split_ssn_nine _ _ _ _ _ _ _ _ _ _ _ D1).
    + apply (split_ein_nine _ _ _ _ _ _ _ _ _ _ _ D2).
Qed.

(** C5 at work on the profiles of the specification's third scenario,
    on the template's boxes: an SSN alone reaches the page as its nine
    digits, an SSN together with an EIN as the nine digits of the EIN,
    and an empty profile draws nothing. *)
Lemma C5_tin_routing_witness :
  (exists st',
     draw_tin demo_env 40 false demo_rects {[ "ssn" := VStr (u "123-45-6789") ]} demo_state
     = Ok st'
     /\ centred_texts (o_canvas st')
        = [u "1"; u "2"; u "3"; u "4"; u "5"; u "6"; u "7"; u "8"; u "9"])
  /\ (exists st',
        draw_tin demo_env 40 false demo_rects
          {[ "ssn" := VStr (u "123-45-6789"); "ein" := VStr (u "98-7654321") ]} demo_state
        = Ok st'
        /\ centred_texts (o_canvas st')
           = [u "9"; u "8"; u "7"; u "6"; u "5"; u "4"; u "3"; u "2"; u "1"])
  /\ (exists st',
        draw_tin demo_env 40 true demo_rects
          {[ "ssn" := VStr (u "123-45-6789"); "ein" := VStr (u "98-7654321") ]} demo_state
        = Ok st'
        /\ files (o_disk st') !! "/tmp/tmpk3x9q001.png"
           = Some (PngFile (PngDigits (u "7654321") 750 42 48 7)))
  /\ draw_tin demo_env 40 true demo_rects ∅ demo_state = Ok demo_state
  /\ split_ssn (is_decimal demo_env) (Some (VStr (u "123-45-6789")))
     = Ok (u "123", u "45", u "6789")
  /\ split_ein (is_decimal demo_env) (Some (VStr (u "12-3456789")))
     = Ok (u "12", u "3456789").
Proof.
  pose proof (C5_tin_routing demo_env 40 demo_rects
                ({[ "ssn" := VStr (u "123-45-6789") ]} : profile) demo_state) as H1.
  pose proof (C5_tin_routing demo_env 40 demo_rects
                ({[ "ssn" := VStr (u "123-45-6789");
                    "ein" := VStr (u "98-7654321") ]} : profile) demo_state) as H2.
  pose proof (C5_tin_routing demo_env 40 demo_rects (∅ : profile) demo_state) as H3.
  specialize (H1 ltac:(reflexivity) ltac:(reflexivity) ltac:(lia)).
  specialize (H2 ltac:(reflexivity) ltac:(reflexivity) ltac:(lia)).
  specialize (H3 ltac:(reflexivity) ltac:(reflexivity) ltac:(lia)).
  cbv zeta in H1, H2, H3.
  destruct H1 as (H1 & _). destruct H2 as (_ & H2 & _). destruct H3 as (_ & _ & H3 & H4).
  split; [|split; [|split; [|split]]].
  - destruct (H1 49 50 51 52 53 54 55 56 57
                (mkRect 50 700 300 714) (mkRect 50 700 300 714) (mkRect 50 700 300 714))%N
      as ((s1 & s2 & s3 & Heq & _) & _); try reflexivity.
    eexists. split; [exact Heq|]. reflexivity.
  - destruct (H2 57 56 55 54 53 52 51 50 49
                (mkRect 50 700 300 714) (mkRect 50 700 300 714))%N
      as ((s1 & s2 & Heq & _) & _); try reflexivity.
    eexists. split; [exact Heq|]. reflexivity.
  - destruct (H2 57 56 55 54 53 52 51 50 49
                (mkRect 50 700 300 714) (mkRect 50 700 300 714))%N
      as (_ & Heq); try reflexivity.
    eexists. split; [exact Heq|]. vm_compute. reflexivity.
  - apply H3; reflexivity.
  - apply H4. intros c _. reflexivity.
Defined.

(** A record whose SSN is a JSON number is not drawn at all: [norm]
    raises on it in either mode. *)
Lemma C5_numeric_ssn_raises :
  textual (({[ "ssn" := VOther true ]} : profile) !! "ssn") = false
  /\ draw_tin demo_env 40 false demo_rects {[ "ssn" := VOther true ]} demo_state
     = Raise "AttributeError"
  /\ draw_tin demo_env 40 true demo_rects {[ "ssn" := VOther true ]} demo_state
     = Raise "AttributeError".
Proof. repeat split. Qed.

(** ** Classification *)








(** ** Metadata synthesis *)

Lemma setdefault_lookup_eq (k d : string) (m : gmap string string) :
  setdefault k d m !! k = Some (default d (m !! k)).
Proof.
  unfold setdefault. destruct (m !! k) as [v|] eqn:H; simpl.
  - exact H.
  - apply lookup_insert_eq.
Qed.

Lemma setdefault_lookup_ne (k k' d : string) (m : gmap string string) :
  k <> k' -> setdefault k' d m !! k = m !! k.
Proof.
  intros Hne. unfold setdefault. destruct (m !! k'); [reflexivity|].
  apply lookup_insert_ne. congruence.
Qed.

Lemma setdefault_lookup_some (k k' d v : string) (m : gmap string string) :
  m !! k = Some v -> setdefault k' d m !! k = Some v.
Proof.
  intros H. destruct (decide (k = k')) as [->|Hne].
  - rewrite setdefault_lookup_eq, H. reflexivity.
  - now rewrite setdefault_lookup_ne.
Qed.

(** The lookups of [finalize_info], key by key. *)
Lemma finalize_info_lookup now tmpl user k :
  finalize_info now tmpl user !! k =
    if decide (k = "/ModDate") then Some (pdf_date_now now)
    else if decide (k = "/CreationDate") then Some (pdf_date_now now)
    else setdefault "/Producer" "Designer 6.5"
           (setdefault "/Creator" "Designer 6.5"
              (dict_update tmpl (match user with Some u => u | None => ∅ end))) !! k.
Proof.
  unfold finalize_info.
  destruct (decide (k = "/ModDate")) as [->|H1].
  - rewrite lookup_insert_eq, lookup_insert_eq. reflexivity.
  - rewrite lookup_insert_ne by congruence.
    destruct (decide (k = "/CreationDate")) as [->|H2].
    + apply lookup_insert_eq.
    + rewrite lookup_insert_ne by congruence. reflexivity.
Qed.




(** ** Annotations through the two writers *)

(** Splitting [let* x := r in k = Ok v] into the two calls. *)
Lemma bind_Ok {A B : Type} (r : result A) (k : A -> result B) (v : B) :
  bind r k = Ok v -> exists a, r = Ok a /\ k a = Ok v.
Proof. destruct r; simpl; intros H; try discriminate. eauto. Qed.

Tactic Notation "split_bind" hyp(H) ident(a) ident(Ha) :=
  apply bind_Ok in H; destruct H as (a & Ha & H).

Lemma page_at_annots reader i p : page_at reader i = Ok p -> annots_of p = annots_at reader i.
Proof.
  unfold page_at, annots_at. destruct (nth_error (pdf_pages reader) i); [|discriminate].
  now intros [= ->].
Qed.

(** A saved canvas read back: one page, without annotations. *)
Lemma canvas_file_page fs path sz c doc p :
  read_pdf (<[path := canvas_file sz c]> fs) path = Ok doc ->
  page_at doc 0 = Ok p ->
  annots_of p = [].
Proof.
  unfold read_pdf. rewrite lookup_insert_eq. unfold canvas_file.
  intros [= <-]. unfold page_at. simpl. now intros [= <-].
Qed.

Lemma merge_page_annots (p p2 : page) :
  annots_of (merge_page p p2) = annots_of p ++ annots_of p2.
Proof. reflexivity. Qed.

Lemma compose_watermark_page_writes M fuel template_pdf i cfg out_pdf vis fs fs' :
  compose_watermark_page M fuel template_pdf i cfg out_pdf vis fs = Ok fs' ->
  exists sz c, fs' = <[out_pdf := canvas_file sz c]> fs.
Proof.
  unfold compose_watermark_page. intros H.
  split_bind H reader Hr. split_bind H p Hp.
  destruct (mediabox p) as [w h].
  split_bind H rgb Hrgb. destruct rgb as [[r g] b].
  split_bind H c0 Hc0. split_bind H c Hc. injection H as <-. eauto.
Qed.

(** Every page the loop adds carries the annotations of its template
    page, watermarked or not. *)
Lemma add_page_annots M fuel template_pdf root reader wm_cfg vis st i st' :
  add_page M fuel template_pdf root reader wm_cfg vis st i = Ok st' ->
  map annots_of (b_pages st') = map annots_of (b_pages st) ++ [annots_at reader i].
Proof.
  assert (Hcopy : forall st',
            (let* tpl := page_at reader i in
             Ok (mkBuild (b_pages st ++ [tpl]) (b_temps st) (b_fs st))) = Ok st' ->
            map annots_of (b_pages st') = map annots_of (b_pages st) ++ [annots_at reader i]).
  { intros s H. split_bind H tpl Ht. injection H as <-. simpl.
    rewrite map_app. simpl. now rewrite (page_at_annots _ _ _ Ht). }
  unfold add_page. destruct wm_cfg as [cfg|]; [|apply Hcopy].
  destruct (watermarked (Some cfg) i); [|apply Hcopy].
  unfold add_watermarked_page. intros H.
  split_bind H fs' Hfs. split_bind H wm_reader Hw. split_bind H pg Hpg.
  split_bind H tpl Ht. injection H as <-. simpl.
  destruct (compose_watermark_page_writes _ _ _ _ _ _ _ _ _ Hfs) as (sz & c & ->).
  rewrite map_app. simpl. rewrite merge_page_annots.
  rewrite (canvas_file_page _ _ _ _ _ _ Hw Hpg). simpl.
  now rewrite (page_at_annots _ _ _ Ht).
Qed.

Lemma add_pages_annots M fuel template_pdf root reader wm_cfg vis idxs :
  forall st st',
    add_pages M fuel template_pdf root reader wm_cfg vis st idxs = Ok st' ->
    map annots_of (b_pages st')
    = map annots_of (b_pages st) ++ map (annots_at reader) idxs.
Proof.
  induction idxs as [|i idxs IH]; intros st st' H; simpl in H.
  - injection H as <-. now rewrite app_nil_r.
  - split_bind H st1 H1.
    rewrite (IH _ _ H), (add_page_annots _ _ _ _ _ _ _ _ _ _ H1), <- app_assoc.
    reflexivity.
Qed.

(** Reading the annotations page by page gives the template's list. *)
Lemma annots_at_seq (pages : list page) info xmp (k : nat) :
  map (annots_at (mkPdf pages info xmp)) (seq k (List.length pages - k))
  = map annots_of (skipn k pages).
Proof.
  unfold annots_at. simpl. revert k.
  induction pages as [|p pages IH]; intros k.
  - simpl. now rewrite skipn_nil.
  - destruct k as [|k].
    + simpl. f_equal. specialize (IH 0%nat). rewrite Nat.sub_0_r in IH.
      rewrite skipn_O in IH. rewrite <- IH, <- seq_shift, map_map. reflexivity.
    + simpl. rewrite <- (IH k), <- seq_shift, map_map. reflexivity.
Qed.

(** Without a watermark configuration the page loop cannot fail on
    pages the template has. *)
Lemma add_pages_plain_total M fuel template_pdf root reader vis idxs :
  forall st,
    Forall (fun i => (i < List.length (pdf_pages reader))%nat) idxs ->
    exists st', add_pages M fuel template_pdf root reader None vis st idxs = Ok st'.
Proof.
  induction idxs as [|i idxs IH]; intros st Hall; simpl.
  - eauto.
  - inversion Hall as [|? ? Hi Hrest]; subst.
    unfold add_page, page_at.
    destruct (nth_error (pdf_pages reader) i) as [p|] eqn:Hn.
    + simpl. apply IH, Hrest.
    + apply nth_error_None in Hn. lia.
Qed.

(** C2. In full mode, with the overlay a saved canvas, page 1 of the
    writer carries no annotations, while pages 2..N carry exactly the
    annotations of their template pages, watermarked or not; in bypass
    mode every page carries exactly the annotations of its template
    page. Without a watermark configuration both builders return for
    every template (full mode needs a first page). *)
Theorem C2_annotations M fuel template_pdf wm_cfg vis fs reader :
  read_pdf fs template_pdf = Ok reader ->
  (forall overlay sz c b,
     fs !! overlay = Some (canvas_file sz c) ->
     build_writer_with_layers M fuel template_pdf overlay wm_cfg vis fs = Ok b ->
     exists p1 rest,
       b_pages b = p1 :: rest
       /\ annots_of p1 = []
       /\ map annots_of rest = map annots_of (skipn 1 (pdf_pages reader)))
  /\ (forall b,
        build_writer_wm_only M fuel template_pdf wm_cfg vis fs = Ok b ->
        map annots_of (b_pages b) = map annots_of (pdf_pages reader))
  /\ (wm_cfg = None ->
      (forall overlay sz c,
         fs !! overlay = Some (canvas_file sz c) -> pdf_pages reader <> [] ->
         exists b, build_writer_with_layers M fuel template_pdf overlay None vis fs = Ok b)
      /\ exists b, build_writer_wm_only M fuel template_pdf None vis fs = Ok b).
Proof.
  intros Hreader. destruct reader as [pages info xmp].
  split; [|split].
  - intros overlay sz c b Hov H.
    unfold build_writer_with_layers in H. rewrite Hreader in H. cbn [bind] in H.
    split_bind H first Hfirst. destruct first as [[base temps] fs1].
    split_bind H tpl0 Htpl. split_bind H ov_reader Hovr. split_bind H ov0 Hov0.
    assert (Hov_annots : annots_of ov0 = []).
    { assert (Hfs1 : fs1 = fs \/ exists path sz' c', fs1 = <[path := canvas_file sz' c']> fs).
      { destruct wm_cfg as [cfg|]; [|injection Hfirst as _ _ <-; now left].
        destruct (watermarked (Some cfg) 0); [|injection Hfirst as _ _ <-; now left].
        split_bind Hfirst fs' Hfs. split_bind Hfirst wm_reader Hw.
        split_bind Hfirst bp Hbp. injection Hfirst as _ _ <-.
        destruct (compose_watermark_page_writes _ _ _ _ _ _ _ _ _ Hfs) as (sz' & c' & ->).
        right. eauto. }
      assert (Hfile : exists sz' c', fs1 !! overlay = Some (canvas_file sz' c')).
      { destruct Hfs1 as [->|(path & sz' & c' & ->)]; [eauto|].
        destruct (decide (path = overlay)) as [->|Hne].
        - rewrite lookup_insert_eq. eauto.
        - rewrite lookup_insert_ne by exact Hne. eauto. }
      destruct Hfile as (sz' & c' & Hfile).
      unfold read_pdf in Hovr. rewrite Hfile in Hovr. unfold canvas_file in Hovr.
      injection Hovr as <-. unfold page_at in Hov0. simpl in Hov0.
      now injection Hov0 as <-. }
    apply add_pages_annots in H. simpl in H.
    destruct (b_pages b) as [|p1 rest] eqn:Hb; [discriminate H|].
    simpl in H. injection H as H1 Hrest.
    exists p1, rest. repeat split.
    + rewrite H1, merge_page_annots, Hov_annots. reflexivity.
    + rewrite Hrest. apply (annots_at_seq pages info xmp 1).
  - intros b H.
    unfold build_writer_wm_only in H. rewrite Hreader in H. cbn [bind] in H.
    apply add_pages_annots in H. simpl in H. rewrite H.
    pose proof (annots_at_seq pages info xmp 0) as Hs.
    rewrite Nat.sub_0_r, skipn_O in Hs. exact Hs.
  - intros ->. split.
    + intros overlay sz c Hov Hne.
      unfold build_writer_with_layers. rewrite Hreader. cbn [bind].
      unfold page_at at 1. simpl. destruct pages as [|p0 pages]; [contradiction|].
      simpl. unfold read_pdf at 1. rewrite Hov. unfold canvas_file. simpl.
      apply add_pages_plain_total.
      apply List.Forall_forall. intros i Hi. apply in_seq in Hi. simpl in *. lia.
    + unfold build_writer_wm_only. rewrite Hreader. cbn [bind].
      apply add_pages_plain_total.
      apply List.Forall_forall. intros i Hi. apply in_seq in Hi. simpl in *. lia.
Qed.

(** C2 at work: the two-page template, watermarked on every page. Full
    mode leaves page 1 without annotations and page 2 with its link;
    bypass mode keeps the annotations of both pages. *)
Lemma C2_annotations_witness :
  (exists b,
     build_writer_with_layers demo_machine 10 "fw9.pdf" "out.overlay.pdf" (Some demo_wm)
       true demo_files = Ok b
     /\ exists p1 rest,
          b_pages b = p1 :: rest
          /\ annots_of p1 = []
          /\ map annots_of rest = map annots_of (skipn 1 (pdf_pages demo_template)))
  /\ (exists b,
        build_writer_wm_only demo_machine 10 "fw9.pdf" (Some demo_wm) true demo_files = Ok b
        /\ map annots_of (b_pages b) = map annots_of (pdf_pages demo_template)).
Proof.
  split.
  - destruct (build_writer_with_layers demo_machine 10 "fw9.pdf" "out.overlay.pdf"
                (Some demo_wm) true demo_files) as [b| |] eqn:Hb.
    + exists b. split; [reflexivity|].
      apply (proj1 (C2_annotations demo_machine 10%nat "fw9.pdf" (Some demo_wm) true
                      demo_files demo_template eq_refl)
               "out.overlay.pdf" (612, 792) [] b eq_refl Hb).
    + exfalso. vm_compute in Hb. discriminate Hb.
    + exfalso. vm_compute in Hb. discriminate Hb.
  - destruct (build_writer_wm_only demo_machine 10 "fw9.pdf" (Some demo_wm) true
                demo_files) as [b| |] eqn:Hb.
    + exists b. split; [reflexivity|].
      apply (proj1 (proj2 (C2_annotations demo_machine 10%nat "fw9.pdf" (Some demo_wm) true
                             demo_files demo_template eq_refl)) b Hb).
    + exfalso. vm_compute in Hb. discriminate Hb.
    + exfalso. vm_compute in Hb. discriminate Hb.
Defined.


(** ** Binary64 rounding *)

Lemma rne_floor (z : Q) : (Qfloor z <= rne z <= Qfloor z + 1)%Z.
Proof.
  unfold rne. destruct (Qcompare _ _); [destruct (Z.even _)|..]; lia.
Qed.


Lemma rne_ge (z : Q) (n : Z) : inject_Z n <= z -> (n <= rne z)%Z.
Proof.
  intros H.
  assert (Hf : (n <= Qfloor z)%Z).
  { rewrite <- (Qfloor_Z n). now apply Qfloor_resp_le. }
  pose proof (rne_floor z). lia.
Qed.

(** It moves a number by at most one half. *)
Lemma rne_err (z : Q) : Qabs (inject_Z (rne z) - z) <= 1 # 2.
Proof.
  pose proof (Qfloor_le z) as Hlo. pose proof (Qlt_floor z) as Hhi.
  rewrite inject_Z_plus in Hhi. change (inject_Z 1) with 1 in Hhi.
  apply Qabs_Qle_condition. unfold rne.
  destruct (Qcompare (z - inject_Z (Qfloor z)) (1 # 2)) eqn:Hc.
  - apply (proj2 (Qeq_alt _ _)) in Hc.
    destruct (Z.even (Qfloor z)).
    + lra.
    + rewrite inject_Z_plus. change (inject_Z 1) with 1. lra.
  - apply (proj2 (Qlt_alt _ _)) in Hc. lra.
  - apply (proj2 (Qgt_alt _ _)) in Hc. rewrite inject_Z_plus. change (inject_Z 1) with 1. lra.
Qed.

(** [ilog2] is at most the binary logarithm. *)
Lemma ilog2_le (q : Q) : ~ q == 0 -> 2 ^ ilog2 q <= Qabs q.
Proof.
  intros Hq. unfold ilog2.
  set (e := (Z.log2 (Z.abs (Qnum q)) - Z.log2 (Zpos (Qden q)))%Z).
  destruct (Qleb (2 ^ e) (Qabs q)) eqn:Hb; [now apply Qleb_true|].
  clear Hb. subst e. destruct q as [n d]. cbn [Qnum Qden].
  assert (Hn : (0 < Z.abs n)%Z).
  { destruct (Z.eq_dec n 0%Z) as [->|]; [|lia]. exfalso. apply Hq. reflexivity. }
  destruct (Z.log2_spec (Z.abs n) Hn) as [Hn1 _].
  destruct (Z.log2_spec (Zpos d) ltac:(lia)) as [_ Hd2].
  pose proof (Z.log2_nonneg (Z.abs n)) as Hln.
  pose proof (Z.log2_nonneg (Zpos d)) as Hld.
  set (ln := Z.log2 (Z.abs n)) in *. set (ld := Z.log2 (Zpos d)) in *.
  replace (ln - ld - 1)%Z with (ln - Z.succ ld)%Z by lia.
  rewrite Qpower_minus by discriminate.
  change 2 with (inject_Z 2).
  rewrite <- !Zpower_Qpower by lia.
  assert (HB : 0 < inject_Z (2 ^ Z.succ ld)).
  { change 0 with (inject_Z 0). rewrite <- Zlt_Qlt. lia. }
  apply Qle_shift_div_r; [exact HB|].
  change (Qabs (n # d)) with (Z.abs n # d).
  rewrite (Qmake_Qdiv (Z.abs n) d).
  unfold Qdiv. rewrite <- Qmult_assoc, (Qmult_comm (/ _)), Qmult_assoc.
  apply Qle_shift_div_l; [reflexivity|].
  rewrite <- !inject_Z_mult, <- Zle_Qle. nia.
Qed.

Lemma ilog2_lt (q : Q) (e : Z) : ~ q == 0 -> Qabs q < 2 ^ e -> (ilog2 q < e)%Z.
Proof.
  intros Hq H. apply (Qpower_lt_compat_l_inv 2); [|reflexivity].
  apply Qle_lt_trans with (Qabs q); [now apply ilog2_le | exact H].
Qed.

(** A float is its significand times the unit of its binade. *)
Lemma round64_eq (q : Q) :
  ~ q == 0 ->
  round64 q == inject_Z (rne (q / 2 ^ Z.max (ilog2 q - 52) (-1074)))
               * 2 ^ Z.max (ilog2 q - 52) (-1074).
Proof.
  intros Hq. unfold round64.
  destruct (Qeq_bool q 0) eqn:Hb; [apply Qeq_bool_iff in Hb; contradiction|].
  apply Qred_correct.
Qed.

Lemma round64_zero (q : Q) : q == 0 -> round64 q = 0.
Proof.
  intros Hq. unfold round64. apply Qeq_bool_iff in Hq. now rewrite Hq.
Qed.

(** Rounding moves a number below [2 ^ e] by at most half a unit of
    that binade. *)
Lemma round64_err (q : Q) (e : Z) :
  Qabs q < 2 ^ e -> (-1021 <= e)%Z ->
  Qabs (round64 q - q) <= (1 # 2) * 2 ^ (e - 53).
Proof.
  intros Hlt He.
  assert (Hpos : forall z, 0 < 2 ^ z) by (intros z; now apply Qpower_0_lt).
  destruct (Qeq_dec q 0) as [Hz|Hq].
  - rewrite (round64_zero q Hz).
    assert (Hd : Qabs (0 - q) == 0).
    { assert (Hd : 0 - q == 0) by lra. now rewrite Hd. }
    rewrite Hd. apply Qmult_le_0_compat; [discriminate | apply Qlt_le_weak, Hpos].
  - rewrite (round64_eq q Hq).
    set (s := Z.max (ilog2 q - 52) (-1074)).
    assert (Hs : (s <= e - 53)%Z).
    { pose proof (ilog2_lt q e Hq Hlt). unfold s. lia. }
    assert (Hd : inject_Z (rne (q / 2 ^ s)) * 2 ^ s - q
                 == (inject_Z (rne (q / 2 ^ s)) - q / 2 ^ s) * 2 ^ s).
    { field. pose proof (Hpos s). lra. }
    rewrite Hd, Qabs_Qmult.
    rewrite (Qabs_pos (2 ^ s)) by (apply Qlt_le_weak, Hpos).
    apply Qle_trans with ((1 # 2) * 2 ^ s).
    + apply Qmult_le_compat_r; [apply rne_err | apply Qlt_le_weak, Hpos].
    + apply Qmult_le_l; [reflexivity|].
      apply Qpower_le_compat_l; [exact Hs | discriminate].
Qed.






(** Float addition at page magnitude is within [2 ^ -44] of the sum. *)
Lemma fadd64_close (x s : Q) :
  0 <= x + s -> x + s < 1024 ->
  Qabs (fadd64 x s - (x + s)) <= 1 # 1000000000000.
Proof.
  intros Hlo Hhi. unfold fadd64.
  apply Qle_trans with ((1 # 2) * 2 ^ (10 - 53)); [|vm_compute; discriminate].
  apply round64_err; [|lia].
  apply Qabs_Qlt_condition. change (2 ^ 10) with 1024. split; lra.
Qed.

(** ** Watermark tiling *)

Lemma inject_nat_0 : inject_Z (Z.of_nat 0) == 0.
Proof. reflexivity. Qed.

(** One test of the inner loop. *)
Lemma tile_row_step M n w xs y ang ttxt x c :
  tile_row M (S n) w xs y ang ttxt x c
  = if Qltb x w
    then tile_row M n w xs y ang ttxt (fadd M x xs) (c ++ stamp [] x y ang ttxt)
    else Ok (x, c).
Proof. reflexivity. Qed.

(** The inner loop visits [grid k x xs] when exactly the first [k]
    coordinates lie below the page width. *)
Lemma tile_row_run M w xs y ang ttxt :
  forall k x c,
    (forall i, (i < k)%nat -> coord (fadd M) x xs i < w) ->
    w <= coord (fadd M) x xs k ->
    forall fuel, (k < fuel)%nat ->
    exists x',
      tile_row M fuel w xs y ang ttxt x c
      = Ok (x', c ++ flat_map (fun x => stamp [] x y ang ttxt) (grid (fadd M) k x xs)).
Proof.
  induction k as [|k IH]; intros x c HB HA fuel Hf;
    (destruct fuel as [|fuel]; [lia|]); rewrite tile_row_step.
  - cbn [coord] in HA.
    assert (Hc : Qltb x w = false) by (apply Qltb_false; lra).
    rewrite Hc. exists x. simpl. now rewrite app_nil_r.
  - assert (Hx : x < w) by (apply (HB 0%nat); lia).
    apply Qltb_true in Hx. rewrite Hx.
    destruct (IH (fadd M x xs) (c ++ stamp [] x y ang ttxt)) with (fuel := fuel)
      as [x' Hrun].
    + intros i Hi. apply (HB (S i)). lia.
    + exact HA.
    + lia.
    + exists x'. rewrite Hrun. simpl. now rewrite <- app_assoc.
Qed.






(** One test of the outer loop. *)
Lemma tile_rows_step M inner n w h x0 xs ys ang ttxt y c :
  tile_rows M inner (S n) w h x0 xs ys ang ttxt y c
  = if Qltb y h then
      let* row := tile_row M inner w xs y ang ttxt x0 c in
      tile_rows M inner n w h x0 xs ys ang ttxt (fadd M y ys) (snd row)
    else Ok (y, c).
Proof. reflexivity. Qed.

(** The outer loop visits the rows [grid ky y ys], each row holding the
    columns [grid kx x0 xs]. *)
Lemma tile_rows_run M w h x0 xs ys ang ttxt kx inner :
  (forall i, (i < kx)%nat -> coord (fadd M) x0 xs i < w) ->
  w <= coord (fadd M) x0 xs kx ->
  (kx < inner)%nat ->
  forall ky y c,
    (forall j, (j < ky)%nat -> coord (fadd M) y ys j < h) ->
    h <= coord (fadd M) y ys ky ->
    forall fuel, (ky < fuel)%nat ->
    exists y',
      tile_rows M inner fuel w h x0 xs ys ang ttxt y c
      = Ok (y', c ++ flat_map
                       (fun y => flat_map (fun x => stamp [] x y ang ttxt)
                                   (grid (fadd M) kx x0 xs))
                       (grid (fadd M) ky y ys)).
Proof.
  intros HBx HAx Hin.
  induction ky as [|ky IH]; intros y c HB HA fuel Hf;
    (destruct fuel as [|fuel]; [lia|]); rewrite tile_rows_step.
  - cbn [coord] in HA.
    assert (Hc : Qltb y h = false) by (apply Qltb_false; lra).
    rewrite Hc. exists y. simpl. now rewrite app_nil_r.
  - assert (Hy : y < h) by (apply (HB 0%nat); lia).
    apply Qltb_true in Hy. rewrite Hy.
    destruct (tile_row_run M w xs y ang ttxt kx x0 c HBx HAx inner Hin) as [x' Hrow].
    rewrite Hrow. cbn [bind snd].
    destruct (IH (fadd M y ys)
                (c ++ flat_map (fun x => stamp [] x y ang ttxt) (grid (fadd M) kx x0 xs)))
      with (fuel := fuel) as [y' Hrun].
    + intros j Hj. apply (HB (S j)). lia.
    + exact HA.
    + lia.
    + exists y'. rewrite Hrun. simpl. now rewrite <- app_assoc.
Qed.



(** What the tile block leaves on the canvas when the columns leave the
    page after [kx] coordinates and the rows after [ky]. *)
Lemma draw_tile_run M w h t c kx ky :
  textual (t_text t) = true -> text_of (t_text t) <> [] ->
  (forall i, (i < kx)%nat -> coord (fadd M) (x_offset t) (x_step t) i < w) ->
  w <= coord (fadd M) (x_offset t) (x_step t) kx ->
  (forall j, (j < ky)%nat -> coord (fadd M) (y_offset t) (y_step t) j < h) ->
  h <= coord (fadd M) (y_offset t) (y_step t) ky ->
  forall fuel, (kx < fuel)%nat -> (ky < fuel)%nat ->
    draw_tile M fuel w h (Some t) c
    = Ok ((c ++ [SetFont FONT_MAIN (t_size t)])
          ++ flat_map
               (fun y => flat_map (fun x => stamp [] x y (t_angle t) (text_of (t_text t)))
                           (grid (fadd M) kx (x_offset t) (x_step t)))
               (grid (fadd M) ky (y_offset t) (y_step t))).
Proof.
  intros Tt Ht HBx HAx HBy HAy fuel Hfx Hfy. unfold draw_tile.
  rewrite (norm_textual _ Tt). cbn [bind].
  apply truthy_true in Ht. rewrite Ht. cbn [negb].
  destruct (tile_rows_run M w h (x_offset t) (x_step t) (y_step t) (t_angle t)
              (text_of (t_text t)) kx fuel HBx HAx Hfx ky (y_offset t)
              (c ++ [SetFont FONT_MAIN (t_size t)]) HBy HAy fuel Hfy) as [y' Hrun].
  rewrite Hrun. reflexivity.
Qed.








(** ** Where the tiles land *)

Lemma instances_app (a b : canvas) : instances (a ++ b) = instances a ++ instances b.
Proof. unfold instances. apply flat_map_app. Qed.

Lemma instances_stamp x y ang txt : instances (stamp [] x y ang txt) = [(x, y)].
Proof. unfold stamp. destruct (Qeq_bool ang 0); reflexivity. Qed.

Lemma instances_row y ang txt (cols : list Q) :
  instances (flat_map (fun x => stamp [] x y ang txt) cols) = map (fun x => (x, y)) cols.
Proof.
  induction cols as [|x cols IH]; [reflexivity|].
  cbn [flat_map]. rewrite instances_app, instances_stamp, IH. reflexivity.
Qed.

Lemma instances_rows ang txt (cols rows : list Q) :
  instances (flat_map (fun y => flat_map (fun x => stamp [] x y ang txt) cols) rows)
  = flat_map (fun y => map (fun x => (x, y)) cols) rows.
Proof.
  induction rows as [|y rows IH]; [reflexivity|].
  cbn [flat_map]. rewrite instances_app, instances_row, IH. reflexivity.
Qed.

Lemma length_rows (cols rows : list Q) :
  List.length (flat_map (fun y => map (fun x => (x, y)) cols) rows)
  = (List.length rows * List.length cols)%nat.
Proof.
  induction rows as [|y rows IH]; [reflexivity|].
  simpl. rewrite length_app, length_map, IH. reflexivity.
Qed.

Lemma length_grid add k a s : List.length (grid add k a s) = k.
Proof. revert a. induction k as [|k IH]; intros a; simpl; [|rewrite IH]; reflexivity. Qed.

(** The [i]-th loop coordinate. *)
Lemma grid_nth add k s : forall a i,
  (i < k)%nat -> nth i (grid add k a s) 0 = coord add a s i.
Proof.
  induction k as [|k IH]; intros a i Hi; [lia|].
  destruct i as [|i]; simpl; [reflexivity|].
  apply IH. lia.
Qed.

Lemma grid_In add k s : forall a x,
  In x (grid add k a s) -> exists i, (i < k)%nat /\ x = coord add a s i.
Proof.
  induction k as [|k IH]; intros a x Hin; [contradiction|].
  destruct Hin as [<-|Hin].
  - exists 0%nat. split; [lia | reflexivity].
  - destruct (IH _ _ Hin) as (i & Hi & ->). exists (S i). split; [lia | reflexivity].
Qed.

(** Each coordinate is the previous one plus the step. *)
Lemma coord_succ add s : forall n a, coord add a s (S n) = add (coord add a s n) s.
Proof.
  induction n as [|n IH]; intros a; [reflexivity|].
  change (coord add a s (S (S n))) with (coord add (add a s) s (S n)).
  rewrite IH. reflexivity.
Qed.

(** [tile_count] is the number of exact coordinates below the bound. *)
Lemma tile_count_reaches (bound a s : Q) :
  0 < s -> bound <= a + inject_Z (Z.of_nat (tile_count bound a s)) * s.
Proof.
  intros Hs. unfold tile_count. rewrite Z2Nat.id by lia.
  set (q := (bound - a) / s).
  assert (Hq : q * s == bound - a) by (unfold q; field; lra).
  assert (H1 : q <= inject_Z (Z.max 0 (Qceiling q))).
  { apply Qle_trans with (inject_Z (Qceiling q)); [apply Qle_ceiling|].
    rewrite <- Zle_Qle. lia. }
  assert (H2 : q * s <= inject_Z (Z.max 0 (Qceiling q)) * s).
  { apply Qmult_le_compat_r; [exact H1 | lra]. }
  lra.
Qed.

Lemma tile_count_below (bound a s : Q) (i : nat) :
  0 < s ->
  (a + inject_Z (Z.of_nat i) * s < bound <-> (i < tile_count bound a s)%nat).
Proof.
  intros Hs. unfold tile_count.
  set (q := (bound - a) / s).
  assert (Hq : q * s == bound - a) by (unfold q; field; lra).
  split.
  - intros Hlt.
    assert (Hi : inject_Z (Z.of_nat i) < q).
    { apply Qnot_le_lt. intros Hle.
      assert (q * s <= inject_Z (Z.of_nat i) * s)
        by (apply Qmult_le_compat_r; [exact Hle | lra]).
      lra. }
    assert (Hc : inject_Z (Z.of_nat i) < inject_Z (Qceiling q)).
    { apply Qlt_le_trans with q; [exact Hi | apply Qle_ceiling]. }
    rewrite <- Zlt_Qlt in Hc. lia.
  - intros Hlt.
    assert (Hz : (Z.of_nat i <= Qceiling q - 1)%Z) by lia.
    assert (Hi : inject_Z (Z.of_nat i) < q).
    { apply Qle_lt_trans with (inject_Z (Qceiling q - 1)).
      - now rewrite <- Zle_Qle.
      - apply Qceiling_lt. }
    assert (inject_Z (Z.of_nat i) * s < q * s)
      by (apply Qmult_lt_compat_r; [exact Hs | exact Hi]).
    lra.
Qed.

(** Within [N] additions the coordinates reach the bound, or all of
    them stay below it. *)
Lemma exit_or_below (add : Q -> Q -> Q) (a s bound : Q) :
  forall N,
    (exists k, (k <= N)%nat
               /\ (forall i, (i < k)%nat -> coord add a s i < bound)
               /\ bound <= coord add a s k)
    \/ (forall i, (i <= N)%nat -> coord add a s i < bound).
Proof.
  induction N as [|N IH].
  - destruct (Qlt_le_dec (coord add a s 0) bound) as [Hlt|Hge].
    + right. intros i Hi. now replace i with 0%nat by lia.
    + left. exists 0%nat. split; [lia|]. split; [intros i Hi; lia | exact Hge].
  - destruct IH as [(k & Hk & HB & HA)|Hall].
    + left. exists k. split; [lia|]. now split.
    + destruct (Qlt_le_dec (coord add a s (S N)) bound) as [Hlt|Hge].
      * right. intros i Hi. destruct (Nat.eq_dec i (S N)) as [->|Hne]; [exact Hlt|].
        apply Hall. lia.
      * left. exists (S N). split; [lia|]. split; [|exact Hge].
        intros i Hi. apply Hall. lia.
Qed.

Section RoundedOrbit.

(** One axis of the tiling: additions of the step [s] from the offset
    [a], each within [eps] of the exact sum while the coordinate is
    below the bound, the errors of one more addition than the exact
    count adding up to at most one step. *)
Variable add : Q -> Q -> Q.
Variables a s bound eps : Q.
Hypothesis Hs : 0 < s.
Hypothesis Heps : 0 <= eps.
Hypothesis Herr : forall x, a <= x -> x < bound -> Qabs (add x s - (x + s)) <= eps.
Hypothesis Hacc : inject_Z (Z.of_nat (tile_count bound a s) + 1) * eps <= s.

Lemma scaled_eps (i : nat) :
  (i <= tile_count bound a s + 1)%nat -> inject_Z (Z.of_nat i) * eps <= s.
Proof.
  intros Hi.
  apply Qle_trans with (inject_Z (Z.of_nat (tile_count bound a s) + 1) * eps);
    [|exact Hacc].
  apply Qmult_le_compat_r; [|exact Heps].
  rewrite <- Zle_Qle. lia.
Qed.

(** The accumulated error after [i] additions. *)
Lemma orbit_error :
  forall i, (i <= tile_count bound a s + 1)%nat ->
    (forall j, (j < i)%nat -> coord add a s j < bound) ->
    Qabs (coord add a s i - (a + inject_Z (Z.of_nat i) * s))
    <= inject_Z (Z.of_nat i) * eps
    /\ a <= coord add a s i.
Proof.
  induction i as [|i IH]; intros Hi Hbelow.
  - cbn [coord]. change (inject_Z (Z.of_nat 0)) with 0. split; [|lra].
    apply Qabs_Qle_condition. split; lra.
  - destruct IH as [He Ha]; [lia | intros j Hj; apply Hbelow; lia|].
    pose proof (Herr (coord add a s i) Ha (Hbelow i ltac:(lia))) as Hstep.
    pose proof (scaled_eps (S i) Hi) as Hsc.
    rewrite coord_succ. rewrite inject_nat_succ in *.
    apply Qabs_Qle_condition in He. apply Qabs_Qle_condition in Hstep.
    assert (Hi0 : 0 <= inject_Z (Z.of_nat i)).
    { change 0 with (inject_Z 0). rewrite <- Zle_Qle. lia. }
    split.
    + apply Qabs_Qle_condition. split; nra.
    + nra.
Qed.

(** The loop leaves the page after [k] coordinates, [k] within one of
    the exact count, each coordinate between the offset and the bound
    and within the accumulated error of its exact value. *)
Lemma rounded_orbit :
  exists k,
    (forall i, (i < k)%nat -> coord add a s i < bound)
    /\ bound <= coord add a s k
    /\ (tile_count bound a s <= k + 1)%nat /\ (k <= tile_count bound a s + 1)%nat
    /\ (forall i, (i < k)%nat ->
          a <= coord add a s i
          /\ Qabs (coord add a s i - (a + inject_Z (Z.of_nat i) * s))
             <= inject_Z (Z.of_nat i) * eps)
    /\ (eps == 0 -> k = tile_count bound a s).
Proof.
  set (n := tile_count bound a s).
  assert (Hexit : exists k, (k <= n + 1)%nat
                            /\ (forall i, (i < k)%nat -> coord add a s i < bound)
                            /\ bound <= coord add a s k).
  { destruct (exit_or_below add a s bound (n + 1)) as [Hk|Hall]; [exact Hk|].
    exfalso.
    destruct (orbit_error (n + 1)) as [He _];
      [fold n; lia | intros j Hj; apply Hall; lia|].
    pose proof (Hall (n + 1)%nat ltac:(lia)) as Hlt.
    pose proof (tile_count_reaches bound a s Hs) as Hreach. fold n in Hreach.
    pose proof (scaled_eps (n + 1) ltac:(fold n; lia)) as Hsc.
    apply Qabs_Qle_condition in He.
    replace (n + 1)%nat with (S n) in * by lia.
    rewrite inject_nat_succ in *. nra. }
  destruct Hexit as (k & Hk & HB & HA).
  assert (Hk_err : Qabs (coord add a s k - (a + inject_Z (Z.of_nat k) * s))
                   <= inject_Z (Z.of_nat k) * eps).
  { apply orbit_error; [fold n; lia | exact HB]. }
  exists k. split; [exact HB|]. split; [exact HA|].
  split; [|split; [exact Hk|split]].
  - destruct (Nat.le_gt_cases n (k + 1)) as [Hle|Hgt]; [exact Hle|]. exfalso.
    assert (Hlast : a + inject_Z (Z.of_nat (n - 1)) * s < bound)
      by (apply tile_count_below; [exact Hs | fold n; lia]).
    pose proof (scaled_eps k ltac:(fold n; lia)) as Hsc.
    apply Qabs_Qle_condition in Hk_err.
    assert (Hkn : inject_Z (Z.of_nat k) + 1 <= inject_Z (Z.of_nat (n - 1))).
    { change 1 with (inject_Z 1). rewrite <- inject_Z_plus, <- Zle_Qle. lia. }
    nra.
  - intros i Hi.
    destruct (orbit_error i) as [He Ha];
      [fold n; lia | intros j Hj; apply HB; lia|].
    split; [exact Ha | exact He].
  - intros H0.
    assert (Hexact : forall i, (i <= k)%nat ->
              coord add a s i == a + inject_Z (Z.of_nat i) * s).
    { intros i Hi.
      destruct (orbit_error i) as [He _];
        [fold n; lia | intros j Hj; apply HB; lia|].
      rewrite H0 in He. apply Qabs_Qle_condition in He. lra. }
    destruct (Nat.lt_trichotomy k n) as [Hlt|[Heq|Hgt]]; [exfalso|exact Heq|exfalso].
    + assert (Hb : a + inject_Z (Z.of_nat k) * s < bound)
        by (apply tile_count_below; [exact Hs | exact Hlt]).
      rewrite <- (Hexact k (le_n k)) in Hb. lra.
    + pose proof (HB n Hgt) as Hb. rewrite (Hexact n ltac:(lia)) in Hb.
      apply tile_count_below in Hb; [|exact Hs]. fold n in Hb. lia.
Qed.

End RoundedOrbit.

(** C6, as stated, fails: on a 100 by 100 page with offsets (300, 300)
    and steps (100, 100) the tile block draws no instance, while the
    product of the two ceilings is (-2)(-2) = 4, more than one away. *)
Lemma C6_ceiling_product_fails :
  exists c',
    draw_tile demo_machine 10 100 100
      (Some (mkTile (Some (VStr (u "DRAFT"))) 8 300 300 100 100 0)) [] = Ok c'
    /\ List.length (instances c') = 0%nat
    /\ (Qceiling ((100 - 300) / 100) * Qceiling ((100 - 300) / 100))%Z = 4%Z
    /\ ~ (Z.abs (Z.of_nat (List.length (instances c'))
                 - Qceiling ((100 - 300) / 100) * Qceiling ((100 - 300) / 100)) <= 1)%Z.
Proof.
  eexists. split; [vm_compute; reflexivity|].
  split; [reflexivity|]. split; [reflexivity|].
  vm_compute. intros H. apply H. reflexivity.
Qed.

(** C6, amended. For a tile with text and positive steps (xs, ys), and
    additions that are within [ex] and [ey] of the exact sums, small
    enough that the errors of one more addition than there are exact
    columns (rows) do not add up to a step: the tile block places one
    instance at every pair of the coordinates its two loops visit, row
    by row, and nowhere else. The number of columns is within one of
    max(0, ceil((W - x0) / xs)) and equal to it when the additions are
    exact, likewise the number of rows, and the number of instances is
    their product; the [i]-th column is within [i ex] of x0 + i xs and
    the [j]-th row within [j ey] of y0 + j ys; every instance has
    x0 <= x < W and y0 <= y < H. *)
Theorem C6_tiling_grid M w h t c ex ey :
  textual (t_text t) = true -> text_of (t_text t) <> [] ->
  0 < x_step t -> 0 < y_step t -> 0 <= ex -> 0 <= ey ->
  (forall x, x_offset t <= x -> x < w ->
     Qabs (fadd M x (x_step t) - (x + x_step t)) <= ex) ->
  (forall y, y_offset t <= y -> y < h ->
     Qabs (fadd M y (y_step t) - (y + y_step t)) <= ey) ->
  inject_Z (Z.of_nat (tile_count w (x_offset t) (x_step t)) + 1) * ex <= x_step t ->
  inject_Z (Z.of_nat (tile_count h (y_offset t) (y_step t)) + 1) * ey <= y_step t ->
  exists kx ky,
    (exists fuel0, forall fuel, (fuel0 <= fuel)%nat ->
       exists c',
         draw_tile M fuel w h (Some t) c = Ok c'
         /\ instances c'
            = instances c
              ++ flat_map
                   (fun y => map (fun x => (x, y))
                               (grid (fadd M) kx (x_offset t) (x_step t)))
                   (grid (fadd M) ky (y_offset t) (y_step t))
         /\ List.length (instances c') = (List.length (instances c) + ky * kx)%nat)
    /\ ((tile_count w (x_offset t) (x_step t) <= kx + 1)%nat
        /\ (kx <= tile_count w (x_offset t) (x_step t) + 1)%nat)
    /\ ((tile_count h (y_offset t) (y_step t) <= ky + 1)%nat
        /\ (ky <= tile_count h (y_offset t) (y_step t) + 1)%nat)
    /\ (ex == 0 -> kx = tile_count w (x_offset t) (x_step t))
    /\ (ey == 0 -> ky = tile_count h (y_offset t) (y_step t))
    /\ Z.of_nat (tile_count w (x_offset t) (x_step t))
       = Z.max 0 (Qceiling ((w - x_offset t) / x_step t))
    /\ Z.of_nat (tile_count h (y_offset t) (y_step t))
       = Z.max 0 (Qceiling ((h - y_offset t) / y_step t))
    /\ (forall i, (i < kx)%nat ->
          Qabs (nth i (grid (fadd M) kx (x_offset t) (x_step t)) 0
                - (x_offset t + inject_Z (Z.of_nat i) * x_step t))
          <= inject_Z (Z.of_nat i) * ex)
    /\ (forall j, (j < ky)%nat ->
          Qabs (nth j (grid (fadd M) ky (y_offset t) (y_step t)) 0
                - (y_offset t + inject_Z (Z.of_nat j) * y_step t))
          <= inject_Z (Z.of_nat j) * ey)
    /\ (forall i : nat,
          x_offset t + inject_Z (Z.of_nat i) * x_step t < w
          <-> (i < tile_count w (x_offset t) (x_step t))%nat)
    /\ (forall j : nat,
          y_offset t + inject_Z (Z.of_nat j) * y_step t < h
          <-> (j < tile_count h (y_offset t) (y_step t))%nat)
    /\ List.Forall
         (fun p => x_offset t <= fst p /\ fst p < w /\ y_offset t <= snd p /\ snd p < h)
         (flat_map
            (fun y => map (fun x => (x, y)) (grid (fadd M) kx (x_offset t) (x_step t)))
            (grid (fadd M) ky (y_offset t) (y_step t))).
Proof.
  intros Tt Ht Hxs Hys Hex Hey Herrx Herry Haccx Haccy.
  destruct (rounded_orbit (fadd M) (x_offset t) (x_step t) w ex Hxs Hex Herrx Haccx)
    as (kx & HBx & HAx & Hx1 & Hx2 & Hcx & Hx0).
  destruct (rounded_orbit (fadd M) (y_offset t) (y_step t) h ey Hys Hey Herry Haccy)
    as (ky & HBy & HAy & Hy1 & Hy2 & Hcy & Hy0).
  exists kx, ky.
  split; [|split; [|split; [|split; [|split; [|split; [|split; [|split; [|split;
    [|split; [|split]]]]]]]]]].
  - exists (S (Nat.max kx ky)).
    intros fuel Hfuel. eexists. split.
    + apply (draw_tile_run M w h t c kx ky); try assumption; lia.
    + rewrite !instances_app, instances_rows. simpl (instances [SetFont _ _]).
      rewrite app_nil_r. split; [reflexivity|].
      rewrite length_app, length_rows, !length_grid. reflexivity.
  - split; assumption.
  - split; assumption.
  - exact Hx0.
  - exact Hy0.
  - unfold tile_count. apply Z2Nat.id. lia.
  - unfold tile_count. apply Z2Nat.id. lia.
  - intros i Hi. rewrite grid_nth by exact Hi. apply (Hcx i Hi).
  - intros j Hj. rewrite grid_nth by exact Hj. apply (Hcy j Hj).
  - intros i. now apply tile_count_below.
  - intros j. now apply tile_count_below.
  - apply List.Forall_forall. intros [x y] Hin.
    apply in_flat_map in Hin. destruct Hin as (y' & Hy' & Hin).
    apply in_map_iff in Hin. destruct Hin as (x' & [= <- <-] & Hx').
    destruct (grid_In _ _ _ _ _ Hx') as (i & Hi & ->).
    destruct (grid_In _ _ _ _ _ Hy') as (j & Hj & ->).
    cbn [fst snd].
    split; [apply (Hcx i Hi)|]. split; [apply (HBx i Hi)|].
    split; [apply (Hcy j Hj) | apply (HBy j Hj)].
Qed.

(** C6 at work on the default grid (offsets 24, steps 144 and 120) on
    a letter page, whose exact counts are 5 columns and 7 rows: with
    float addition, and with exact addition, where the counts are
    met. *)
Lemma C6_tiling_grid_witness :
  (exists kx ky,
     (exists fuel0, forall fuel, (fuel0 <= fuel)%nat ->
        exists c',
          draw_tile demo_machine fuel 612 792
            (Some (mkTile (Some (VStr (u "DRAFT"))) 8 24 24 144 120 0)) [] = Ok c'
          /\ List.length (instances c') = (List.length (instances []) + ky * kx)%nat)
     /\ ((5 <= kx + 1)%nat /\ (kx <= 5 + 1)%nat)
     /\ ((7 <= ky + 1)%nat /\ (ky <= 7 + 1)%nat))
  /\ (exists fuel0, forall fuel, (fuel0 <= fuel)%nat ->
        exists c',
          draw_tile exact_machine fuel 612 792
            (Some (mkTile (Some (VStr (u "DRAFT"))) 8 24 24 144 120 0)) [] = Ok c'
          /\ List.length (instances c') = (List.length (instances []) + 7 * 5)%nat).
Proof.
  split.
  - destruct (C6_tiling_grid demo_machine 612 792
                (mkTile (Some (VStr (u "DRAFT"))) 8 24 24 144 120 0) []
                (1 # 1000000000000) (1 # 1000000000000))
      as (kx & ky & H1 & H2 & H3 & _).
    + reflexivity.
    + discriminate.
    + reflexivity.
    + reflexivity.
    + discriminate.
    + discriminate.
    + cbn [x_offset x_step fadd demo_machine]. intros x Hlo Hhi.
      apply fadd64_close; lra.
    + cbn [y_offset y_step fadd demo_machine]. intros y Hlo Hhi.
      apply fadd64_close; lra.
    + vm_compute. discriminate.
    + vm_compute. discriminate.
    + exists kx, ky. split; [|split; [exact H2 | exact H3]].
      destruct H1 as [fuel0 H1]. exists fuel0. intros fuel Hfuel.
      destruct (H1 fuel Hfuel) as (c' & Hrun & _ & Hlen).
      exists c'. split; [exact Hrun | exact Hlen].
  - destruct (C6_tiling_grid exact_machine 612 792
                (mkTile (Some (VStr (u "DRAFT"))) 8 24 24 144 120 0) [] 0 0)
      as (kx & ky & H1 & _ & _ & Hx & Hy & _).
    + reflexivity.
    + discriminate.
    + reflexivity.
    + reflexivity.
    + discriminate.
    + discriminate.
    + cbn [x_offset x_step fadd exact_machine]. intros x Hlo Hhi.
      apply Qabs_Qle_condition. split; lra.
    + cbn [y_offset y_step fadd exact_machine]. intros y Hlo Hhi.
      apply Qabs_Qle_condition. split; lra.
    + vm_compute. discriminate.
    + vm_compute. discriminate.
    + assert (Ekx : kx = 5%nat) by (rewrite Hx; reflexivity).
      assert (Eky : ky = 7%nat) by (rewrite Hy; reflexivity).
      destruct H1 as [fuel0 H1]. exists fuel0. intros fuel Hfuel.
      destruct (H1 fuel Hfuel) as (c' & Hrun & _ & Hlen).
      exists c'. split; [exact Hrun|].
      rewrite Hlen, Ekx, Eky. reflexivity.
Defined.

(** ** Cleanup *)

(** Removing listed paths leaves every other path alone. *)
Lemma try_remove_all_other (paths : list string) (p : string) :
  forall fs : gmap string file,
    ~ In p paths -> fold_left try_remove paths fs !! p = fs !! p.
Proof.
  induction paths as [|q paths IH]; intros fs Hnot; simpl; [reflexivity|].
  rewrite IH by (intros H; apply Hnot; now right).
  unfold try_remove. apply lookup_delete_ne. intros ->. apply Hnot. now left.
Qed.

(** The cleanup of [main] keeps every file that is neither in
    [temp_files] nor a working-directory [*.png] with [.overlay] in its
    name. *)
Lemma cleanup_keeps (a : args) (temp_files : list string) (fs : gmap string file)
    (p : string) :
  ~ In p temp_files -> is_overlay_png p = false ->
  cleanup a temp_files fs !! p = fs !! p.
Proof.
  intros Hnot Hpng. unfold cleanup.
  destruct (w9bp a).
  - destruct (clean a); [now apply try_remove_all_other | reflexivity].
  - unfold remove_overlay_pngs.
    assert (Hkeep : forall m : gmap string file,
               filter (fun kv => is_overlay_png (fst kv) = false) m !! p = m !! p).
    { intros m. destruct (m !! p) as [f|] eqn:Hm.
      - apply map_lookup_filter_Some. split; [exact Hm | exact Hpng].
      - apply map_lookup_filter_None. left. exact Hm. }
    rewrite Hkeep. apply try_remove_all_other.
    destruct (clean a); [exact Hnot|].
    intros Hin. apply Hnot. destruct temp_files; simpl in Hin; [contradiction|].
    destruct Hin as [->|[]]. now left.
Qed.

(** C4, where the code falls short. A full-mode run in aggressive mode
    with [--clean]: the overlay composer returns the eight rasterized
    images it created, [main] drops that list, deletes the overlay layer
    file, and ends with every one of the images still on disk. *)
Theorem C4_rasterized_images_survive_cleanup :
  exists imgs d1 d,
    compose_overlay_page1 demo_env 10 "fw9.pdf" {[ "name" := VStr (u "A") ]} "out.overlay.pdf"
      false true demo_disk = Ok (imgs, d1)
    /\ In "/tmp/tmpk3x9q000.png" imgs
    /\ files demo_disk !! "/tmp/tmpk3x9q000.png" = None
    /\ main demo_env demo_machine 10 demo_args (Some {[ "name" := VStr (u "A") ]}) None ∅
         (mkTime 2026 11 4 9 30 0) (mkTime 2026 11 4 9 30 0) demo_disk
       = Ok (d, ["out.overlay.pdf"])
    /\ files d !! "out.overlay.pdf" = None
    /\ forallb (fun p => is_some (files d !! p)) imgs = true
    /\ List.length imgs = 8%nat.
Proof.
  do 3 eexists.
  split; [vm_compute; reflexivity|].
  split; [left; reflexivity|].
  split; [reflexivity|].
  split; [vm_compute; reflexivity|].
  split; vm_compute; auto.
Qed.


(** ** Texts: strip and split *)

Lemma lstrip_length (s : str) : (List.length (Txt.lstrip s) <= List.length s)%nat.
Proof.
  induction s as [|c s IH]; simpl; [lia|].
  destruct (Txt.is_space c); simpl; lia.
Qed.

(** A non-empty text that [lstrip] keeps does not start with white
    space, so neither does anything that extends it. *)
Lemma lstrip_clean_app (a x : str) :
  Txt.lstrip a = a -> a <> [] -> Txt.lstrip (a ++ x) = a ++ x.
Proof.
  destruct a as [|c a]; [congruence|]. intros H _. simpl in *.
  destruct (Txt.is_space c); [|reflexivity].
  pose proof (lstrip_length a) as Hl. rewrite H in Hl. simpl in Hl. lia.
Qed.

Lemma rstrip_app_clean (x b : str) :
  Txt.rstrip b = b -> b <> [] -> Txt.rstrip (x ++ b) = x ++ b.
Proof.
  intros Hb Hne. induction x as [|c x IH]; [exact Hb|].
  change ((c :: x) ++ b) with (c :: (x ++ b)).
  cbn [Txt.rstrip]. rewrite IH.
  destruct (x ++ b) eqn:Hxb; [|reflexivity].
  exfalso. destruct x as [|c' x]; [|discriminate Hxb].
  apply Hne. exact Hxb.
Qed.

Lemma rstrip_space_end (x : str) : Txt.rstrip (x ++ u " ") = Txt.rstrip x.
Proof.
  induction x as [|c x IH]; [reflexivity|].
  simpl. simpl in IH. now rewrite IH.
Qed.

Lemma clean_empty : clean_word [].
Proof. split; reflexivity. Qed.

(** The three shapes of [trial = (cur + " " + w).strip()]. *)
Lemma strip_first_word (w : str) : clean_word w -> Txt.strip ([] ++ u " " ++ w) = w.
Proof.
  intros [Hl Hr]. unfold Txt.strip.
  change (Txt.lstrip ([] ++ u " " ++ w)) with (Txt.lstrip w). now rewrite Hl, Hr.
Qed.

Lemma strip_empty_word (cur : str) : clean_word cur -> Txt.strip (cur ++ u " " ++ []) = cur.
Proof.
  intros [Hl Hr]. unfold Txt.strip.
  destruct cur as [|c cur]; [reflexivity|].
  rewrite lstrip_clean_app by (assumption || discriminate).
  rewrite app_nil_r. now rewrite rstrip_space_end.
Qed.

Lemma clean_join (cur w : str) :
  clean_word cur -> cur <> [] -> clean_word w -> w <> [] ->
  clean_word (cur ++ u " " ++ w).
Proof.
  intros [Hl Hr] Hne [Hwl Hwr] Hwne. split.
  - now apply lstrip_clean_app.
  - apply rstrip_app_clean; [|discriminate].
    apply (rstrip_app_clean (u " ") w Hwr Hwne).
Qed.

Lemma strip_join_word (cur w : str) :
  clean_word cur -> cur <> [] -> clean_word w -> w <> [] ->
  Txt.strip (cur ++ u " " ++ w) = cur ++ u " " ++ w.
Proof.
  intros Hc Hne Hw Hwne.
  destruct (clean_join cur w Hc Hne Hw Hwne) as [Hl Hr].
  unfold Txt.strip. now rewrite Hl, Hr.
Qed.

Lemma split_space_nonempty (s : str) : Txt.split_space s <> [].
Proof.
  destruct s as [|c s]; simpl; [discriminate|].
  destruct (c =? 32)%N; [discriminate|].
  destruct (Txt.split_space s); discriminate.
Qed.

(** [split(" ")] cuts at every space. *)
Lemma split_space_app (a b : str) :
  Txt.split_space (a ++ 32%N :: b) = Txt.split_space a ++ Txt.split_space b.
Proof.
  induction a as [|c a IH]; [reflexivity|].
  simpl. rewrite IH.
  destruct (c =? 32)%N; [reflexivity|].
  destruct (Txt.split_space a) as [|w ws] eqn:Hs; [|reflexivity].
  exfalso. exact (split_space_nonempty a Hs).
Qed.

Lemma split_space_spaceless (s : str) :
  forall w, In w (Txt.split_space s) -> spaceless w = true.
Proof.
  induction s as [|c s IH]; intros w Hin; simpl in Hin.
  - destruct Hin as [<-|[]]. reflexivity.
  - destruct (c =? 32)%N eqn:Hc.
    + destruct Hin as [<-|Hin]; [reflexivity | now apply IH].
    + destruct (Txt.split_space s) as [|w0 ws] eqn:Hs.
      * destruct Hin as [<-|[]]. simpl. now rewrite Hc.
      * destruct Hin as [<-|Hin].
        -- simpl. rewrite Hc. simpl. apply IH. now left.
        -- apply IH. now right.
Qed.

Lemma split_space_of_spaceless (w : str) :
  spaceless w = true -> Txt.split_space w = [w].
Proof.
  induction w as [|c w IH]; [reflexivity|].
  simpl. intros H. apply andb_true_iff in H. destruct H as [Hc Hw].
  apply negb_true_iff in Hc. rewrite Hc, (IH Hw). reflexivity.
Qed.

(** ** Re-wrapping wrapped lines *)

Section Rewrap.

Variable sw : str -> string -> Q -> Q.
Variables (font : string) (s0 s max_w : Q).

(** The lines are produced at size [s0] and wrapped again at size [s],
    at which nothing measures wider. *)
Hypothesis Hshrink : forall t, sw t font s <= sw t font s0.

(** Fed its own words, the word loop at size [s] rebuilds [cur]. *)
Let stable (cur : str) : Prop :=
  forall acc,
    fold_left (wrap_word sw font s max_w) (Txt.split_space cur) (acc, []) = (acc, cur).

(** Wrapped again at size [s], the line comes back as itself. *)
Let line_ok (ln : str) : Prop :=
  forall acc, wrap_raw sw font s max_w acc ln = acc ++ [ln].

Lemma stable_word (w : str) :
  clean_word w -> w <> [] -> spaceless w = true -> stable w.
Proof.
  intros Hw Hne Hsp acc.
  rewrite (split_space_of_spaceless w Hsp). cbn [fold_left].
  unfold wrap_word. rewrite (strip_first_word w Hw).
  destruct (Qleb (sw w font s) max_w); reflexivity.
Qed.

Lemma stable_join (cur w : str) :
  clean_word cur -> cur <> [] -> stable cur ->
  clean_word w -> w <> [] -> spaceless w = true ->
  sw (cur ++ u " " ++ w) font s0 <= max_w ->
  stable (cur ++ u " " ++ w).
Proof.
  intros Hc Hne Hst Hw Hwne Hsp Hfit acc.
  change (cur ++ u " " ++ w) with (cur ++ 32%N :: w).
  rewrite split_space_app, (split_space_of_spaceless w Hsp), fold_left_app, Hst.
  cbn [fold_left]. unfold wrap_word.
  rewrite (strip_join_word cur w Hc Hne Hw Hwne).
  assert (Hb : Qleb (sw (cur ++ u " " ++ w) font s) max_w = true).
  { apply Qleb_true. specialize (Hshrink (cur ++ u " " ++ w)). lra. }
  now rewrite Hb.
Qed.

Lemma line_ok_of_stable (cur : str) : stable cur -> cur <> [] -> line_ok cur.
Proof.
  intros Hst Hne acc. unfold wrap_raw. rewrite Hst.
  apply truthy_true in Hne. now rewrite Hne.
Qed.

(** What the word loop at size [s0] keeps true of its state. *)
Let inv (st : list str * str) : Prop :=
  List.Forall line_ok (fst st)
  /\ clean_word (snd st)
  /\ (snd st = [] \/ stable (snd st)).

Lemma wrap_word_inv (st : list str * str) (w : str) :
  inv st -> clean_word w -> spaceless w = true ->
  inv (wrap_word sw font s0 max_w st w).
Proof.
  destruct st as [lines cur]. intros (Hlines & Hc & Hst) Hw Hsp.
  simpl in Hlines, Hc, Hst. unfold wrap_word.
  assert (Hflush : List.Forall line_ok (if Txt.truthy cur then lines ++ [cur] else lines)).
  { destruct cur as [|c cur]; [exact Hlines|]. simpl.
    apply List.Forall_app. split; [exact Hlines|].
    constructor; [|constructor].
    destruct Hst as [Hst|Hst]; [discriminate|].
    apply line_ok_of_stable; [exact Hst | discriminate]. }
  destruct w as [|cw w].
  - (* an empty word: the trial is [cur] itself *)
    rewrite (strip_empty_word cur Hc).
    destruct (Qleb (sw cur font s0) max_w).
    + exact (conj Hlines (conj Hc Hst)).
    + exact (conj Hflush (conj clean_empty (or_introl eq_refl))).
  - destruct cur as [|cc cur].
    + (* the first word of a line *)
      rewrite (strip_first_word _ Hw).
      assert (Hnew : cw :: w = [] \/ stable (cw :: w)).
      { right. apply stable_word; [exact Hw | discriminate | exact Hsp]. }
      destruct (Qleb (sw (cw :: w) font s0) max_w);
        exact (conj Hlines (conj Hw Hnew)).
    + (* a further word *)
      destruct Hst as [Hst|Hst]; [discriminate|].
      rewrite (strip_join_word (cc :: cur) (cw :: w) Hc ltac:(discriminate)
                 Hw ltac:(discriminate)).
      destruct (Qleb (sw ((cc :: cur) ++ u " " ++ cw :: w) font s0) max_w) eqn:Hb.
      * apply Qleb_true in Hb. split; [exact Hlines|]. split.
        -- apply clean_join; (assumption || discriminate).
        -- right. apply stable_join; (assumption || discriminate).
      * split; [exact Hflush|]. split; [exact Hw|].
        right. apply stable_word; [exact Hw | discriminate | exact Hsp].
Qed.

Lemma wrap_words_inv (ws : list str) :
  forall st,
    inv st ->
    (forall w, In w ws -> clean_word w /\ spaceless w = true) ->
    inv (fold_left (wrap_word sw font s0 max_w) ws st).
Proof.
  induction ws as [|w ws IH]; intros st Hst Hws; [exact Hst|].
  cbn [fold_left]. apply IH.
  - destruct (Hws w (or_introl eq_refl)) as [Hc Hsp]. now apply wrap_word_inv.
  - intros w' Hin. apply Hws. now right.
Qed.

Lemma wrap_raw_ok (lines : list str) (raw : str) :
  List.Forall line_ok lines ->
  (forall w, In w (Txt.split_space raw) -> clean_word w) ->
  List.Forall line_ok (wrap_raw sw font s0 max_w lines raw).
Proof.
  intros Hlines Hclean. unfold wrap_raw.
  pose proof (wrap_words_inv (Txt.split_space raw) (lines, [])) as Hinv.
  destruct (fold_left (wrap_word sw font s0 max_w) (Txt.split_space raw) (lines, []))
    as [lines' cur].
  destruct Hinv as (Hl & Hc & Hst).
  - exact (conj Hlines (conj clean_empty (or_introl eq_refl))).
  - intros w Hin. split; [now apply Hclean | now apply (split_space_spaceless raw)].
  - simpl in Hl, Hc, Hst. destruct cur as [|c cur]; [exact Hl|]. simpl.
    apply List.Forall_app. split; [exact Hl|]. constructor; [|constructor].
    destruct Hst as [Hst|Hst]; [discriminate|].
    apply line_ok_of_stable; [exact Hst | discriminate].
Qed.

Lemma wrap_text_ok (text : str) :
  clean_words text -> List.Forall line_ok (wrap_text sw font s0 max_w text).
Proof.
  intros Hclean. unfold wrap_text, clean_words in *.
  assert (Hgen : forall raws acc,
            List.Forall line_ok acc ->
            (forall raw w, In raw raws -> In w (Txt.split_space raw) -> clean_word w) ->
            List.Forall line_ok (fold_left (wrap_raw sw font s0 max_w) raws acc)).
  { induction raws as [|raw raws IH]; intros acc Hacc Hraws; [exact Hacc|].
    cbn [fold_left]. apply IH.
    - apply wrap_raw_ok; [exact Hacc|]. intros w Hin. apply (Hraws raw w); [now left | exact Hin].
    - intros raw' w Hin Hw. apply (Hraws raw' w); [now right | exact Hw]. }
  apply Hgen; [constructor | exact Hclean].
Qed.

Lemma rewrap_ok (lines : list str) :
  List.Forall line_ok lines -> rewrap sw font s max_w lines = lines.
Proof.
  intros Hok. unfold rewrap.
  assert (Hgen : forall ls acc,
            List.Forall line_ok ls ->
            fold_left (wrap_raw sw font s max_w) ls acc = acc ++ ls).
  { induction ls as [|ln ls IH]; intros acc Hls; [now rewrite app_nil_r|].
    inversion Hls as [|? ? Hln Hrest]; subst.
    cbn [fold_left]. rewrite (Hln acc), (IH _ Hrest), <- app_assoc. reflexivity. }
  exact (Hgen lines [] Hok).
Qed.

(** The greedy wrap is idempotent across a size that does not widen. *)
Lemma wrap_text_rewrap (text : str) :
  clean_words text ->
  rewrap sw font s max_w (wrap_text sw font s0 max_w text)
  = wrap_text sw font s0 max_w text.
Proof. intros H. apply rewrap_ok, wrap_text_ok, H. Qed.

End Rewrap.

(** ** The multi-line fitter *)

Lemma fit_multiline_step sw n text font max_w height min_size leading size lines :
  fit_multiline sw (S n) text font max_w height min_size leading size lines
  = if Qleb min_size size then
      if Qleb (inject_Z (Z.of_nat (List.length (wrap_text sw font size max_w text)))
               * (size * leading)) height
      then Ok (size, Some (wrap_text sw font size max_w text))
      else fit_multiline sw n text font max_w height min_size leading (size - SIZE_STEP)
             (Some (wrap_text sw font size max_w text))
    else Ok (size, lines).
Proof. reflexivity. Qed.

(** The size loop returns once the fuel covers the steps down to
    [min_size]; the lines it returns, if any, were wrapped at a size that
    is at least the size it returns. *)
Lemma fit_multiline_result sw text font max_w height min_size leading :
  forall n size lines fuel,
    size - min_size < inject_Z (Z.of_nat n) * SIZE_STEP ->
    (n < fuel)%nat ->
    (lines = None
     \/ exists s0, size <= s0 /\ lines = Some (wrap_text sw font s0 max_w text)) ->
    exists size' lines',
      fit_multiline sw fuel text font max_w height min_size leading size lines
      = Ok (size', lines')
      /\ (lines' = None
          \/ exists s0, size' <= s0 /\ lines' = Some (wrap_text sw font s0 max_w text)).
Proof.
  induction n as [|n IH]; intros size lines fuel Hn Hfuel Hlines;
    (destruct fuel as [|fuel]; [lia|]); rewrite fit_multiline_step.
  - assert (Hlt : size < min_size).
    { change (Z.of_nat 0) with 0%Z in Hn. unfold SIZE_STEP, inject_Z in Hn. lra. }
    apply Qleb_false in Hlt. rewrite Hlt. eauto.
  - destruct (Qleb min_size size); [|eauto].
    destruct (Qleb _ height).
    + do 2 eexists. split; [reflexivity|]. right. exists size. split; [lra | reflexivity].
    + apply IH.
      * rewrite inject_nat_succ in Hn. unfold SIZE_STEP in *. lra.
      * lia.
      * right. exists size. split; [unfold SIZE_STEP; lra | reflexivity].
Qed.

(** C8, as stated, fails: with a TAB at the start of a word that opens a
    new line ("a", space, TAB, "foo" in a box 20pt wide inside), the
    fitter keeps the TAB in its second line, and wrapping that line again
    strips it. *)
Lemma C8_rewrap_differs_on_tab :
  exists size lines,
    fit_multiline courier_width 20
      (Txt.strip (u "a " ++ 9%N :: u "foo")) "Courier"
      (24 - 0 - 2 * 2) (34 - 0 - 2 * 2) 7.5 1.2 9.5 None = Ok (size, Some lines)
    /\ lines = [u "a"; 9%N :: u "foo"]
    /\ rewrap courier_width "Courier" size (24 - 0 - 2 * 2) lines = [u "a"; u "foo"]
    /\ rewrap courier_width "Courier" size (24 - 0 - 2 * 2) lines <> lines.
Proof.
  do 2 eexists. split; [vm_compute; reflexivity|].
  split; [reflexivity|]. split; [vm_compute; reflexivity|].
  vm_compute. discriminate.
Qed.

(** C8, amended. For every text none of whose words starts or ends with
    white space other than the separating spaces (a TAB, a no-break
    space, any character [strip] removes), and a font metric that does
    not grow when the size shrinks, as [stringWidth] is, the multi-line
    fitter returns, and wrapping the lines it produced again at the size
    it chose and against the same width gives back exactly those
    lines. *)
Theorem C8_rewrap_idempotent
    (sw : str -> string -> Q -> Q) (text : str) (font : string)
    (max_size min_size inset leading : Q) (r : rect) :
  (forall t s s', s <= s' -> sw t font s <= sw t font s') ->
  clean_words (Txt.strip text) ->
  exists fuel0, forall fuel, (fuel0 <= fuel)%nat ->
    exists size lines,
      fit_multiline sw fuel (Txt.strip text) font (rx1 r - rx0 r - 2 * inset)
        (ry1 r - ry0 r - 2 * inset) min_size leading max_size None = Ok (size, lines)
      /\ forall ls, lines = Some ls ->
           rewrap sw font size (rx1 r - rx0 r - 2 * inset) ls = ls.
Proof.
  intros Hmono Hclean.
  destruct (archimedes (max_size - min_size) SIZE_STEP) as [n Hn]; [reflexivity|].
  exists (S n). intros fuel Hfuel.
  destruct (fit_multiline_result sw (Txt.strip text) font (rx1 r - rx0 r - 2 * inset)
              (ry1 r - ry0 r - 2 * inset) min_size leading n max_size None fuel Hn
              ltac:(lia) (or_introl eq_refl)) as (size & lines & Hrun & Hinv).
  exists size, lines. split; [exact Hrun|].
  intros ls ->. destruct Hinv as [Hinv|(s0 & Hle & [= ->])]; [discriminate|].
  apply wrap_text_rewrap; [|exact Hclean].
  intros t. now apply Hmono.
Qed.

(** Courier's width does not grow when the size shrinks. *)
Lemma courier_width_mono (t : str) (font : string) (s s' : Q) :
  s <= s' -> courier_width t font s <= courier_width t font s'.
Proof.
  intros Hle. unfold courier_width.
  assert (Hg : 0 <= inject_Z (printable_glyphs t)).
  { change 0 with (inject_Z 0). rewrite <- Zle_Qle.
    induction t as [|c t IH]; simpl; [lia|].
    destruct (_ && _); lia. }
  assert (H : 0 <= inject_Z (printable_glyphs t) * 0.6)
    by (apply Qmult_le_0_compat; [exact Hg | lra]).
  rewrite (Qmult_comm _ s), (Qmult_comm _ s').
  apply Qmult_le_compat_r; assumption.
Qed.

(** C8 at work: two words in Courier in a box too low for two lines; the
    size ends below the minimum, and the lines still wrap to themselves. *)
Lemma C8_rewrap_idempotent_witness :
  exists fuel0, forall fuel, (fuel0 <= fuel)%nat ->
    exists size lines,
      fit_multiline courier_width fuel (Txt.strip (u "aa bb")) "Courier"
        (rx1 (mkRect 0 0 26 14) - rx0 (mkRect 0 0 26 14) - 2 * 2)
        (ry1 (mkRect 0 0 26 14) - ry0 (mkRect 0 0 26 14) - 2 * 2) 7.5 1.2 9.5 None
      = Ok (size, lines)
      /\ forall ls, lines = Some ls ->
           rewrap courier_width "Courier" size
             (rx1 (mkRect 0 0 26 14) - rx0 (mkRect 0 0 26 14) - 2 * 2) ls = ls.
Proof.
  apply (C8_rewrap_idempotent courier_width (u "aa bb") "Courier" 9.5 7.5 2 1.2
           (mkRect 0 0 26 14)).
  - intros t s s' Hle. now apply courier_width_mono.
  - intros raw w Hraw Hw. vm_compute in Hraw.
    destruct Hraw as [<-|[]]. vm_compute in Hw.
    destruct Hw as [<-|[<-|[]]]; split; reflexivity.
Defined.

(** * Further properties of the code *)

(** ** The digit grid *)

(** The digit grid is total and lays the digits out cell by cell: for a
    rectangle, at least one slot and at least one digit, the helper
    returns; it sets the font once, at a size not above [max_size], at
    which (while above 6.5) the glyph "8" fits a cell less one point, and
    that undershoots 6.5 by less than one step; then it sets one centred
    string per kept digit, at the centres of cells 0, 1, ... on a common
    baseline. *)
Theorem digit_grid_layout (sw : str -> string -> Q -> Q) (dec : N -> bool) (c : canvas)
    (text : option value) (r : rect) (slots : nat) (font : string)
    (max_size inset : Q) :
  textual text = true ->
  Txt.digits_only dec (raw_text text) <> [] -> (0 < slots)%nat ->
  exists fuel0 size,
    (forall fuel, (fuel0 <= fuel)%nat ->
       draw_digits_in_cells_vec sw dec fuel c text (Some r) slots font max_size inset
       = Ok (c ++ SetFont font size
               :: map (fun jc =>
                         DrawCentredString
                           (cell_centre (rx0 r) inset
                              ((rx1 r - rx0 r - 2 * inset) / inject_Z (Z.of_nat slots))
                              (fst jc))
                           (ry0 r + (ry1 r - ry0 r - size) / 2 + 0.5)
                           [snd jc])
                    (combine
                       (seq 0 (List.length
                                 (Txt.slice 0 slots (Txt.digits_only dec (raw_text text)))))
                       (Txt.slice 0 slots (Txt.digits_only dec (raw_text text))))))
    /\ size <= max_size
    /\ (6.5 < size ->
        sw (u "8") font size
        <= (rx1 r - rx0 r - 2 * inset) / inject_Z (Z.of_nat slots) - 1)
    /\ (6.5 < max_size -> 6.5 - SIZE_STEP < size)
    /\ (max_size <= 6.5 -> size = max_size).
Proof.
  intros Tt Hd Hs.
  destruct (archimedes (max_size - 6.5) SIZE_STEP) as [n Hn]; [reflexivity|].
  destruct (digit_size_search_stops sw font
              ((rx1 r - rx0 r - 2 * inset) / inject_Z (Z.of_nat slots)) n max_size Hn)
    as (size & Hrun & Hle & Hfit & Hlow & Heq).
  exists (S n), size. split; [|repeat split; assumption].
  intros fuel Hfuel. unfold draw_digits_in_cells_vec, digits_of.
  rewrite (or_empty_textual _ _ Tt). cbn [bind].
  apply truthy_true in Hd. rewrite Hd. cbn [negb].
  destruct slots as [|k]; [lia|].
  rewrite (while_fuel_le _ _ (S n) fuel max_size size Hfuel Hrun). cbn [bind].
  rewrite draw_cells_spec, <- app_assoc. reflexivity.
Qed.

Lemma digit_grid_layout_witness :
  exists fuel0 size,
    (forall fuel, (fuel0 <= fuel)%nat ->
       draw_digits_in_cells_vec courier_width ascii_decimal fuel []
         (Some (VStr (u "123456789"))) (Some (mkRect 0 0 34 14)) 3 "Courier" 12 2
       = Ok ([] ++ SetFont "Courier" size
               :: map (fun jc =>
                         DrawCentredString
                           (cell_centre (rx0 (mkRect 0 0 34 14)) 2
                              ((rx1 (mkRect 0 0 34 14) - rx0 (mkRect 0 0 34 14) - 2 * 2)
                               / inject_Z (Z.of_nat 3))
                              (fst jc))
                           (ry0 (mkRect 0 0 34 14)
                            + (ry1 (mkRect 0 0 34 14) - ry0 (mkRect 0 0 34 14) - size) / 2
                            + 0.5)
                           [snd jc])
                    (combine
                       (seq 0 (List.length
                                 (Txt.slice 0 3
                                    (Txt.digits_only ascii_decimal
                                       (raw_text (Some (VStr (u "123456789"))))))))
                       (Txt.slice 0 3
                          (Txt.digits_only ascii_decimal
                             (raw_text (Some (VStr (u "123456789")))))))))
    /\ size <= 12
    /\ (6.5 < size ->
        courier_width (u "8") "Courier" size
        <= (rx1 (mkRect 0 0 34 14) - rx0 (mkRect 0 0 34 14) - 2 * 2) / inject_Z (Z.of_nat 3) - 1)
    /\ (6.5 < 12 -> 6.5 - SIZE_STEP < size)
    /\ (12 <= 6.5 -> size = 12).
Proof.
  apply (digit_grid_layout courier_width ascii_decimal [] (Some (VStr (u "123456789")))
           (mkRect 0 0 34 14) 3 "Courier" 12 2).
  - reflexivity.
  - vm_compute. discriminate.
  - lia.
Defined.

Lemma centred_texts_app (a b : canvas) :
  centred_texts (a ++ b) = centred_texts a ++ centred_texts b.
Proof. unfold centred_texts. apply flat_map_app. Qed.

Lemma centred_texts_cells x0 inset cw y :
  forall ds i,
    centred_texts
      (map (fun jc => DrawCentredString (cell_centre x0 inset cw (fst jc)) y [snd jc])
         (combine (seq i (List.length ds)) ds))
    = map (fun ch => [ch]) ds.
Proof.
  induction ds as [|ch ds IH]; intros i; [reflexivity|].
  simpl. f_equal. apply IH.
Qed.

Lemma forallb_firstn {A : Type} (p : A -> bool) (n : nat) :
  forall l, forallb p l = true -> forallb p (firstn n l) = true.
Proof.
  induction n as [|n IH]; intros l Hl; destruct l as [|x l]; simpl; try reflexivity.
  simpl in Hl. apply andb_true_iff in Hl. destruct Hl as [H1 H2].
  rewrite H1. simpl. now apply IH.
Qed.

(** The digit grid never draws more than [slots] digits, and draws only
    decimal digits: whenever the helper returns on a rectangle, what it
    added to the canvas sets exactly the first [slots] decimal digits of
    the input, one character each and in order, every other character of
    the input left out. *)
Theorem digit_grid_truncates (sw : str -> string -> Q -> Q) (dec : N -> bool)
    (fuel : nat) (c c' : canvas) (text : option value) (r : rect) (slots : nat)
    (font : string) (max_size inset : Q) :
  draw_digits_in_cells_vec sw dec fuel c text (Some r) slots font max_size inset = Ok c' ->
  exists added,
    c' = c ++ added
    /\ centred_texts added
       = map (fun ch => [ch]) (firstn slots (Txt.digits_only dec (raw_text text)))
    /\ List.length (centred_texts added)
       = Nat.min slots (List.length (Txt.digits_only dec (raw_text text)))
    /\ (List.length (centred_texts added) <= slots)%nat
    /\ forallb dec (firstn slots (Txt.digits_only dec (raw_text text))) = true.
Proof.
  intros H.
  unfold draw_digits_in_cells_vec, digits_of in H.
  destruct (textual text) eqn:Tt;
    [rewrite (or_empty_textual _ _ Tt) in H
    |rewrite (or_empty_raises _ _ Tt) in H; discriminate].
  cbn [bind] in H.
  destruct (Txt.truthy (Txt.digits_only dec (raw_text text))) eqn:Ht; cbn [negb] in H.
  - destruct slots as [|k]; [discriminate|].
    apply bind_Ok in H. destruct H as (size & Hsize & H). injection H as <-.
    rewrite draw_cells_spec, <- app_assoc. eexists. split; [reflexivity|].
    unfold Txt.slice. rewrite Nat.sub_0_r. cbn [skipn].
    rewrite centred_texts_app. cbn [centred_texts flat_map app].
    change (flat_map _ ?l) with (centred_texts l).
    rewrite centred_texts_cells. split; [reflexivity|].
    rewrite length_map, length_firstn.
    split; [reflexivity|]. split; [lia|].
    apply forallb_firstn, digits_only_all.
  - injection H as <-. apply truthy_false in Ht. rewrite Ht.
    exists []. rewrite app_nil_r. split; [reflexivity|].
    rewrite firstn_nil. simpl. repeat split; lia.
Qed.

Lemma digit_grid_truncates_witness :
  exists c' added,
    draw_digits_in_cells_vec courier_width ascii_decimal 40 []
      (Some (VStr (u "123-45-6789"))) (Some (mkRect 0 0 34 14)) 3 "Courier" 12 2 = Ok c'
    /\ c' = [] ++ added
    /\ centred_texts added
       = map (fun ch => [ch])
           (firstn 3 (Txt.digits_only ascii_decimal
                        (raw_text (Some (VStr (u "123-45-6789"))))))
    /\ List.length (centred_texts added)
       = Nat.min 3 (List.length (Txt.digits_only ascii_decimal
                                   (raw_text (Some (VStr (u "123-45-6789"))))))
    /\ (List.length (centred_texts added) <= 3)%nat
    /\ forallb ascii_decimal
         (firstn 3 (Txt.digits_only ascii_decimal
                      (raw_text (Some (VStr (u "123-45-6789")))))) = true.
Proof.
  destruct (draw_digits_in_cells_vec courier_width ascii_decimal 40 []
              (Some (VStr (u "123-45-6789")))
              (Some (mkRect 0 0 34 14)) 3 "Courier" 12 2) as [c'| |] eqn:Hrun.
  - destruct (digit_grid_truncates courier_width ascii_decimal 40 [] c'
                (Some (VStr (u "123-45-6789")))
                (mkRect 0 0 34 14) 3 "Courier" 12 2 Hrun) as (added & H).
    exists c', added. split; [reflexivity | exact H].
  - exfalso. vm_compute in Hrun. discriminate Hrun.
  - exfalso. vm_compute in Hrun. discriminate Hrun.
Defined.

(** Every digit sits in the middle of its own cell: for a rectangle wider
    than its two insets, the centre used for cell [i] is the midpoint of
    the [i]-th of the [slots] equal cells between the insets, so for
    [i < slots] it lies strictly between the inset edges. *)
Theorem digit_cell_centre_inside (r : rect) (inset : Q) (slots i : nat) :
  2 * inset < rx1 r - rx0 r -> (i < slots)%nat ->
  cell_centre (rx0 r) inset ((rx1 r - rx0 r - 2 * inset) / inject_Z (Z.of_nat slots)) i
  == (rx0 r + inset
      + inject_Z (Z.of_nat i) * ((rx1 r - rx0 r - 2 * inset) / inject_Z (Z.of_nat slots))
      + (rx0 r + inset
         + inject_Z (Z.of_nat (S i))
           * ((rx1 r - rx0 r - 2 * inset) / inject_Z (Z.of_nat slots)))) / 2
  /\ rx0 r + inset
     < cell_centre (rx0 r) inset
         ((rx1 r - rx0 r - 2 * inset) / inject_Z (Z.of_nat slots)) i
  /\ cell_centre (rx0 r) inset ((rx1 r - rx0 r - 2 * inset) / inject_Z (Z.of_nat slots)) i
     < rx1 r - inset.
Proof.
  intros Hwide Hi.
  set (n := inject_Z (Z.of_nat slots)).
  set (cw := (rx1 r - rx0 r - 2 * inset) / n).
  assert (Hn : 0 < n).
  { unfold n. change 0 with (inject_Z 0). rewrite <- Zlt_Qlt. lia. }
  assert (Hcw : 0 < cw).
  { unfold cw. apply Qlt_shift_div_l; [exact Hn | lra]. }
  assert (Htot : cw * n == rx1 r - rx0 r - 2 * inset).
  { unfold cw. field. lra. }
  assert (Hi0 : 0 <= inject_Z (Z.of_nat i)).
  { change 0 with (inject_Z 0). rewrite <- Zle_Qle. lia. }
  assert (Hi1 : inject_Z (Z.of_nat i) + 1 <= n).
  { unfold n. rewrite <- inject_nat_succ, <- Zle_Qle. lia. }
  assert (Hm0 : 0 <= cw * inject_Z (Z.of_nat i)).
  { apply Qmult_le_0_compat; lra. }
  assert (Hm1 : cw * (inject_Z (Z.of_nat i) + 1) <= cw * n).
  { rewrite (Qmult_comm cw (inject_Z (Z.of_nat i) + 1)), (Qmult_comm cw n).
    apply Qmult_le_compat_r; lra. }
  unfold cell_centre. fold n. fold cw.
  split; [|split].
  - rewrite inject_nat_succ. field.
  - lra.
  - lra.
Qed.

Lemma digit_cell_centre_inside_witness :
  cell_centre (rx0 (mkRect 0 0 34 14)) 2
    ((rx1 (mkRect 0 0 34 14) - rx0 (mkRect 0 0 34 14) - 2 * 2) / inject_Z (Z.of_nat 3)) 1
  == (rx0 (mkRect 0 0 34 14) + 2
      + inject_Z (Z.of_nat 1)
        * ((rx1 (mkRect 0 0 34 14) - rx0 (mkRect 0 0 34 14) - 2 * 2) / inject_Z (Z.of_nat 3))
      + (rx0 (mkRect 0 0 34 14) + 2
         + inject_Z (Z.of_nat 2)
           * ((rx1 (mkRect 0 0 34 14) - rx0 (mkRect 0 0 34 14) - 2 * 2)
              / inject_Z (Z.of_nat 3)))) / 2
  /\ rx0 (mkRect 0 0 34 14) + 2
     < cell_centre (rx0 (mkRect 0 0 34 14)) 2
         ((rx1 (mkRect 0 0 34 14) - rx0 (mkRect 0 0 34 14) - 2 * 2) / inject_Z (Z.of_nat 3)) 1
  /\ cell_centre (rx0 (mkRect 0 0 34 14)) 2
       ((rx1 (mkRect 0 0 34 14) - rx0 (mkRect 0 0 34 14) - 2 * 2) / inject_Z (Z.of_nat 3)) 1
     < rx1 (mkRect 0 0 34 14) - 2.
Proof.
  apply (digit_cell_centre_inside (mkRect 0 0 34 14) 2 3 1).
  - reflexivity.
  - lia.
Defined.

(** ** The font cycler *)

Lemma cycler_take_from (pool : list string) :
  forall n i,
    cycler_take n (mkCycler pool i)
    = map (fun k => nth (k mod List.length pool) pool FONT_MAIN) (seq i n).
Proof.
  induction n as [|n IH]; intros i; [reflexivity|].
  cbn [cycler_take seq map]. f_equal. apply IH.
Qed.

(** The font cycler hands out its pool in call order and wraps to the
    start: the [k]-th call (counting from 0) returns entry [k mod len] of
    the pool, so call [k + len] returns what call [k] returned; every font
    returned is a font of the pool; and an empty pool behaves as the pool
    holding only the main font. *)
Theorem font_cycler_cycles (pool : list string) (n : nat) :
  pool <> [] ->
  cycler_take n (FontCycler_init pool)
  = map (fun k => nth (k mod List.length pool) pool FONT_MAIN) (seq 0 n)
  /\ (forall k d,
        nth (k + List.length pool) (cycler_take (S (k + List.length pool))
                                      (FontCycler_init pool)) d
        = nth k (cycler_take (S k) (FontCycler_init pool)) d)
  /\ List.Forall (fun f => In f pool) (cycler_take n (FontCycler_init pool))
  /\ cycler_take n (FontCycler_init []) = repeat FONT_MAIN n.
Proof.
  intros Hne.
  assert (Hinit : FontCycler_init pool = mkCycler pool 0)
    by (destruct pool; [contradiction | reflexivity]).
  assert (Hlen : List.length pool <> 0%nat) by (destruct pool; simpl; congruence).
  assert (Hnth : forall m k d, (k < m)%nat ->
            nth k (cycler_take m (mkCycler pool 0)) d
            = nth (k mod List.length pool) pool FONT_MAIN).
  { intros m k d Hk. rewrite cycler_take_from.
    rewrite (nth_indep _ d (nth (0 mod List.length pool) pool FONT_MAIN))
      by (rewrite length_map, length_seq; exact Hk).
    rewrite (map_nth (fun k => nth (k mod List.length pool) pool FONT_MAIN)).
    now rewrite seq_nth by exact Hk. }
  rewrite Hinit. split; [apply cycler_take_from|]. split; [|split].
  - intros k d. rewrite !Hnth by lia.
    replace (k + List.length pool)%nat with (k + 1 * List.length pool)%nat by lia.
    now rewrite Nat.Div0.mod_add.
  - rewrite cycler_take_from. apply List.Forall_forall. intros f Hin.
    apply in_map_iff in Hin. destruct Hin as (k & <- & _).
    apply nth_In. apply Nat.mod_upper_bound. exact Hlen.
  - change (FontCycler_init []) with (mkCycler [FONT_MAIN] 0).
    rewrite cycler_take_from.
    assert (Hrep : forall m i,
              map (fun k => nth (k mod 1) [FONT_MAIN] FONT_MAIN) (seq i m)
              = repeat FONT_MAIN m).
    { induction m as [|m IH]; intros i; [reflexivity|].
      cbn [seq map repeat]. rewrite IH.
      f_equal; try (rewrite Nat.mod_1_r; reflexivity). }
    apply Hrep.
Qed.

Lemma font_cycler_cycles_witness :
  cycler_take 7 (FontCycler_init ["Helvetica"; "Courier"; "Times-Roman"])
  = map (fun k => nth (k mod List.length ["Helvetica"; "Courier"; "Times-Roman"])
                    ["Helvetica"; "Courier"; "Times-Roman"] FONT_MAIN) (seq 0 7)
  /\ cycler_take 7 (FontCycler_init ["Helvetica"; "Courier"; "Times-Roman"])
     = ["Helvetica"; "Courier"; "Times-Roman"; "Helvetica"; "Courier"; "Times-Roman";
        "Helvetica"].
Proof.
  split; [|reflexivity].
  apply (proj1 (font_cycler_cycles ["Helvetica"; "Courier"; "Times-Roman"] 7
                  ltac:(discriminate))).
Defined.


(** ** The cleanup policy *)

Lemma try_remove_all_gone (paths : list string) (p : string) :
  forall fs : gmap string file,
    In p paths \/ fs !! p = None -> fold_left try_remove paths fs !! p = None.
Proof.
  induction paths as [|q paths IH]; intros fs H; simpl.
  - destruct H as [[]|H]. exact H.
  - apply IH. destruct (decide (q = p)) as [->|Hne].
    + right. unfold try_remove. apply lookup_delete_eq.
    + destruct H as [[Hq|Hin]|Hnone]; [contradiction | now left |].
      right. unfold try_remove. rewrite lookup_delete_ne by exact Hne. exact Hnone.
Qed.

Lemma remove_overlay_pngs_lookup (fs : gmap string file) (p : string) :
  remove_overlay_pngs fs !! p = if is_overlay_png p then None else fs !! p.
Proof.
  unfold remove_overlay_pngs. destruct (is_overlay_png p) eqn:Hp.
  - apply map_lookup_filter_None. right. intros f _. simpl. congruence.
  - destruct (fs !! p) as [f|] eqn:Hf.
    + apply map_lookup_filter_Some. split; [exact Hf | exact Hp].
    + apply map_lookup_filter_None. now left.
Qed.

(** The cleanup at the end of [main], path by path: with [--clean]
    every temporary file is gone in both modes; in full mode the first
    temporary file (the overlay layer) is gone even without [--clean],
    while the watermark layers stay; in bypass mode without [--clean] the
    disk is left as it is; and the cleanup creates nothing. *)
Theorem cleanup_policy (a : args) (temp_files : list string) (fs : gmap string file) :
  (clean a = true -> forall p, In p temp_files -> cleanup a temp_files fs !! p = None)
  /\ (w9bp a = false ->
      forall overlay rest, temp_files = overlay :: rest ->
        cleanup a temp_files fs !! overlay = None)
  /\ (w9bp a = true -> clean a = false -> cleanup a temp_files fs = fs)
  /\ (w9bp a = false -> clean a = false ->
      forall overlay rest p, temp_files = overlay :: rest ->
        p <> overlay -> is_overlay_png p = false ->
        cleanup a temp_files fs !! p = fs !! p)
  /\ (forall p, fs !! p = None -> cleanup a temp_files fs !! p = None).
Proof.
  unfold cleanup. split; [|split; [|split; [|split]]].
  - intros Hc p Hin. rewrite Hc. destruct (w9bp a).
    + apply try_remove_all_gone. now left.
    + rewrite remove_overlay_pngs_lookup. destruct (is_overlay_png p); [reflexivity|].
      apply try_remove_all_gone. now left.
  - intros Hw overlay rest ->. rewrite Hw.
    rewrite remove_overlay_pngs_lookup. destruct (is_overlay_png overlay); [reflexivity|].
    apply try_remove_all_gone. left. destruct (clean a); simpl; now left.
  - intros Hw Hc. now rewrite Hw, Hc.
  - intros Hw Hc overlay rest p -> Hne Hpng. rewrite Hw, Hc.
    rewrite remove_overlay_pngs_lookup, Hpng. simpl.
    unfold try_remove. apply lookup_delete_ne. congruence.
  - intros p Hnone. destruct (w9bp a).
    + destruct (clean a); [|exact Hnone]. apply try_remove_all_gone. now right.
    + rewrite remove_overlay_pngs_lookup. destruct (is_overlay_png p); [reflexivity|].
      apply try_remove_all_gone. now right.
Qed.

Lemma cleanup_policy_witness :
  cleanup (mkArgs "fw9.pdf" false false false false false false "out.pdf")
    ["out.overlay.pdf"; "out.overlay.wm_p1.pdf"]
    {[ "out.overlay.pdf" := canvas_file (612, 792) [];
       "out.overlay.wm_p1.pdf" := canvas_file (612, 792) [] ]} !! "out.overlay.pdf" = None
  /\ cleanup (mkArgs "fw9.pdf" false false false false false false "out.pdf")
       ["out.overlay.pdf"; "out.overlay.wm_p1.pdf"]
       {[ "out.overlay.pdf" := canvas_file (612, 792) [];
          "out.overlay.wm_p1.pdf" := canvas_file (612, 792) [] ]} !! "out.overlay.wm_p1.pdf"
     = ({[ "out.overlay.pdf" := canvas_file (612, 792) [];
           "out.overlay.wm_p1.pdf" := canvas_file (612, 792) [] ]} : gmap string file)
         !! "out.overlay.wm_p1.pdf"
  /\ cleanup (mkArgs "fw9.pdf" false true false false false false "out.pdf")
       ["out.overlay.pdf"; "out.overlay.wm_p1.pdf"]
       {[ "out.overlay.pdf" := canvas_file (612, 792) [];
          "out.overlay.wm_p1.pdf" := canvas_file (612, 792) [] ]} !! "out.overlay.wm_p1.pdf"
     = None.
Proof.
  split; [|split].
  - apply (proj1 (proj2 (cleanup_policy
             (mkArgs "fw9.pdf" false false false false false false "out.pdf")
             ["out.overlay.pdf"; "out.overlay.wm_p1.pdf"]
             {[ "out.overlay.pdf" := canvas_file (612, 792) [];
                "out.overlay.wm_p1.pdf" := canvas_file (612, 792) [] ]}))
             eq_refl "out.overlay.pdf" ["out.overlay.wm_p1.pdf"] eq_refl).
  - apply (proj1 (proj2 (proj2 (proj2 (cleanup_policy
             (mkArgs "fw9.pdf" false false false false false false "out.pdf")
             ["out.overlay.pdf"; "out.overlay.wm_p1.pdf"]
             {[ "out.overlay.pdf" := canvas_file (612, 792) [];
                "out.overlay.wm_p1.pdf" := canvas_file (612, 792) [] ]}))))
             eq_refl eq_refl "out.overlay.pdf" ["out.overlay.wm_p1.pdf"]
             "out.overlay.wm_p1.pdf" eq_refl);
      [discriminate | reflexivity].
  - apply (proj1 (cleanup_policy
             (mkArgs "fw9.pdf" false true false false false false "out.pdf")
             ["out.overlay.pdf"; "out.overlay.wm_p1.pdf"]
             {[ "out.overlay.pdf" := canvas_file (612, 792) [];
                "out.overlay.wm_p1.pdf" := canvas_file (612, 792) [] ]})
             eq_refl "out.overlay.wm_p1.pdf").
    right. left. reflexivity.
Defined.

(** ** Flattening *)

(** [flatten_all] writes, at [dst_pdf], the source document with the
    annotations of every page removed (same pages in the same order,
    same sizes and content, every entry of the document information)
    and without its XMP stream, which the writer never receives; every
    other file is left as it was; and it fails exactly when the source
    cannot be read as a PDF. *)
Theorem flatten_all_strips_annotations_and_xmp (src_pdf dst_pdf : string)
    (fs : gmap string file) :
  (forall fs',
     flatten_all src_pdf dst_pdf fs = Ok fs' ->
     exists doc doc',
       read_pdf fs src_pdf = Ok doc
       /\ fs' !! dst_pdf = Some (PdfFile doc')
       /\ List.length (pdf_pages doc') = List.length (pdf_pages doc)
       /\ List.Forall (fun p => annots p = None) (pdf_pages doc')
       /\ map contents (pdf_pages doc') = map contents (pdf_pages doc)
       /\ map mediabox (pdf_pages doc') = map mediabox (pdf_pages doc)
       /\ pdf_info doc' = pdf_info doc ∪ writer_default_info
       /\ (forall k v, pdf_info doc !! k = Some v -> pdf_info doc' !! k = Some v)
       /\ pdf_xmp doc' = None
       /\ forall p, p <> dst_pdf -> fs' !! p = fs !! p)
  /\ (forall doc, read_pdf fs src_pdf = Ok doc -> exists fs', flatten_all src_pdf dst_pdf fs = Ok fs')
  /\ (forall e, read_pdf fs src_pdf = Raise e -> flatten_all src_pdf dst_pdf fs = Raise e).
Proof.
  unfold flatten_all. split; [|split].
  - intros fs' H. split_bind H doc Hdoc. injection H as <-.
    exists doc. eexists. split; [exact Hdoc|]. split; [apply lookup_insert_eq|].
    cbn [pdf_pages pdf_info pdf_xmp]. rewrite length_map.
    split; [reflexivity|]. split.
    { apply List.Forall_forall. intros p Hin. apply in_map_iff in Hin.
      destruct Hin as (q & <- & _). reflexivity. }
    split; [rewrite map_map; apply map_ext; now intros []|].
    split; [rewrite map_map; apply map_ext; now intros []|].
    split; [reflexivity|].
    split; [intros k v Hk; now apply lookup_union_Some_l|].
    split; [reflexivity|].
    intros p Hne. apply lookup_insert_ne. congruence.
  - intros doc ->. cbn [bind]. eauto.
  - intros e ->. reflexivity.
Qed.

(** At work on an output that carries an XMP packet. *)
Lemma flatten_all_strips_annotations_and_xmp_witness :
  exists fs' doc doc',
    flatten_all "out.pdf" "out_flat.pdf" {[ "out.pdf" := PdfFile demo_output ]} = Ok fs'
    /\ read_pdf {[ "out.pdf" := PdfFile demo_output ]} "out.pdf" = Ok doc
    /\ pdf_xmp doc <> None
    /\ fs' !! "out_flat.pdf" = Some (PdfFile doc')
    /\ List.length (pdf_pages doc') = List.length (pdf_pages doc)
    /\ List.Forall (fun p => annots p = None) (pdf_pages doc')
    /\ map contents (pdf_pages doc') = map contents (pdf_pages doc)
    /\ map mediabox (pdf_pages doc') = map mediabox (pdf_pages doc)
    /\ pdf_info doc' = pdf_info doc ∪ writer_default_info
    /\ (forall k v, pdf_info doc !! k = Some v -> pdf_info doc' !! k = Some v)
    /\ pdf_xmp doc' = None
    /\ forall p, p <> "out_flat.pdf" ->
         fs' !! p = ({[ "out.pdf" := PdfFile demo_output ]} : gmap string file) !! p.
Proof.
  destruct (flatten_all "out.pdf" "out_flat.pdf" {[ "out.pdf" := PdfFile demo_output ]})
    as [fs'| |] eqn:Hrun.
  - destruct (proj1 (flatten_all_strips_annotations_and_xmp "out.pdf" "out_flat.pdf"
                       {[ "out.pdf" := PdfFile demo_output ]})
                fs' Hrun) as (doc & doc' & Hdoc & H).
    exists fs', doc, doc'. split; [reflexivity|]. split; [exact Hdoc|].
    split; [|exact H].
    vm_compute in Hdoc. injection Hdoc as <-. discriminate.
  - exfalso. vm_compute in Hrun. discriminate Hrun.
  - exfalso. vm_compute in Hrun. discriminate Hrun.
Defined.

(** ** Replacing a suffix in the output name *)

Lemma replace_from_absent (old new : string) :
  forall s, Py.contains old s = false -> replace_from old new 0 s = s.
Proof.
  induction s as [|a s IH]; intros H; [reflexivity|].
  cbn [Py.contains] in H. apply orb_false_iff in H. destruct H as [Hp Hc].
  cbn [replace_from]. rewrite Hp, (IH Hc). reflexivity.
Qed.

(** [main] names the flattened file [output.replace(".pdf", "_flat.pdf")]:
    when the output name contains no [.pdf] that name is the output name
    itself, so the flattened document, stripped of annotations and of
    the XMP stream, takes the place of the output. *)
Theorem flatten_overwrites_output_without_pdf_suffix (out : string) (doc : pdf)
    (fs : gmap string file) :
  Py.contains ".pdf" out = false ->
  fs !! out = Some (PdfFile doc) ->
  replace ".pdf" "_flat.pdf" out = out
  /\ flatten_all out (replace ".pdf" "_flat.pdf" out) fs
     = Ok (<[out := PdfFile (mkPdf (map strip_annots (pdf_pages doc))
                               (pdf_info doc ∪ writer_default_info) None)]> fs).
Proof.
  intros Hc Hf.
  assert (Hr : replace ".pdf" "_flat.pdf" out = out) by (now apply replace_from_absent).
  split; [exact Hr|]. rewrite Hr. unfold flatten_all, read_pdf. now rewrite Hf.
Qed.

Lemma flatten_overwrites_output_without_pdf_suffix_witness :
  replace ".pdf" "_flat.pdf" "w9-final" = "w9-final"
  /\ flatten_all "w9-final" (replace ".pdf" "_flat.pdf" "w9-final")
       {[ "w9-final" := PdfFile demo_output ]}
     = Ok (<["w9-final" := PdfFile (mkPdf (map strip_annots (pdf_pages demo_output))
                                      (pdf_info demo_output ∪ writer_default_info)
                                      None)]>
             {[ "w9-final" := PdfFile demo_output ]}).
Proof.
  apply (flatten_overwrites_output_without_pdf_suffix "w9-final" demo_output
           {[ "w9-final" := PdfFile demo_output ]}); reflexivity.
Defined.

(** ** XML escaping *)

Lemma prefix_single (c a : ascii) (r : string) :
  String.prefix (String c EmptyString) (String a r) = Ascii.eqb c a.
Proof.
  cbn [String.prefix]. destruct (ascii_dec c a) as [->|Hne].
  - rewrite Ascii.eqb_refl. now destruct r.
  - symmetry. now apply Ascii.eqb_neq.
Qed.

(** Replacing a single character works character by character. *)
Lemma replace_char_cons (c : ascii) (new : string) (a : ascii) (r : string) :
  replace (String c EmptyString) new (String a r)
  = (if Ascii.eqb c a then new else String a EmptyString)
    +:+ replace (String c EmptyString) new r.
Proof.
  unfold replace. cbn [replace_from]. rewrite prefix_single.
  destruct (Ascii.eqb c a); reflexivity.
Qed.

Lemma append_assoc (a b c : string) : (a +:+ b) +:+ c = a +:+ (b +:+ c).
Proof.
  induction a as [|x a IH]; [reflexivity|].
  change (String x ((a +:+ b) +:+ c) = String x (a +:+ (b +:+ c))).
  now rewrite IH.
Qed.

Lemma replace_char_app (c : ascii) (new x y : string) :
  replace (String c EmptyString) new (x +:+ y)
  = replace (String c EmptyString) new x +:+ replace (String c EmptyString) new y.
Proof.
  induction x as [|a x IH]; [reflexivity|].
  change (String a x +:+ y) with (String a (x +:+ y)).
  rewrite !replace_char_cons, IH, append_assoc. reflexivity.
Qed.

Lemma prefix_append_self (p r : string) : String.prefix p (p +:+ r) = true.
Proof.
  induction p as [|a p IH]; [now destruct r|].
  change (String a p +:+ r) with (String a (p +:+ r)).
  cbn [String.prefix]. destruct (ascii_dec a a); [exact IH|congruence].
Qed.

(** [_xml_escape] as the source writes it: three replacements in a row,
    the ampersand first. *)
Lemma xml_escape_is_three_replaces (s : string) :
  _xml_escape s = replace ">" "&gt;" (replace "<" "&lt;" (replace "&" "&amp;" s)).
Proof.
  induction s as [|a s IH]; [reflexivity|].
  cbn [_xml_escape]. rewrite IH.
  rewrite (replace_char_cons "&"), (replace_char_app "<"), (replace_char_app ">").
  f_equal.
  destruct (Ascii.eqb a "&") eqn:H1.
  - apply Ascii.eqb_eq in H1. subst a. reflexivity.
  - rewrite Ascii.eqb_sym in H1. rewrite H1.
    destruct (Ascii.eqb a "<") eqn:H2.
    + apply Ascii.eqb_eq in H2. subst a. reflexivity.
    + rewrite (replace_char_cons "<"). rewrite Ascii.eqb_sym in H2. rewrite H2.
      change (replace "<" "&lt;" "") with "".
      change (String a "" +:+ "") with (String a "").
      rewrite (replace_char_cons ">").
      destruct (Ascii.eqb a ">") eqn:H3.
      * apply Ascii.eqb_eq in H3. subst a. reflexivity.
      * rewrite Ascii.eqb_sym in H3. rewrite H3. reflexivity.
Qed.

(** The escaped text has no angle bracket left, every ampersand in it
    starts one of the three entities, and text without the three special
    characters is returned as it is. The character-wise definition agrees
    with the three successive replacements of the source. *)
Theorem xml_escape_safe (s : string) :
  _xml_escape s = replace ">" "&gt;" (replace "<" "&lt;" (replace "&" "&amp;" s))
  /\ Py.contains "<" (_xml_escape s) = false
  /\ Py.contains ">" (_xml_escape s) = false
  /\ (forall pre post,
        _xml_escape s = pre +:+ String "&" post ->
        String.prefix "amp;" post = true \/ String.prefix "lt;" post = true
        \/ String.prefix "gt;" post = true)
  /\ (Py.contains "&" s = false -> Py.contains "<" s = false ->
      Py.contains ">" s = false -> _xml_escape s = s).
Proof.
  split; [apply xml_escape_is_three_replaces|].
  assert (Hc : forall c, (c = "<" \/ c = ">")%char ->
             Py.contains (String c EmptyString) (_xml_escape s) = false).
  { intros c Hcc. induction s as [|a s IH]; [reflexivity|].
    cbn [_xml_escape].
    destruct (Ascii.eqb a "&") eqn:H1; [destruct Hcc as [->| ->]; simpl; exact IH|].
    destruct (Ascii.eqb a "<") eqn:H2; [destruct Hcc as [->| ->]; simpl; exact IH|].
    destruct (Ascii.eqb a ">") eqn:H3; [destruct Hcc as [->| ->]; simpl; exact IH|].
    change (String a "" +:+ _xml_escape s) with (String a (_xml_escape s)).
    cbn [Py.contains]. rewrite prefix_single, IH, orb_false_r.
    rewrite Ascii.eqb_sym. destruct Hcc as [->| ->]; assumption. }
  split; [apply Hc; now left|]. split; [apply Hc; now right|]. split.
  - clear Hc. induction s as [|a s IH]; intros pre post H.
    + destruct pre; discriminate H.
    + cbn [_xml_escape] in H.
      destruct (Ascii.eqb a "&") eqn:H1.
      { change ("&amp;" +:+ _xml_escape s)
          with (String "&" ("amp;" +:+ _xml_escape s)) in H.
        destruct pre as [|p0 pre].
        - injection H as <-. left. apply prefix_append_self.
        - change ("&amp;" +:+ _xml_escape s)
            with (String "&" (String "a" (String "m" (String "p" (String ";"
                   (_xml_escape s)))))) in H.
          destruct pre as [|p1 pre]; [discriminate H|].
          destruct pre as [|p2 pre]; [discriminate H|].
          destruct pre as [|p3 pre]; [discriminate H|].
          destruct pre as [|p4 pre]; [discriminate H|].
          injection H as _ _ _ _ _ H. now apply (IH pre post). }
      destruct (Ascii.eqb a "<") eqn:H2.
      { change ("&lt;" +:+ _xml_escape s)
          with (String "&" ("lt;" +:+ _xml_escape s)) in H.
        destruct pre as [|p0 pre].
        - injection H as <-. right. left. apply prefix_append_self.
        - change ("&lt;" +:+ _xml_escape s)
            with (String "&" (String "l" (String "t" (String ";"
                   (_xml_escape s))))) in H.
          destruct pre as [|p1 pre]; [discriminate H|].
          destruct pre as [|p2 pre]; [discriminate H|].
          destruct pre as [|p3 pre]; [discriminate H|].
          injection H as _ _ _ _ H. now apply (IH pre post). }
      destruct (Ascii.eqb a ">") eqn:H3.
      { change ("&gt;" +:+ _xml_escape s)
          with (String "&" ("gt;" +:+ _xml_escape s)) in H.
        destruct pre as [|p0 pre].
        - injection H as <-. right. right. apply prefix_append_self.
        - change ("&gt;" +:+ _xml_escape s)
            with (String "&" (String "g" (String "t" (String ";"
                   (_xml_escape s))))) in H.
          destruct pre as [|p1 pre]; [discriminate H|].
          destruct pre as [|p2 pre]; [discriminate H|].
          destruct pre as [|p3 pre]; [discriminate H|].
          injection H as _ _ _ _ H. now apply (IH pre post). }
      change (String a "" +:+ _xml_escape s) with (String a (_xml_escape s)) in H.
      destruct pre as [|p0 pre].
      * injection H as Ha _. subst a. discriminate H1.
      * injection H as _ H. now apply (IH pre post).
  - clear Hc. induction s as [|a s IH]; intros Ha Hl Hg; [reflexivity|].
    cbn [Py.contains] in Ha, Hl, Hg. rewrite prefix_single in Ha, Hl, Hg.
    apply orb_false_iff in Ha, Hl, Hg.
    destruct Ha as [Ha Ha'], Hl as [Hl Hl'], Hg as [Hg Hg'].
    cbn [_xml_escape].
    rewrite (Ascii.eqb_sym a "&"), Ha, (Ascii.eqb_sym a "<"), Hl, (Ascii.eqb_sym a ">"), Hg.
    rewrite (IH Ha' Hl' Hg'). reflexivity.
Qed.

Lemma xml_escape_safe_witness :
  _xml_escape "R&D <draft>" = "R&amp;D &lt;draft&gt;"
  /\ _xml_escape "Form W-9" = "Form W-9".
Proof.
  split; [reflexivity|].
  apply (proj2 (proj2 (proj2 (proj2 (xml_escape_safe "Form W-9"))))); reflexivity.
Defined.


(** ** Layers and temporary files of the two writers *)

Lemma add_page_spec M fuel template_pdf root reader wm_cfg vis st i st' :
  add_page M fuel template_pdf root reader wm_cfg vis st i = Ok st' ->
  exists p,
    b_pages st' = b_pages st ++ [p]
    /\ layered wm_cfg reader i p
    /\ if watermarked wm_cfg i
       then b_temps st' = b_temps st ++ [layer_name root i]
            /\ exists sz c, b_fs st' = <[layer_name root i := canvas_file sz c]> (b_fs st)
       else b_temps st' = b_temps st /\ b_fs st' = b_fs st.
Proof.
  assert (Hcopy : watermarked wm_cfg i = false ->
            (let* tpl := page_at reader i in
             Ok (mkBuild (b_pages st ++ [tpl]) (b_temps st) (b_fs st))) = Ok st' ->
            exists p,
              b_pages st' = b_pages st ++ [p]
              /\ layered wm_cfg reader i p
              /\ if watermarked wm_cfg i
                 then b_temps st' = b_temps st ++ [layer_name root i]
                      /\ exists sz c,
                           b_fs st' = <[layer_name root i := canvas_file sz c]> (b_fs st)
                 else b_temps st' = b_temps st /\ b_fs st' = b_fs st).
  { intros Hw H. split_bind H tpl Ht. injection H as <-. simpl.
    exists tpl. split; [reflexivity|]. unfold layered. rewrite Hw.
    unfold page_at in Ht. destruct (nth_error (pdf_pages reader) i) as [q|]; [|discriminate].
    injection Ht as ->. eauto. }
  unfold add_page. destruct wm_cfg as [cfg|]; [|apply Hcopy; reflexivity].
  destruct (watermarked (Some cfg) i) eqn:Hw; [|now apply Hcopy].
  unfold add_watermarked_page. intros H.
  split_bind H fs' Hfs. split_bind H wm_reader Hr. split_bind H pg Hpg.
  split_bind H tpl Ht. injection H as <-. simpl.
  destruct (compose_watermark_page_writes _ _ _ _ _ _ _ _ _ Hfs) as (sz & c & ->).
  unfold read_pdf in Hr. rewrite lookup_insert_eq in Hr. injection Hr as <-.
  unfold page_at in Hpg. simpl in Hpg. injection Hpg as <-.
  unfold page_at in Ht. destruct (nth_error (pdf_pages reader) i) as [q|] eqn:Hq; [|discriminate].
  injection Ht as ->.
  eexists. split; [reflexivity|]. split.
  - unfold layered. rewrite Hq, Hw. exists tpl. split; [reflexivity|].
    split; [eexists; reflexivity | reflexivity].
  - split; [reflexivity|]. exists sz, c. reflexivity.
Qed.

Lemma add_pages_spec M fuel template_pdf root reader wm_cfg vis idxs :
  forall st st',
    add_pages M fuel template_pdf root reader wm_cfg vis st idxs = Ok st' ->
    let temps := map (layer_name root) (List.filter (watermarked wm_cfg) idxs) in
    (exists news, b_pages st' = b_pages st ++ news
                  /\ Forall2 (layered wm_cfg reader) idxs news)
    /\ b_temps st' = b_temps st ++ temps
    /\ (forall path, In path temps -> exists sz c, b_fs st' !! path = Some (canvas_file sz c))
    /\ (forall path, ~ In path temps -> b_fs st' !! path = b_fs st !! path).
Proof.
  induction idxs as [|i idxs IH]; intros st st' H; simpl in H.
  - injection H as <-. simpl. split; [exists []; split; [now rewrite app_nil_r | constructor]|].
    split; [now rewrite app_nil_r|]. split; [intros ? []|reflexivity].
  - split_bind H st1 H1.
    destruct (add_page_spec _ _ _ _ _ _ _ _ _ _ H1) as (p & Hp & Hlay & Hside).
    destruct (IH _ _ H) as ((news & Hnews & Hall) & Htemps & Hin & Hout).
    cbn [List.filter]. destruct (watermarked wm_cfg i) eqn:Hw.
    + destruct Hside as (Ht1 & sz & c & Hfs1). cbn [map].
      split; [exists (p :: news); split;
                [rewrite Hnews, Hp, <- app_assoc; reflexivity | now constructor]|].
      split; [rewrite Htemps, Ht1, <- app_assoc; reflexivity|].
      split.
      * intros path Hpath.
        destruct (in_dec string_dec path
                    (map (layer_name root) (List.filter (watermarked wm_cfg) idxs)))
          as [Hlater|Hlater]; [now apply Hin|].
        destruct Hpath as [<-|Hpath]; [|contradiction].
        rewrite (Hout _ Hlater), Hfs1, lookup_insert_eq. eauto.
      * intros path Hpath.
        rewrite Hout by (intros Hl; apply Hpath; now right).
        rewrite Hfs1, lookup_insert_ne; [reflexivity|].
        intros Heq. apply Hpath. now left.
    + destruct Hside as (Ht1 & Hfs1).
      split; [exists (p :: news); split;
                [rewrite Hnews, Hp, <- app_assoc; reflexivity | now constructor]|].
      split; [rewrite Htemps, Ht1; reflexivity|].
      split; [exact Hin|].
      intros path Hpath. now rewrite (Hout _ Hpath), Hfs1.
Qed.

Lemma length_append (a b : string) :
  String.length (a +:+ b) = (String.length a + String.length b)%nat.
Proof. induction a as [|x a IH]; simpl; [|rewrite IH]; reflexivity. Qed.

Lemma append_inj_l (p u v : string) : p +:+ u = p +:+ v -> u = v.
Proof. induction p as [|x p IH]; simpl; [auto|]. intros [= H]. auto. Qed.

Lemma substring_length_prefix (pre x : string) :
  substring 0 (String.length pre) (pre +:+ x) = pre.
Proof.
  induction pre as [|a pre IH]; simpl; [now destruct x|]. now rewrite IH.
Qed.

(** [rfind] returns the position of the last occurrence. *)
Lemma rfind_split (a : ascii) (s : string) (i : nat) :
  rfind a s = Some i ->
  exists pre post, s = pre +:+ String a post /\ String.length pre = i /\ rfind a post = None.
Proof.
  revert i. induction s as [|b s IH]; intros i; simpl; [discriminate|].
  destruct (rfind a s) as [j|] eqn:Hj.
  - intros [= <-]. destruct (IH j eq_refl) as (pre & post & -> & Hlen & Hpost).
    exists (String b pre), post. simpl. now rewrite Hlen.
  - destruct (Ascii.eqb a b) eqn:Hab; [|discriminate].
    intros [= <-]. apply Ascii.eqb_eq in Hab. subst b.
    exists EmptyString, s. auto.
Qed.

Lemma rfind_app_found (a : ascii) (x y : string) :
  rfind a y <> None -> rfind a (x +:+ y) <> None.
Proof.
  intros Hy. induction x as [|b x IH]; simpl; [exact Hy|].
  destruct (rfind a (x +:+ y)); [discriminate|contradiction].
Qed.

(** A layer file name built on the root of a path is never that path:
    after the root it goes on with [".wm_p"], and what follows the root
    in the path is empty or an extension with a single dot. *)
Lemma layer_name_fresh (p : string) (i : nat) : layer_name (splitext_root p) i <> p.
Proof.
  assert (Hlong : layer_name p i <> p).
  { unfold layer_name. intros H. apply (f_equal String.length) in H.
    rewrite length_append in H. simpl in H. lia. }
  unfold splitext_root. destruct (rfind "." p) as [dot|] eqn:Hdot; [|exact Hlong].
  match goal with |- context [if ?c then _ else _] => destruct c end; [|exact Hlong].
  destruct (rfind_split _ _ _ Hdot) as (pre & post & -> & <- & Hpost).
  rewrite substring_length_prefix. unfold layer_name. intros H.
  apply append_inj_l in H. injection H as H. subst post.
  revert Hpost. rewrite <- append_assoc.
  apply (rfind_app_found "." ("wm_p" +:+ decimal (S i)) ".pdf"). discriminate.
Qed.

(** The bypass writer returns one page per template page, in order: the
    template page itself where the page is not selected, and otherwise
    the template page's content on top of one watermark layer, with the
    template page's annotations. [temps] lists, in page order, exactly
    the layer files [root.wm_p{i+1}.pdf] of the selected pages; these
    are the only files written, and the template is not one of them. *)
Theorem wm_only_layers M fuel template_pdf wm_cfg vis fs reader b :
  read_pdf fs template_pdf = Ok reader ->
  build_writer_wm_only M fuel template_pdf wm_cfg vis fs = Ok b ->
  let n := List.length (pdf_pages reader) in
  let temps := map (layer_name (splitext_root template_pdf))
                 (List.filter (watermarked wm_cfg) (seq 0 n)) in
  Forall2 (layered wm_cfg reader) (seq 0 n) (b_pages b)
  /\ b_temps b = temps
  /\ (forall path, In path temps -> exists sz c, b_fs b !! path = Some (canvas_file sz c))
  /\ (forall path, ~ In path temps -> b_fs b !! path = fs !! path)
  /\ b_fs b !! template_pdf = fs !! template_pdf.
Proof.
  intros Hreader H n temps. unfold build_writer_wm_only in H. rewrite Hreader in H.
  cbn [bind] in H.
  destruct (add_pages_spec _ _ _ _ _ _ _ _ _ _ H)
    as ((news & Hnews & Hall) & Htemps & Hin & Hout).
  simpl in Hnews, Htemps, Hout. subst news.
  split; [exact Hall|]. split; [exact Htemps|]. split; [exact Hin|].
  split; [exact Hout|].
  apply Hout. intros Hmem. apply in_map_iff in Hmem. destruct Hmem as (i & Hi & _).
  now apply layer_name_fresh in Hi.
Qed.

Lemma wm_only_layers_witness :
  exists b,
    build_writer_wm_only demo_machine 10 "fw9.pdf" (Some demo_wm) true demo_files = Ok b
    /\ Forall2 (layered (Some demo_wm) demo_template) (seq 0 2) (b_pages b)
    /\ b_temps b = ["fw9.wm_p1.pdf"; "fw9.wm_p2.pdf"]
    /\ b_fs b !! "fw9.pdf" = Some (PdfFile demo_template).
Proof.
  destruct (build_writer_wm_only demo_machine 10 "fw9.pdf" (Some demo_wm) true
              demo_files) as [b| |] eqn:Hb.
  - exists b. split; [reflexivity|].
    pose proof (wm_only_layers demo_machine 10%nat "fw9.pdf" (Some demo_wm) true
                  demo_files demo_template b eq_refl Hb) as (H1 & H2 & _ & _ & H5).
    split; [exact H1|]. split; [exact H2|]. exact H5.
  - exfalso. vm_compute in Hb. discriminate Hb.
  - exfalso. vm_compute in Hb. discriminate Hb.
Defined.

(** The full writer puts on page 1, bottom to top, the watermark layer
    (when page 1 is selected), the template page and the overlay, and
    the page keeps only the overlay's annotations; pages 2..N are the
    template pages, each over its own layer where selected. [temps]
    lists, in page order, exactly the layer files named after the
    overlay's root; only these files are written, and the overlay file
    is not one of them. *)
Theorem full_writer_layers M fuel template_pdf overlay wm_cfg vis fs reader b :
  read_pdf fs template_pdf = Ok reader ->
  build_writer_with_layers M fuel template_pdf overlay wm_cfg vis fs = Ok b ->
  let n := List.length (pdf_pages reader) in
  let temps := map (layer_name (splitext_root overlay))
                 (List.filter (watermarked wm_cfg) (seq 0 n)) in
  (exists p1 rest tpl0 ov_doc ov0 under,
     b_pages b = p1 :: rest
     /\ nth_error (pdf_pages reader) 0 = Some tpl0
     /\ fs !! overlay = Some (PdfFile ov_doc)
     /\ nth_error (pdf_pages ov_doc) 0 = Some ov0
     /\ contents p1 = under ++ contents tpl0 ++ contents ov0
     /\ (if watermarked wm_cfg 0 then exists c, under = [Drawn c] else under = [])
     /\ annots_of p1 = annots_of ov0
     /\ Forall2 (layered wm_cfg reader) (seq 1 (n - 1)) rest)
  /\ b_temps b = temps
  /\ (forall path, In path temps -> exists sz c, b_fs b !! path = Some (canvas_file sz c))
  /\ (forall path, ~ In path temps -> b_fs b !! path = fs !! path)
  /\ b_fs b !! overlay = fs !! overlay.
Proof.
  intros Hreader H n temps. unfold build_writer_with_layers in H.
  rewrite Hreader in H. cbn [bind] in H.
  split_bind H first Hfirst. destruct first as [[base temps1] fs1].
  split_bind H tpl0 Htpl0. split_bind H ov_reader Hov. split_bind H ov0 Hov0.
  unfold page_at in Htpl0.
  destruct (nth_error (pdf_pages reader) 0) as [q|] eqn:Hq; [|discriminate].
  injection Htpl0 as ->.
  assert (Hn : seq 0 n = 0%nat :: seq 1 (n - 1)).
  { unfold n. destruct (pdf_pages reader); [discriminate|]. simpl.
    now rewrite Nat.sub_0_r. }
  unfold page_at in Hov0.
  destruct (nth_error (pdf_pages ov_reader) 0) as [q|] eqn:Hq0; [|discriminate].
  injection Hov0 as ->.
  destruct (add_pages_spec _ _ _ _ _ _ _ _ _ _ H)
    as ((news & Hnews & Hall) & Htemps & Hin & Hout).
  cbn [b_pages b_temps b_fs] in Hnews, Htemps, Hout.
  fold n in Hall, Htemps, Hin, Hout.
  assert (Hfirst' :
            exists under,
              base = (if watermarked wm_cfg 0 then base else None)
              /\ match base with
                 | Some bp => contents bp = under /\ annots_of bp = []
                 | None => under = []
                 end
              /\ (if watermarked wm_cfg 0 then exists c, under = [Drawn c] else under = [])
              /\ temps1 = map (layer_name (splitext_root overlay))
                            (List.filter (watermarked wm_cfg) [0%nat])
              /\ (if watermarked wm_cfg 0
                  then exists sz c,
                         fs1 = <[layer_name (splitext_root overlay) 0 := canvas_file sz c]> fs
                  else fs1 = fs)).
  { assert (Hnone : watermarked wm_cfg 0 = false ->
                    Ok (None, [], fs) = Ok (base, temps1, fs1) ->
                    exists under,
              base = (if watermarked wm_cfg 0 then base else None)
              /\ match base with
                 | Some bp => contents bp = under /\ annots_of bp = []
                 | None => under = []
                 end
              /\ (if watermarked wm_cfg 0 then exists c, under = [Drawn c] else under = [])
              /\ temps1 = map (layer_name (splitext_root overlay))
                            (List.filter (watermarked wm_cfg) [0%nat])
              /\ (if watermarked wm_cfg 0
                  then exists sz c,
                         fs1 = <[layer_name (splitext_root overlay) 0 := canvas_file sz c]> fs
                  else fs1 = fs)).
    { intros Hw [= <- <- <-]. cbn [List.filter]. rewrite Hw. exists []. auto. }
    destruct wm_cfg as [cfg|]; [|now apply Hnone].
    destruct (watermarked (Some cfg) 0) eqn:Hw; [|now apply Hnone].
    split_bind Hfirst fs' Hfs. split_bind Hfirst wm_reader Hr. split_bind Hfirst bp Hbp.
    injection Hfirst as <- <- <-.
    destruct (compose_watermark_page_writes _ _ _ _ _ _ _ _ _ Hfs) as (sz & c & ->).
    unfold read_pdf in Hr. rewrite lookup_insert_eq in Hr. injection Hr as <-.
    unfold page_at in Hbp. simpl in Hbp. injection Hbp as <-.
    cbn [List.filter]. rewrite Hw. eexists. split; [reflexivity|].
    split; [split; reflexivity|]. split; [eexists; reflexivity|].
    split; [reflexivity|]. exists sz, c. reflexivity. }
  destruct Hfirst' as (under & Hbase & Hunder & Hunder' & Htemps1 & Hfs1).
  assert (Hfs1_ov : fs1 !! overlay = fs !! overlay).
  { destruct (watermarked wm_cfg 0); [|now subst fs1].
    destruct Hfs1 as (sz & c & ->). apply lookup_insert_ne. apply layer_name_fresh. }
  assert (Hov_doc : fs !! overlay = Some (PdfFile ov_reader)).
  { rewrite <- Hfs1_ov. unfold read_pdf in Hov.
    destruct (fs1 !! overlay) as [[d|]|]; try discriminate. now injection Hov as ->. }
  assert (Htemps_all : temps1 ++ map (layer_name (splitext_root overlay))
                                  (List.filter (watermarked wm_cfg) (seq 1 (n - 1))) = temps).
  { unfold temps. rewrite Hn, Htemps1. cbn [List.filter].
    destruct (watermarked wm_cfg 0); reflexivity. }
  split.
  - eexists _, news, tpl0, ov_reader, ov0, under.
    split; [exact Hnews|]. split; [reflexivity|]. split; [exact Hov_doc|].
    split; [exact Hq0|].
    split; [|split; [exact Hunder'|split; [|exact Hall]]].
    + destruct base as [bp|]; simpl.
      * destruct Hunder as [<- _]. now rewrite <- app_assoc.
      * now subst under.
    + reflexivity.
  - split; [now rewrite Htemps, Htemps_all|].
    assert (Hcases : forall path, In path temps ->
              In path temps1 \/ In path (map (layer_name (splitext_root overlay))
                                  (List.filter (watermarked wm_cfg) (seq 1 (n - 1))))).
    { intros path. rewrite <- Htemps_all. apply in_app_or. }
    split; [|split].
    + intros path Hpath.
      destruct (in_dec string_dec path
                  (map (layer_name (splitext_root overlay))
                     (List.filter (watermarked wm_cfg) (seq 1 (n - 1)))))
        as [Hlater|Hlater]; [now apply Hin|].
      destruct (Hcases _ Hpath) as [H1|H1]; [|contradiction].
      rewrite (Hout _ Hlater). rewrite Htemps1 in H1. cbn [List.filter] in H1.
      destruct (watermarked wm_cfg 0); [|destruct H1].
      destruct H1 as [<-|[]]. destruct Hfs1 as (sz & c & ->).
      rewrite lookup_insert_eq. eauto.
    + intros path Hpath.
      assert (Hn1 : ~ In path temps1)
        by (intros Hmem; apply Hpath; rewrite <- Htemps_all; apply in_or_app; now left).
      assert (Hn2 : ~ In path (map (layer_name (splitext_root overlay))
                                 (List.filter (watermarked wm_cfg) (seq 1 (n - 1)))))
        by (intros Hmem; apply Hpath; rewrite <- Htemps_all; apply in_or_app; now right).
      rewrite (Hout _ Hn2). rewrite Htemps1 in Hn1. cbn [List.filter] in Hn1.
      destruct (watermarked wm_cfg 0); [|now subst fs1].
      destruct Hfs1 as (sz & c & ->). apply lookup_insert_ne.
      intros Heq. apply Hn1. now left.
    + rewrite Hout; [exact Hfs1_ov|].
      intros Hmem. apply in_map_iff in Hmem. destruct Hmem as (i & Hi & _).
      now apply layer_name_fresh in Hi.
Qed.

Lemma full_writer_layers_witness :
  exists b,
    build_writer_with_layers demo_machine 10 "fw9.pdf" "out.overlay.pdf" (Some demo_wm)
      true demo_files = Ok b
    /\ b_temps b = ["out.overlay.wm_p1.pdf"; "out.overlay.wm_p2.pdf"]
    /\ b_fs b !! "out.overlay.pdf" = Some (canvas_file (612, 792) []).
Proof.
  destruct (build_writer_with_layers demo_machine 10 "fw9.pdf" "out.overlay.pdf"
              (Some demo_wm) true demo_files) as [b| |] eqn:Hb.
  - exists b. split; [reflexivity|].
    pose proof (full_writer_layers demo_machine 10%nat "fw9.pdf" "out.overlay.pdf"
                  (Some demo_wm) true demo_files demo_template b eq_refl Hb)
      as (_ & H2 & _ & _ & H5).
    split; [exact H2 | exact H5].
  - exfalso. vm_compute in Hb. discriminate Hb.
  - exfalso. vm_compute in Hb. discriminate Hb.
Defined.

(** ** Which pages get a watermark *)

Lemma ints_spec (ps : list (option Z)) :
  match ints ps with
  | Some l => forallb is_some ps = true /\ ps = map Some l
  | None => forallb is_some ps = false
  end.
Proof.
  induction ps as [|[z|] ps IH]; simpl; [auto| |reflexivity].
  destruct (ints ps) as [l|]; [|exact IH].
  destruct IH as [-> ->]. auto.
Qed.

(** The page selection, read off the raw value under ["pages"]: the
    string "all" in any letter case selects every page; a list selects
    the pages whose 1-based number it holds, and nothing at all as soon
    as one of its entries does not convert with [int]; any other value,
    another string or a missing key selects no page. *)
Theorem page_selection (cfg : wm_config) (i : nat) :
  watermarked (Some cfg) i
  = match cfg_pages cfg with
    | Some (PagesStr s) => String.eqb (Py.lower s) "all"
    | Some (PagesList ps) =>
        forallb is_some ps
        && existsb (fun p => match p with
                             | Some z => Z.eqb (Z.of_nat i + 1) z
                             | None => false
                             end) ps
    | Some PagesOther | None => false
    end.
Proof.
  unfold watermarked, wm_pages_all, wm_pages_set.
  destruct (wm_truthy (Some cfg)) eqn:Ht.
  - cbn [andb]. destruct (cfg_pages cfg) as [[s|ps|]|]; try reflexivity.
    + now rewrite orb_false_r.
    + cbn [orb]. pose proof (ints_spec ps) as Hps.
      destruct (ints ps) as [l|].
      * destruct Hps as [-> ->]. cbn [andb].
        induction l as [|z l IH]; [reflexivity|].
        cbn [map existsb]. now rewrite IH, Nat2Z.inj_succ, Z.add_1_r.
      * now rewrite Hps.
  - cbn [andb]. unfold wm_truthy in Ht.
    destruct (cfg_pages cfg) as [pv|]; [|reflexivity].
    cbn [is_some] in Ht. rewrite !orb_true_r in Ht. cbn [orb] in Ht.
    rewrite ?orb_true_r in Ht. discriminate Ht.
Qed.

(** Where no page is selected the page loop returns the template pages
    as they are and writes nothing. *)
Lemma add_pages_unselected M fuel template_pdf root reader wm_cfg vis idxs :
  forall st pages,
    Forall (fun i => watermarked wm_cfg i = false) idxs ->
    Forall2 (fun i p => nth_error (pdf_pages reader) i = Some p) idxs pages ->
    add_pages M fuel template_pdf root reader wm_cfg vis st idxs
    = Ok (mkBuild (b_pages st ++ pages) (b_temps st) (b_fs st)).
Proof.
  induction idxs as [|i idxs IH]; intros st pages Hsel Hpages.
  - inversion Hpages; subst. simpl. rewrite app_nil_r. now destruct st.
  - inversion Hpages as [|? p ? pages' Hp Hrest]; subst.
    inversion Hsel as [|? ? Hi Hsel']; subst.
    cbn [add_pages]. unfold add_page. rewrite Hi.
    assert (Hcopy : (let* tpl := page_at reader i in
                     Ok (mkBuild (b_pages st ++ [tpl]) (b_temps st) (b_fs st)))
                    = Ok (mkBuild (b_pages st ++ [p]) (b_temps st) (b_fs st)))
      by (unfold page_at; now rewrite Hp).
    destruct wm_cfg; rewrite Hcopy; cbn [bind];
      rewrite (IH _ pages' Hsel' Hrest); cbn [b_pages b_temps b_fs];
      now rewrite <- app_assoc.
Qed.

Lemma nth_error_seq_pages (pages : list page) :
  forall (l0 : list page),
    Forall2 (fun i p => nth_error (l0 ++ pages) i = Some p)
      (seq (List.length l0) (List.length pages)) pages.
Proof.
  induction pages as [|p pages IH]; intros l0; simpl; [constructor|].
  constructor.
  - rewrite nth_error_app2 by lia. now rewrite Nat.sub_diag.
  - specialize (IH (l0 ++ [p])). rewrite length_app, <- app_assoc in IH. simpl in IH.
    now rewrite Nat.add_1_r in IH.
Qed.

(** When the configuration selects none of the template's pages (no
    configuration, no usable ["pages"] value, page numbers beyond the
    document), the bypass writer always returns: its pages are the
    template's pages unchanged, [temps] is empty and no file is
    written. *)
Theorem wm_only_without_selection M fuel template_pdf wm_cfg vis fs reader :
  read_pdf fs template_pdf = Ok reader ->
  (forall i, (i < List.length (pdf_pages reader))%nat -> watermarked wm_cfg i = false) ->
  build_writer_wm_only M fuel template_pdf wm_cfg vis fs
  = Ok (mkBuild (pdf_pages reader) [] fs).
Proof.
  intros Hreader Hsel. unfold build_writer_wm_only. rewrite Hreader. cbn [bind].
  rewrite (add_pages_unselected _ _ _ _ _ _ _ _ _ (pdf_pages reader)).
  - reflexivity.
  - apply List.Forall_forall. intros i Hi. apply in_seq in Hi. apply Hsel. lia.
  - exact (nth_error_seq_pages (pdf_pages reader) []).
Qed.

Lemma wm_only_without_selection_witness :
  build_writer_wm_only demo_machine 0 "fw9.pdf"
    (Some (mkWm (Some [mkItem (Some (VStr (u "DRAFT"))) 100 100 12 0]) None
             (Some (PagesList [Some 1%Z; None])) None None false))
    true demo_files
  = Ok (mkBuild (pdf_pages demo_template) [] demo_files).
Proof.
  apply (wm_only_without_selection demo_machine 0%nat "fw9.pdf" _ true demo_files
           demo_template eq_refl).
  intros i _. reflexivity.
Defined.


(** ** The watermark layer *)











(** ** The multi-line helper *)

(** The drawing loop of [draw_multiline_fit_vec] draws the first [k]
    lines, one [drawString] each, on baselines one line height apart
    from the top: the first line is always drawn, every later drawn
    baseline is at or above the bottom limit, and when lines are left
    out the next baseline would have been below that limit. *)
Theorem multiline_draws_prefix (x line_h ylim : Q) (lines : list str) :
  forall (c : canvas) (y : Q),
  exists k,
    (k <= List.length lines)%nat
    /\ (lines <> [] -> (1 <= k)%nat)
    /\ draw_lines c x y line_h ylim lines = c ++ line_ops x (grid Qplus k y (- line_h)) lines
    /\ (forall i, (1 <= i < k)%nat -> ylim <= y - inject_Z (Z.of_nat i) * line_h)
    /\ ((k < List.length lines)%nat -> y - inject_Z (Z.of_nat k) * line_h < ylim).
Proof.
  induction lines as [|ln rest IH]; intros c y.
  - exists 0%nat. simpl. split; [lia|]. split; [congruence|].
    split; [now rewrite app_nil_r|]. split; intros; lia.
  - cbn [draw_lines]. destruct (Qltb (y - line_h) ylim) eqn:Hy.
    + apply Qltb_true in Hy. exists 1%nat. split; [cbn [List.length]; lia|].
      split; [lia|]. split; [reflexivity|]. split; [intros; lia|].
      intros _. rewrite inject_nat_succ, inject_nat_0. lra.
    + apply Qltb_false in Hy.
      destruct (IH (c ++ [DrawString x y ln]) (y - line_h))
        as (k & Hk & _ & Hrun & Hin & Hout).
      exists (S k). split; [simpl; lia|]. split; [lia|].
      split; [rewrite Hrun, <- app_assoc; reflexivity|]. split.
      * intros i Hi. destruct i as [|i]; [lia|].
        rewrite inject_nat_succ. destruct i as [|i].
        -- rewrite inject_nat_0. lra.
        -- specialize (Hin (S i) ltac:(lia)). lra.
      * intros Hlt. rewrite inject_nat_succ.
        specialize (Hout ltac:(simpl in Hlt; lia)). lra.
Qed.

(** The size loop, traced: it returns once the fuel covers the steps
    down to [min_size], either at a size of at least [min_size] whose
    wrap fits the height, or with the loop variable as it entered and
    [lines] untouched when it starts below [min_size], or one step below
    the last size tried, with the lines wrapped at that last size. *)
Lemma fit_multiline_outcome sw text font max_w height min_size leading :
  forall n size lines fuel,
    size - min_size < inject_Z (Z.of_nat n) * SIZE_STEP ->
    (n < fuel)%nat ->
    exists size' lines',
      fit_multiline sw fuel text font max_w height min_size leading size lines
      = Ok (size', lines')
      /\ ((min_size <= size' /\ size' <= size
           /\ lines' = Some (wrap_text sw font size' max_w text)
           /\ inject_Z (Z.of_nat (List.length (wrap_text sw font size' max_w text)))
                * (size' * leading) <= height)
          \/ (size < min_size /\ size' = size /\ lines' = lines)
          \/ (exists s0,
                size' = s0 - SIZE_STEP /\ min_size <= s0 /\ s0 <= size
                /\ s0 - SIZE_STEP < min_size
                /\ lines' = Some (wrap_text sw font s0 max_w text)
                /\ height
                   < inject_Z (Z.of_nat (List.length (wrap_text sw font s0 max_w text)))
                     * (s0 * leading))).
Proof.
  induction n as [|n IH]; intros size lines fuel Hn Hfuel;
    (destruct fuel as [|fuel]; [lia|]); rewrite fit_multiline_step.
  - assert (Hlt : size < min_size).
    { change (Z.of_nat 0) with 0%Z in Hn. unfold SIZE_STEP, inject_Z in Hn. lra. }
    pose proof Hlt as Hb. apply Qleb_false in Hb. rewrite Hb.
    do 2 eexists. split; [reflexivity|]. right. left. auto.
  - destruct (Qleb min_size size) eqn:Hge.
    + apply Qleb_true in Hge.
      destruct (Qleb _ height) eqn:Hfit.
      * apply Qleb_true in Hfit. do 2 eexists. split; [reflexivity|].
        left. split; [exact Hge|]. split; [lra|]. split; [reflexivity | exact Hfit].
      * apply Qleb_false in Hfit.
        destruct (IH (size - SIZE_STEP) (Some (wrap_text sw font size max_w text)) fuel)
          as (size' & lines' & Hrun & Hcases).
        -- rewrite inject_nat_succ in Hn. unfold SIZE_STEP in *. lra.
        -- lia.
        -- exists size', lines'. split; [exact Hrun|].
           destruct Hcases as [(H1 & H2 & H3 & H4)|[(H1 & -> & ->)|(s0 & H)]].
           ++ left. split; [exact H1|]. split; [unfold SIZE_STEP in H2; lra|]. auto.
           ++ right. right. exists size. repeat split; auto; lra.
           ++ right. right. exists s0. destruct H as (E1 & E2 & E3 & E4 & E5 & E6).
              repeat split; auto. unfold SIZE_STEP in E3. lra.
    + apply Qleb_false in Hge. do 2 eexists. split; [reflexivity|]. right. left. auto.
Qed.

(** [draw_multiline_fit_vec] on a text with content and a rectangle.
    When [max_size] is below [min_size] the size loop never runs and the
    helper raises [UnboundLocalError] at its drawing loop. Otherwise it
    returns: it sets the font once and draws the wrapped lines. The
    size it sets is at most [max_size] and is not clamped at [min_size]:
    either it is at least [min_size] and the lines, wrapped at that
    size, fit the inner height, or no size down to [min_size] fits, the
    size set is one step below the last size tried (below [min_size], by
    at most the step) and the lines drawn are those wrapped at that last
    size. *)
Theorem multiline_fit_outcome (sw : str -> string -> Q -> Q) (c : canvas)
    (text : option value) (r : rect) (font : string)
    (max_size min_size inset leading : Q) :
  textual text = true -> Txt.truthy (text_of text) = true ->
  (max_size < min_size ->
   forall fuel, (0 < fuel)%nat ->
     draw_multiline_fit_vec sw fuel c text (Some r) font max_size min_size inset leading
     = Raise "UnboundLocalError")
  /\ (min_size <= max_size ->
      exists fuel0, forall fuel, (fuel0 <= fuel)%nat ->
        exists size s0,
          draw_multiline_fit_vec sw fuel c text (Some r) font max_size min_size inset leading
          = Ok (draw_lines (c ++ [SetFont font size]) (rx0 r + inset)
                  (ry1 r - inset - size) (size * leading) (ry0 r + inset)
                  (wrap_text sw font s0 (rx1 r - rx0 r - 2 * inset) (text_of text)))
          /\ min_size - SIZE_STEP <= size /\ size <= max_size
          /\ min_size <= s0 /\ s0 <= max_size
          /\ ((size = s0
               /\ inject_Z (Z.of_nat (List.length
                     (wrap_text sw font s0 (rx1 r - rx0 r - 2 * inset) (text_of text))))
                  * (s0 * leading) <= ry1 r - ry0 r - 2 * inset)
              \/ (size = s0 - SIZE_STEP /\ size < min_size
                  /\ ry1 r - ry0 r - 2 * inset
                     < inject_Z (Z.of_nat (List.length
                         (wrap_text sw font s0 (rx1 r - rx0 r - 2 * inset) (text_of text))))
                       * (s0 * leading)))).
Proof.
  intros Tt Htext. split.
  - intros Hlt fuel Hfuel. unfold draw_multiline_fit_vec.
    rewrite (norm_textual _ Tt). cbn [bind]. rewrite Htext. cbn [negb].
    destruct fuel as [|fuel]; [lia|]. rewrite fit_multiline_step.
    apply Qleb_false in Hlt. rewrite Hlt. reflexivity.
  - intros Hle.
    destruct (archimedes (max_size - min_size) SIZE_STEP) as [n Hn]; [reflexivity|].
    exists (S n). intros fuel Hfuel.
    destruct (fit_multiline_outcome sw (text_of text) font (rx1 r - rx0 r - 2 * inset)
                (ry1 r - ry0 r - 2 * inset) min_size leading n max_size None fuel Hn
                ltac:(lia)) as (size & lines & Hrun & Hcases).
    unfold draw_multiline_fit_vec. rewrite (norm_textual _ Tt). cbn [bind].
    rewrite Htext. cbn [negb]. rewrite Hrun. cbn [bind].
    destruct Hcases as [(H1 & H2 & -> & H4)|[(H1 & _)|(s0 & -> & E2 & E3 & E4 & -> & E6)]].
    + exists size, size. split; [reflexivity|].
      split; [unfold SIZE_STEP; lra|]. split; [exact H2|]. split; [exact H1|].
      split; [exact H2|]. left. split; [reflexivity | exact H4].
    + lra.
    + exists (s0 - SIZE_STEP), s0. split; [reflexivity|].
      split; [unfold SIZE_STEP; lra|]. split; [unfold SIZE_STEP; lra|].
      split; [exact E2|]. split; [exact E3|]. right. auto.
Qed.

Lemma multiline_fit_outcome_witness :
  (draw_multiline_fit_vec courier_width 5 [] (Some (VStr (u "aa bb"))) (Some (mkRect 0 0 26 14))
     "Courier" 7 7.5 2 1.2 = Raise "UnboundLocalError")
  /\ exists fuel0, forall fuel, (fuel0 <= fuel)%nat ->
       exists size s0,
         draw_multiline_fit_vec courier_width fuel [] (Some (VStr (u "aa bb")))
           (Some (mkRect 0 0 26 14)) "Courier" 9.5 7.5 2 1.2
         = Ok (draw_lines ([] ++ [SetFont "Courier" size]) (rx0 (mkRect 0 0 26 14) + 2)
                 (ry1 (mkRect 0 0 26 14) - 2 - size) (size * 1.2)
                 (ry0 (mkRect 0 0 26 14) + 2)
                 (wrap_text courier_width "Courier" s0
                    (rx1 (mkRect 0 0 26 14) - rx0 (mkRect 0 0 26 14) - 2 * 2)
                    (text_of (Some (VStr (u "aa bb"))))))
         /\ 7.5 - SIZE_STEP <= size /\ size <= 9.5.
Proof.
  split.
  - apply (proj1 (multiline_fit_outcome courier_width [] (Some (VStr (u "aa bb")))
                    (mkRect 0 0 26 14) "Courier" 7 7.5 2 1.2 eq_refl eq_refl));
      [reflexivity | lia].
  - destruct (proj2 (multiline_fit_outcome courier_width [] (Some (VStr (u "aa bb")))
                       (mkRect 0 0 26 14) "Courier" 9.5 7.5 2 1.2 eq_refl eq_refl))
      as (fuel0 & H); [discriminate|].
    exists fuel0. intros fuel Hfuel.
    destruct (H fuel Hfuel) as (size & s0 & Hrun & H1 & H2 & _).
    exists size, s0. auto.
Defined.

Lemma multiline_draws_prefix_witness :
  exists k,
    (k <= List.length [u "a"; u "b"; u "c"; u "d"])%nat
    /\ ([u "a"; u "b"; u "c"; u "d"] <> [] -> (1 <= k)%nat)
    /\ draw_lines [] 2 20 9 2 [u "a"; u "b"; u "c"; u "d"]
       = [] ++ line_ops 2 (grid Qplus k 20 (- 9)) [u "a"; u "b"; u "c"; u "d"]
    /\ (forall i, (1 <= i < k)%nat -> 2 <= 20 - inject_Z (Z.of_nat i) * 9)
    /\ ((k < List.length [u "a"; u "b"; u "c"; u "d"])%nat
        -> 20 - inject_Z (Z.of_nat k) * 9 < 2).
Proof. exact (multiline_draws_prefix 2 9 2 [u "a"; u "b"; u "c"; u "d"] [] 20). Defined.


(** ** The raster wrap and the vector wrap *)

Lemma wrap_word_agree sw font size max_w (st : list str * str) (w : str) :
  clean_word w ->
  _wrap_word (fun t => sw t font size) max_w st w = wrap_word sw font size max_w st w.
Proof.
  intros Hw. destruct st as [lines cur]. unfold _wrap_word, wrap_word.
  destruct (Qleb (sw (Txt.strip (cur ++ u " " ++ w)) font size) max_w) eqn:Hfit;
    [reflexivity|].
  cbn [orb]. destruct (Txt.truthy cur) eqn:Hcur; cbn [negb]; [reflexivity|].
  apply truthy_false in Hcur. subst cur. now rewrite strip_first_word.
Qed.

Lemma fold_left_agree {A B : Type} (f g : A -> B -> A) (l : list B) :
  (forall a b, In b l -> f a b = g a b) ->
  forall a, fold_left f l a = fold_left g l a.
Proof.
  induction l as [|b l IH]; intros H a; [reflexivity|].
  simpl. rewrite (H a b) by now left. apply IH. intros a' b' Hb. apply H. now right.
Qed.

(** On a text none of whose words starts or ends with white space
    (any character [strip] removes, a no-break space as well as a TAB),
    [_wrap_lines] of the raster path breaks lines exactly as the wrap
    inside [draw_multiline_fit_vec] does, for the same measure and
    width: its extra test [or not cur] changes nothing there. *)
Theorem raster_wrap_agrees (sw : str -> string -> Q -> Q) (font : string)
    (size max_w : Q) (text : str) :
  clean_words text ->
  _wrap_lines (fun t => sw t font size) (Some (VStr text)) max_w
  = Ok (wrap_text sw font size max_w text).
Proof.
  intros Hclean. unfold _wrap_lines, wrap_text. cbn [or_empty bind]. f_equal.
  apply fold_left_agree. intros lines raw Hraw.
  unfold _wrap_raw, wrap_raw.
  rewrite (fold_left_agree (_wrap_word (fun t => sw t font size) max_w)
             (wrap_word sw font size max_w)); [reflexivity|].
  intros st w Hw. apply wrap_word_agree. exact (Hclean raw w Hraw Hw).
Qed.

(** At work on three clean words; and a word that opens with a
    no-break space and is too wide for the line shows why such words
    are excluded: the raster wrap strips it, the vector wrap does not. *)
Lemma raster_wrap_agrees_witness :
  _wrap_lines (fun t => courier_width t "Courier" 10) (Some (VStr (u "aa bb cc"))) 30
  = Ok (wrap_text courier_width "Courier" 10 30 (u "aa bb cc"))
  /\ wrap_text courier_width "Courier" 10 30 (u "aa bb cc") = [u "aa bb"; u "cc"]
  /\ _wrap_lines (fun t => courier_width t "Courier" 10)
       (Some (VStr (160%N :: u "aabbcc"))) 30 = Ok [u "aabbcc"]
  /\ wrap_text courier_width "Courier" 10 30 (160%N :: u "aabbcc")
     = [160%N :: u "aabbcc"].
Proof.
  split; [|split; [|split]]; [|vm_compute; reflexivity..].
  apply (raster_wrap_agrees courier_width "Courier" 10 30 (u "aa bb cc")).
  intros raw w Hraw Hw. vm_compute in Hraw.
  destruct Hraw as [<-|[]]. vm_compute in Hw.
  destruct Hw as [<-|[<-|[<-|[]]]]; split; reflexivity.
Defined.

(** ** The overlay composer in vector mode *)

Lemma draw_text_vector_runs E fuel st r text max_size :
  textual text = true ->
  max_size - 7 <= 5.5 -> (29 <= fuel)%nat ->
  exists c',
    draw_text E fuel false st r text max_size
    = Ok (mkOverlay c' (snd (FontCycler_next (o_cycler st))) (o_tmp_images st) (o_disk st)).
Proof.
  intros Tt Hmax Hfuel. unfold draw_text, with_next_font.
  destruct (FontCycler_next (o_cycler st)) as [font cy]. cbn [snd].
  unfold draw_text_fit_vec. rewrite (norm_textual _ Tt). cbn [bind].
  destruct r as [r|]; [|eexists; reflexivity].
  destruct (Txt.truthy (text_of text)); cbn [negb]; [|eexists; reflexivity].
  destruct (size_search_stops (stringWidth E) (text_of text) font (rx1 r - rx0 r - 2 * 2) 7
              28 max_size (steps_cover _ _ Hmax)) as (s & Hs & _).
  pose proof (while_fuel_le _ _ 29 fuel max_size s Hfuel Hs) as Hw.
  unfold fit_single_line. rewrite Hw. cbn [bind].
  eexists. reflexivity.
Qed.

Lemma draw_multiline_vector_runs E fuel st r text :
  textual text = true -> (29 <= fuel)%nat ->
  exists c',
    draw_multiline E fuel false st r text 9.5
    = Ok (mkOverlay c' (snd (FontCycler_next (o_cycler st))) (o_tmp_images st) (o_disk st)).
Proof.
  intros Tt Hfuel. unfold draw_multiline, with_next_font.
  destruct (FontCycler_next (o_cycler st)) as [font cy]. cbn [snd].
  unfold draw_multiline_fit_vec. rewrite (norm_textual _ Tt). cbn [bind].
  destruct r as [r|]; [|eexists; reflexivity].
  destruct (Txt.truthy (text_of text)); cbn [negb]; [|eexists; reflexivity].
  destruct (fit_multiline_outcome (stringWidth E) (text_of text) font
              (rx1 r - rx0 r - 2 * 2)
              (ry1 r - ry0 r - 2 * 2) 7.5 1.2 28 9.5 None fuel)
    as (size & lines & Hrun & Hcases);
    [apply steps_cover; lra | lia |].
  rewrite Hrun. cbn [bind].
  destruct Hcases as [(_ & _ & -> & _)|[(H & _)|(s0 & _ & _ & _ & _ & -> & _)]];
    [eexists; reflexivity | lra | eexists; reflexivity].
Qed.

Lemma draw_digits_vector_runs E fuel st r digits slots :
  slots <> 0%nat -> (29 <= fuel)%nat ->
  exists c',
    draw_digits E fuel false st r digits slots 12
    = Ok (mkOverlay c' (snd (FontCycler_next (o_cycler st))) (o_tmp_images st) (o_disk st)).
Proof.
  intros Hslots Hfuel. unfold draw_digits, with_next_font.
  destruct (FontCycler_next (o_cycler st)) as [font cy]. cbn [snd].
  unfold draw_digits_in_cells_vec, digits_of. cbn [or_empty bind].
  destruct r as [r|]; [|eexists; reflexivity].
  destruct (Txt.truthy (Txt.digits_only (is_decimal E) digits)); cbn [negb];
    [|eexists; reflexivity].
  destruct slots as [|k]; [contradiction|].
  destruct (digit_size_search_stops (stringWidth E) font
              ((rx1 r - rx0 r - 2 * 2) / inject_Z (Z.of_nat (S k))) 28 12)
    as (s & Hs & _); [apply steps_cover; lra|].
  rewrite (while_fuel_le _ _ 29 fuel 12 s Hfuel Hs). cbn [bind].
  eexists. reflexivity.
Qed.

Lemma draw_classification_vector_runs E fuel rects (data : profile) st :
  textual (data !! "classification") = true ->
  textual (data !! "llc_tax_class") = true ->
  textual (data !! "other_text") = true ->
  (29 <= fuel)%nat ->
  exists c' cy',
    draw_classification E fuel false rects data st
    = Ok (mkOverlay c' cy' (o_tmp_images st) (o_disk st)).
Proof.
  intros Tc Tl To Hfuel. unfold draw_classification.
  rewrite (or_empty_textual _ _ Tc). cbn [bind].
  set (cls := Txt.strip (str_lower E (raw_text (data !! "classification")))).
  destruct (Txt.mem cls _); [unfold ck; do 2 eexists; reflexivity|].
  destruct (Txt.mem cls _); [unfold ck; do 2 eexists; reflexivity|].
  destruct (Txt.mem cls _); [unfold ck; do 2 eexists; reflexivity|].
  destruct (Txt.mem cls _); [unfold ck; do 2 eexists; reflexivity|].
  destruct (Txt.mem cls _); [unfold ck; do 2 eexists; reflexivity|].
  destruct (Txt.startswith (u "llc") cls).
  { rewrite (or_empty_textual _ _ Tl). cbn [bind].
    match goal with
    | |- context [draw_text E fuel false ?s ?r ?t 10] =>
        destruct (draw_text_vector_runs E fuel s r t 10) as (c' & ->);
          [reflexivity | lra | exact Hfuel |]
    end.
    do 2 eexists. reflexivity. }
  destruct (Txt.eqb cls (u "other")).
  { rewrite (norm_textual _ To). cbn [bind].
    match goal with
    | |- context [draw_text E fuel false ?s ?r ?t 10] =>
        destruct (draw_text_vector_runs E fuel s r t 10) as (c' & ->);
          [reflexivity | lra | exact Hfuel |]
    end.
    do 2 eexists. reflexivity. }
  destruct st. do 2 eexists. reflexivity.
Qed.

Lemma split_ssn_returns dec (t : str) :
  exists a b c3, split_ssn dec (Some (VStr t)) = Ok (a, b, c3).
Proof.
  unfold split_ssn, digits_of. cbn [or_empty bind].
  destruct (List.length _ =? 9)%nat; do 3 eexists; reflexivity.
Qed.

Lemma split_ein_returns dec (t : str) :
  exists a b, split_ein dec (Some (VStr t)) = Ok (a, b).
Proof.
  unfold split_ein, digits_of. cbn [or_empty bind].
  destruct (List.length _ =? 9)%nat; do 2 eexists; reflexivity.
Qed.

Lemma draw_tin_vector_runs E fuel rects (data : profile) st :
  textual (data !! "ssn") = true -> textual (data !! "ein") = true ->
  (29 <= fuel)%nat ->
  exists c' cy',
    draw_tin E fuel false rects data st
    = Ok (mkOverlay c' cy' (o_tmp_images st) (o_disk st)).
Proof.
  intros Ts Te Hfuel. rewrite draw_tin_routes by assumption.
  destruct (Txt.truthy (text_of (data !! "ssn"))
            && negb (Txt.truthy (text_of (data !! "ein")))).
  - destruct (split_ssn_returns (is_decimal E) (text_of (data !! "ssn")))
      as (a & b' & c3 & ->).
    cbn [bind].
    destruct (draw_digits_vector_runs E fuel st (role_rect rects "ssn_1") a 3)
      as (c1 & ->); [discriminate | exact Hfuel |]. cbn [bind].
    match goal with
    | |- context [draw_digits E fuel false ?s ?r b' 2 12] =>
        destruct (draw_digits_vector_runs E fuel s r b' 2) as (c2 & ->);
          [discriminate | exact Hfuel |]
    end. cbn [bind].
    match goal with
    | |- context [draw_digits E fuel false ?s ?r c3 4 12] =>
        destruct (draw_digits_vector_runs E fuel s r c3 4) as (c4 & ->);
          [discriminate | exact Hfuel |]
    end.
    do 2 eexists. reflexivity.
  - destruct (Txt.truthy (text_of (data !! "ein"))).
    + destruct (split_ein_returns (is_decimal E) (text_of (data !! "ein")))
        as (a & b' & ->).
      cbn [bind].
      destruct (draw_digits_vector_runs E fuel st (role_rect rects "ein_1") a 2)
        as (c1 & ->); [discriminate | exact Hfuel |]. cbn [bind].
      match goal with
      | |- context [draw_digits E fuel false ?s ?r b' 7 12] =>
          destruct (draw_digits_vector_runs E fuel s r b' 7) as (c2 & ->);
            [discriminate | exact Hfuel |]
      end.
      do 2 eexists. reflexivity.
    + destruct st. do 2 eexists. reflexivity.
Qed.

(** In vector mode the overlay composer returns for every profile
    whose fields are texts or false values (absent, null, empty; of the
    3b flag only the truth value is taken, so it may be anything) and
    every template that has a first page, whichever widgets that page
    has or lacks, once the fuel covers the longest size search (29
    tests): it creates no temporary image, writes the overlay file and
    nothing else, with the size of the template's first page, and ends
    the canvas with the signature and the date at their fixed positions,
    the date being today's when the profile has none. A name that is a
    number stops the run with [AttributeError]. *)
Theorem overlay_vector_mode_returns E fuel template_pdf (data : profile) overlay_pdf
    fontwarp d reader p0 :
  read_pdf (files d) template_pdf = Ok reader ->
  nth_error (pdf_pages reader) 0 = Some p0 ->
  ((forall k, k <> "line3b_foreign_flowthrough" -> textual (data !! k) = true) ->
   (29 <= fuel)%nat ->
   exists c0 f1 f2,
     compose_overlay_page1 E fuel template_pdf data overlay_pdf fontwarp false d
     = Ok ([],
           mkDisk
             (<[overlay_pdf :=
                  canvas_file (mediabox p0)
                    (c0 ++ [SetFont f1 11;
                            DrawString 115 197 (text_of (data !! "signature"));
                            SetFont f2 11;
                            DrawString 470 197
                              (if Txt.truthy (text_of (data !! "signature_date"))
                               then text_of (data !! "signature_date")
                               else today_str E)])]> (files d))
             (tmp_used d)))
  /\ (textual (data !! "name") = false ->
      compose_overlay_page1 E fuel template_pdf data overlay_pdf fontwarp false d
      = Raise "AttributeError").
Proof.
  intros Hreader Hp0. split.
  - intros Htext Hfuel. unfold compose_overlay_page1.
    rewrite Hreader. cbn [bind]. unfold page_at. rewrite Hp0. cbn [bind].
    destruct (mediabox p0) as [w h].
    destruct (register_fonts_for_overlay E) as [[main_font warp_list] bold_font].
    repeat match goal with
           | |- context [bind (draw_text E fuel false ?s ?r ?t ?m)] =>
               let c' := fresh "c" in
               destruct (draw_text_vector_runs E fuel s r t m) as (c' & ->);
                 [apply Htext; discriminate | lra | exact Hfuel |];
                 cbn [bind o_cycler o_tmp_images o_disk]
           end.
    rewrite !norm_textual by (apply Htext; discriminate). cbn [bind].
    match goal with
    | |- context [bind (draw_text E fuel false ?s ?r ?t ?m)] =>
        destruct (draw_text_vector_runs E fuel s r t m) as (cb & ->);
          [reflexivity | lra | exact Hfuel |]; cbn [bind o_cycler o_tmp_images o_disk]
    end.
    match goal with
    | |- context [draw_multiline E fuel false ?s ?r ?t 9.5] =>
        destruct (draw_multiline_vector_runs E fuel s r t) as (cm & ->);
          [apply Htext; discriminate | exact Hfuel |];
          cbn [bind o_cycler o_tmp_images o_disk]
    end.
    match goal with
    | |- context [bind (draw_text E fuel false ?s ?r ?t ?m)] =>
        destruct (draw_text_vector_runs E fuel s r t m) as (ca & ->);
          [apply Htext; discriminate | lra | exact Hfuel |];
          cbn [bind o_cycler o_tmp_images o_disk]
    end.
    match goal with
    | |- context [draw_classification E fuel false ?rs ?dt ?s] =>
        destruct (draw_classification_vector_runs E fuel rs dt s) as (cc & cyc & ->);
          [apply Htext; discriminate | apply Htext; discriminate
          | apply Htext; discriminate | exact Hfuel |];
          cbn [bind o_cycler o_tmp_images o_disk]
    end.
    match goal with
    | |- context [draw_tin E fuel false ?rs ?dt ?s] =>
        destruct (draw_tin_vector_runs E fuel rs dt s) as (ct & cyt & ->);
          [apply Htext; discriminate | apply Htext; discriminate | exact Hfuel |];
          cbn [bind o_cycler o_tmp_images o_disk]
    end.
    unfold draw_line3b.
    match goal with
    | |- context [if value_truthy ?x then _ else _] =>
        destruct (value_truthy x); cbn [ck o_cycler o_tmp_images o_disk o_canvas]
    end.
    all: match goal with
         | |- context [FontCycler_next ?cy] =>
             destruct (FontCycler_next cy) as [f1 cy1]
         end;
         destruct (FontCycler_next cy1) as [f2 cy2];
         cbn [bind o_cycler o_tmp_images o_disk o_canvas];
         eexists _, f1, f2; rewrite <- app_assoc; reflexivity.
  - intros Tn. unfold compose_overlay_page1.
    rewrite Hreader. cbn [bind]. unfold page_at. rewrite Hp0. cbn [bind].
    destruct (mediabox p0) as [w h].
    destruct (register_fonts_for_overlay E) as [[main_font warp_list] bold_font].
    unfold draw_text at 1, with_next_font. cbn [o_cycler].
    destruct (FontCycler_next _) as [font cy].
    unfold draw_text_fit_vec. rewrite (norm_raises _ Tn). reflexivity.
Qed.

Lemma overlay_vector_mode_returns_witness :
  (exists c0 f1 f2,
     compose_overlay_page1 demo_env 29 "fw9.pdf"
       {[ "name" := VStr (u "Ada Lovelace"); "ssn" := VStr (u "123-45-6789");
          "line3b_foreign_flowthrough" := VOther true ]}
       "out.overlay.pdf" true false demo_disk
     = Ok ([],
           mkDisk
             (<[ "out.overlay.pdf" :=
                  canvas_file (612, 792)
                    (c0 ++ [SetFont f1 11; DrawString 115 197 [];
                            SetFont f2 11; DrawString 470 197 (u "2026-11-04")])]>
                (files demo_disk))
             (tmp_used demo_disk)))
  /\ compose_overlay_page1 demo_env 29 "fw9.pdf"
       {[ "name" := VOther true ]} "out.overlay.pdf" true false demo_disk
     = Raise "AttributeError".
Proof.
  split.
  - destruct (proj1 (overlay_vector_mode_returns demo_env 29 "fw9.pdf"
             ({[ "name" := VStr (u "Ada Lovelace"); "ssn" := VStr (u "123-45-6789");
                 "line3b_foreign_flowthrough" := VOther true ]} : profile)
             "out.overlay.pdf" true demo_disk demo_template
             (mkPage (612, 792) [TemplateContent 0]
                (Some (map (fun kv => mkWidget (snd kv) "/Tx" (mkRect 50 700 300 714))
                         roles)))
             eq_refl eq_refl)) as (c0 & f1 & f2 & H); [|lia|].
    + intros k Hk.
      destruct (decide (k = "name")) as [->|H1]; [reflexivity|].
      destruct (decide (k = "ssn")) as [->|H2]; [reflexivity|].
      rewrite !lookup_insert_ne by congruence. rewrite lookup_singleton_ne by congruence. reflexivity.
    + exists c0, f1, f2. rewrite H. reflexivity.
  - apply (proj2 (overlay_vector_mode_returns demo_env 29 "fw9.pdf"
             ({[ "name" := VOther true ]} : profile)
             "out.overlay.pdf" true demo_disk demo_template
             (mkPage (612, 792) [TemplateContent 0]
                (Some (map (fun kv => mkWidget (snd kv) "/Tx" (mkRect 50 700 300 714))
                         roles)))
             eq_refl eq_refl)).
    reflexivity.
Defined.

(** ** The overlay composer in aggressive mode *)

(** In aggressive mode the composer needs the widgets of the eight
    fields it always draws: when the template's first page lacks one of
    them, the run stops with an exception, where vector mode skips the
    field. The exception is [TypeError] whenever the fields of the
    profile are texts or false values; a field that is a number and is
    read before the missing widget is reached stops the run earlier,
    with [AttributeError]. *)
Theorem overlay_aggressive_needs_widgets E fuel template_pdf (data : profile) overlay_pdf
    fontwarp d reader p0 role :
  read_pdf (files d) template_pdf = Ok reader ->
  nth_error (pdf_pages reader) 0 = Some p0 ->
  In role ["name"; "business"; "exempt"; "fatca"; "addr1"; "addr2"; "requester";
           "accounts"] ->
  role_rect (rects_of (get_page_widgets p0)) role = None ->
  (exists e,
     compose_overlay_page1 E fuel template_pdf data overlay_pdf fontwarp true d = Raise e
     /\ (e = "TypeError"
         \/ e = "AttributeError"
            /\ exists k, k <> "line3b_foreign_flowthrough" /\ textual (data !! k) = false))
  /\ ((forall k, k <> "line3b_foreign_flowthrough" -> textual (data !! k) = true) ->
      compose_overlay_page1 E fuel template_pdf data overlay_pdf fontwarp true d
      = Raise "TypeError").
Proof.
  intros Hreader Hp0 Hrole Hnone.
  assert (Hmain : exists e,
     compose_overlay_page1 E fuel template_pdf data overlay_pdf fontwarp true d = Raise e
     /\ (e = "TypeError"
         \/ e = "AttributeError"
            /\ exists k, k <> "line3b_foreign_flowthrough" /\ textual (data !! k) = false)).
  { unfold compose_overlay_page1.
    rewrite Hreader. cbn [bind]. unfold page_at. rewrite Hp0. cbn [bind].
    destruct (mediabox p0) as [w h].
    destruct (register_fonts_for_overlay E) as [[main_font warp_list] bold_font].
    set (rects := rects_of (get_page_widgets p0)) in *.
    assert (Hcases : role_rect rects "name" = None \/ role_rect rects "business" = None
                     \/ role_rect rects "exempt" = None \/ role_rect rects "fatca" = None
                     \/ role_rect rects "addr1" = None \/ role_rect rects "addr2" = None
                     \/ role_rect rects "requester" = None
                     \/ role_rect rects "accounts" = None).
    { simpl in Hrole. intuition (subst; auto). }
    clear Hrole Hnone.
    assert (Htype : forall (A : Type), exists e,
              @Raise A "TypeError" = Raise e
              /\ (e = "TypeError"
                  \/ e = "AttributeError"
                     /\ exists k, k <> "line3b_foreign_flowthrough"
                                  /\ textual (data !! k) = false))
      by (intros A; exists "TypeError"; split; [reflexivity | now left]).
    assert (Hattr : forall (A : Type) k,
              k <> "line3b_foreign_flowthrough" -> textual (data !! k) = false ->
              exists e,
                @Raise A "AttributeError" = Raise e
                /\ (e = "TypeError"
                    \/ e = "AttributeError"
                       /\ exists k, k <> "line3b_foreign_flowthrough"
                                    /\ textual (data !! k) = false)).
    { intros A k Hk Tk. exists "AttributeError". split; [reflexivity|].
      right. split; [reflexivity|]. exists k. now split. }
    unfold draw_text at 1.
    destruct (role_rect rects "name"); [|apply Htype].
    unfold _draw_singleline_to_png at 1.
    destruct (textual (data !! "name")) eqn:T1;
      [rewrite (norm_textual _ T1); cbn [bind]
      |rewrite (norm_raises _ T1); apply (Hattr _ "name"); [discriminate | exact T1]].
    unfold draw_text at 1.
    destruct (role_rect rects "business"); [|apply Htype].
    unfold _draw_singleline_to_png at 1.
    destruct (textual (data !! "business_name")) eqn:T2;
      [rewrite (norm_textual _ T2); cbn [bind]
      |rewrite (norm_raises _ T2); apply (Hattr _ "business_name");
       [discriminate | exact T2]].
    unfold draw_text at 1.
    destruct (role_rect rects "exempt"); [|apply Htype].
    unfold _draw_singleline_to_png at 1.
    destruct (textual (data !! "exempt_payee_code")) eqn:T3;
      [rewrite (norm_textual _ T3); cbn [bind]
      |rewrite (norm_raises _ T3); apply (Hattr _ "exempt_payee_code");
       [discriminate | exact T3]].
    unfold draw_text at 1.
    destruct (role_rect rects "fatca"); [|apply Htype].
    unfold _draw_singleline_to_png at 1.
    destruct (textual (data !! "fatca_code")) eqn:T4;
      [rewrite (norm_textual _ T4); cbn [bind]
      |rewrite (norm_raises _ T4); apply (Hattr _ "fatca_code");
       [discriminate | exact T4]].
    unfold draw_text at 1.
    destruct (role_rect rects "addr1"); [|apply Htype].
    unfold _draw_singleline_to_png at 1.
    destruct (textual (data !! "address")) eqn:T5;
      [rewrite (norm_textual _ T5); cbn [bind]
      |rewrite (norm_raises _ T5); apply (Hattr _ "address");
       [discriminate | exact T5]].
    destruct (textual (data !! "city")) eqn:T6;
      [rewrite (norm_textual _ T6); cbn [bind]
      |rewrite (norm_raises _ T6); apply (Hattr _ "city"); [discriminate | exact T6]].
    destruct (textual (data !! "state")) eqn:T7;
      [rewrite (norm_textual _ T7); cbn [bind]
      |rewrite (norm_raises _ T7); apply (Hattr _ "state"); [discriminate | exact T7]].
    destruct (textual (data !! "zip")) eqn:T8;
      [rewrite (norm_textual _ T8); cbn [bind]
      |rewrite (norm_raises _ T8); apply (Hattr _ "zip"); [discriminate | exact T8]].
    unfold draw_text at 1.
    destruct (role_rect rects "addr2"); [|apply Htype].
    unfold _draw_singleline_to_png at 1. cbn [norm or_empty bind].
    unfold draw_multiline at 1.
    destruct (role_rect rects "requester"); [|apply Htype].
    unfold _draw_multiline_to_png at 1.
    destruct (textual (data !! "requester_info")) eqn:T9;
      [rewrite (norm_textual _ T9); cbn [bind]
      |rewrite (norm_raises _ T9); apply (Hattr _ "requester_info");
       [discriminate | exact T9]].
    unfold _wrap_lines at 1. cbn [or_empty bind].
    unfold draw_text at 1.
    destruct (role_rect rects "accounts"); [|apply Htype].
    exfalso. intuition discriminate. }
  split; [exact Hmain|].
  intros Htext. destruct Hmain as (e & -> & [->|(_ & k & Hk & Tk)]); [reflexivity|].
  rewrite (Htext k Hk) in Tk. discriminate Tk.
Qed.

Lemma overlay_aggressive_needs_widgets_witness :
  compose_overlay_page1 demo_env 29 "blank.pdf"
    ({[ "name" := VStr (u "Ada Lovelace") ]} : profile) "out.overlay.pdf" false true
    (mkDisk {[ "blank.pdf" := PdfFile (mkPdf [mkPage (612, 792) [TemplateContent 0] None]
                                          ∅ None) ]} 0)
  = Raise "TypeError".
Proof.
  pose proof (overlay_aggressive_needs_widgets demo_env 29 "blank.pdf"
           ({[ "name" := VStr (u "Ada Lovelace") ]} : profile) "out.overlay.pdf"
           false
           (mkDisk ({[ "blank.pdf" :=
                         PdfFile (mkPdf [mkPage (612, 792) [TemplateContent 0] None]
                                    (∅ : gmap string string) None) ]}
                    : gmap string file) 0)
           (mkPdf [mkPage (612, 792) [TemplateContent 0] None] ∅ None)
           (mkPage (612, 792) [TemplateContent 0] None) "requester") as H.
  destruct H as [_ H].
  - vm_compute. reflexivity.
  - reflexivity.
  - simpl. tauto.
  - reflexivity.
  - apply H. intros k Hk.
    destruct (decide (k = "name")) as [->|H1]; [reflexivity|].
    rewrite lookup_singleton_ne by congruence. reflexivity.
Defined.

(** ** The taxpayer number on the canvas *)

Lemma centred_texts_cell_ops r inset slots font size (g : str) :
  centred_texts (cell_ops r inset slots font size g) = map (fun ch => [ch]) g.
Proof.
  unfold cell_ops. cbn [centred_texts flat_map app].
  change (flat_map _ ?l) with (centred_texts l).
  apply centred_texts_cells.
Qed.

(** A nine-digit taxpayer number reaches the page digit by digit. In
    vector mode, with the widgets of its boxes present and the two
    fields texts or false values: for an SSN with no EIN beside it the
    centred strings the composer adds are exactly the nine decimal
    digits of the SSN (the characters of the class [\d], ASCII or not),
    in order, whatever other characters the profile writes between
    them, and likewise the nine digits of an EIN, which takes
    precedence over an SSN. *)
Theorem tin_digits_reach_the_page E fuel rects (data : profile) st (digits : str) :
  textual (data !! "ssn") = true -> textual (data !! "ein") = true ->
  (29 <= fuel)%nat ->
  List.length digits = 9%nat ->
  (text_of (data !! "ein") = [] ->
   Txt.digits_only (is_decimal E) (text_of (data !! "ssn")) = digits ->
   role_rect rects "ssn_1" <> None -> role_rect rects "ssn_2" <> None ->
   role_rect rects "ssn_3" <> None ->
   exists st' added,
     draw_tin E fuel false rects data st = Ok st'
     /\ o_canvas st' = o_canvas st ++ added
     /\ centred_texts added = map (fun ch => [ch]) digits)
  /\ (Txt.digits_only (is_decimal E) (text_of (data !! "ein")) = digits ->
      role_rect rects "ein_1" <> None -> role_rect rects "ein_2" <> None ->
      exists st' added,
        draw_tin E fuel false rects data st = Ok st'
        /\ o_canvas st' = o_canvas st ++ added
        /\ centred_texts added = map (fun ch => [ch]) digits).
Proof.
  intros Ts Te Hfuel Hlen.
  destruct (length_nine digits Hlen) as (c1 & c2 & c3 & c4 & c5 & c6 & c7 & c8 & c9 & ->).
  split.
  - intros Hein Hssn R1 R2 R3.
    destruct (role_rect rects "ssn_1") as [r1|] eqn:E1; [|congruence].
    destruct (role_rect rects "ssn_2") as [r2|] eqn:E2; [|congruence].
    destruct (role_rect rects "ssn_3") as [r3|] eqn:E3; [|congruence].
    destruct (nine_digits _ _ _ _ _ _ _ _ _ _ _ Hssn) as (G1 & G2 & G3 & _ & _).
    rewrite draw_tin_routes by assumption.
    rewrite (nine_nonempty (is_decimal E)) by (now rewrite Hssn).
    rewrite Hein. cbn [Txt.truthy negb andb].
    rewrite (split_ssn_nine _ _ _ _ _ _ _ _ _ _ _ Hssn). cbn [bind]. rewrite E1, E2, E3.
    destruct (draw_digits_vector_group E fuel st r1 [c1; c2; c3] 3 G1)
      as (s1 & -> & _); [discriminate | simpl; lia | exact Hfuel |].
    cbn [bind].
    match goal with
    | |- context [draw_digits E fuel false ?s (Some r2) ?g 2 12] =>
        destruct (draw_digits_vector_group E fuel s r2 g 2 G2)
          as (s2 & -> & _); [discriminate | simpl; lia | exact Hfuel |]
    end.
    cbn [bind].
    match goal with
    | |- context [draw_digits E fuel false ?s (Some r3) ?g 4 12] =>
        destruct (draw_digits_vector_group E fuel s r3 g 4 G3)
          as (s3 & -> & _); [discriminate | simpl; lia | exact Hfuel |]
    end.
    do 2 eexists. split; [reflexivity|].
    cbn [o_canvas o_cycler]. split; [rewrite <- !app_assoc; reflexivity|].
    rewrite !centred_texts_app, !centred_texts_cell_ops. reflexivity.
  - intros Hein R1 R2.
    destruct (role_rect rects "ein_1") as [r1|] eqn:E1; [|congruence].
    destruct (role_rect rects "ein_2") as [r2|] eqn:E2; [|congruence].
    destruct (nine_digits _ _ _ _ _ _ _ _ _ _ _ Hein) as (_ & _ & _ & G1 & G2).
    rewrite draw_tin_routes by assumption.
    rewrite (nine_nonempty (is_decimal E) (text_of (data !! "ein")))
      by (now rewrite Hein).
    cbn [negb]. rewrite andb_false_r.
    rewrite (split_ein_nine _ _ _ _ _ _ _ _ _ _ _ Hein). cbn [bind]. rewrite E1, E2.
    destruct (draw_digits_vector_group E fuel st r1 [c1; c2] 2 G1)
      as (s1 & -> & _); [discriminate | simpl; lia | exact Hfuel |].
    cbn [bind].
    match goal with
    | |- context [draw_digits E fuel false ?s (Some r2) ?g 7 12] =>
        destruct (draw_digits_vector_group E fuel s r2 g 7 G2)
          as (s2 & -> & _); [discriminate | simpl; lia | exact Hfuel |]
    end.
    do 2 eexists. split; [reflexivity|].
    cbn [o_canvas o_cycler]. split; [rewrite <- !app_assoc; reflexivity|].
    rewrite !centred_texts_app, !centred_texts_cell_ops. reflexivity.
Qed.

Lemma tin_digits_reach_the_page_witness :
  exists st' added,
    draw_tin demo_env 29 false demo_rects
      ({[ "ssn" := VStr (u "123-45-6789") ]} : profile) demo_state = Ok st'
    /\ o_canvas st' = o_canvas demo_state ++ added
    /\ centred_texts added = map (fun ch => [ch]) (u "123456789").
Proof.
  pose proof (tin_digits_reach_the_page demo_env 29 demo_rects
                ({[ "ssn" := VStr (u "123-45-6789") ]} : profile) demo_state
                (u "123456789")) as H.
  specialize (H ltac:(reflexivity) ltac:(reflexivity) (le_n 29) ltac:(reflexivity)).
  apply (proj1 H).
  - reflexivity.
  - reflexivity.
  - vm_compute. discriminate.
  - vm_compute. discriminate.
  - vm_compute. discriminate.
Defined.

(** ** Temporary images of the aggressive mode *)

Lemma place_png_numbered E t0 st r img :
  numbered E t0 st ->
  numbered E t0 (place_png st r (_save_png E img (o_disk st)))
  /\ List.length (o_tmp_images (place_png st r (_save_png E img (o_disk st))))
     = S (List.length (o_tmp_images st)).
Proof.
  intros [Himgs Hused]. unfold place_png, _save_png, numbered.
  cbn [o_tmp_images o_disk tmp_used]. rewrite length_app. cbn [List.length].
  rewrite Nat.add_1_r. split; [|reflexivity]. split.
  - rewrite seq_S, map_app, <- Himgs, Hused. reflexivity.
  - rewrite Hused. lia.
Qed.

Lemma draw_text_aggressive_numbered E fuel t0 st r text max_size st' :
  draw_text E fuel true st r text max_size = Ok st' ->
  numbered E t0 st ->
  numbered E t0 st'
  /\ List.length (o_tmp_images st') = S (List.length (o_tmp_images st)).
Proof.
  unfold draw_text. destruct r as [r|]; [|discriminate].
  unfold _draw_singleline_to_png.
  destruct (norm text) as [t| |]; cbn [bind]; try discriminate.
  intros [= <-] Hn. now apply place_png_numbered.
Qed.

Lemma draw_multiline_aggressive_numbered E fuel t0 st r text max_size st' :
  draw_multiline E fuel true st r text max_size = Ok st' ->
  numbered E t0 st ->
  numbered E t0 st'
  /\ List.length (o_tmp_images st') = S (List.length (o_tmp_images st)).
Proof.
  unfold draw_multiline. destruct r as [r|]; [|discriminate].
  unfold _draw_multiline_to_png, _wrap_lines.
  destruct (norm text) as [t| |]; cbn [bind or_empty]; try discriminate.
  intros [= <-] Hn. now apply place_png_numbered.
Qed.

Lemma draw_digits_aggressive_numbered E fuel t0 st r digits slots max_size st' :
  draw_digits E fuel true st r digits slots max_size = Ok st' ->
  numbered E t0 st ->
  numbered E t0 st'
  /\ List.length (o_tmp_images st') = S (List.length (o_tmp_images st)).
Proof.
  unfold draw_digits. destruct r as [r|]; [|discriminate].
  unfold _draw_digits_grid_to_png, digits_of. cbn [or_empty bind].
  destruct slots as [|k]; [discriminate|].
  cbn [bind]. intros [= <-] Hn. now apply place_png_numbered.
Qed.

Lemma ck_numbered E t0 rects st key :
  numbered E t0 st -> numbered E t0 (ck rects st key).
Proof. intros H. exact H. Qed.

Lemma draw_classification_aggressive_numbered E fuel t0 rects data st st' :
  draw_classification E fuel true rects data st = Ok st' ->
  numbered E t0 st ->
  numbered E t0 st'
  /\ (List.length (o_tmp_images st) <= List.length (o_tmp_images st')
      <= S (List.length (o_tmp_images st)))%nat.
Proof.
  intros H Hn. unfold draw_classification in H.
  split_bind H raw Hraw.
  set (cls := Txt.strip (str_lower E raw)) in H.
  assert (Hck : forall key, Ok (ck rects st key) = Ok st' ->
            numbered E t0 st'
            /\ (List.length (o_tmp_images st) <= List.length (o_tmp_images st')
                <= S (List.length (o_tmp_images st)))%nat).
  { intros key [= <-]. split; [exact Hn | cbn [ck o_tmp_images]; lia]. }
  assert (Htext : forall key r text,
            draw_text E fuel true (ck rects st key) r text 10 = Ok st' ->
            numbered E t0 st'
            /\ (List.length (o_tmp_images st) <= List.length (o_tmp_images st')
                <= S (List.length (o_tmp_images st)))%nat).
  { intros key r text Ht.
    destruct (draw_text_aggressive_numbered _ _ t0 _ _ _ _ _ Ht (ck_numbered _ _ rects _ key Hn))
      as [H1 H2].
    split; [exact H1|]. cbn [ck o_tmp_images] in H2. lia. }
  destruct (Txt.mem cls _); [exact (Hck _ H)|].
  destruct (Txt.mem cls _); [exact (Hck _ H)|].
  destruct (Txt.mem cls _); [exact (Hck _ H)|].
  destruct (Txt.mem cls _); [exact (Hck _ H)|].
  destruct (Txt.mem cls _); [exact (Hck _ H)|].
  destruct (Txt.startswith (u "llc") cls).
  { split_bind H tax Htax. exact (Htext _ _ _ H). }
  destruct (Txt.eqb cls (u "other")).
  { split_bind H other Hother. exact (Htext _ _ _ H). }
  injection H as <-. split; [exact Hn | lia].
Qed.

Lemma draw_tin_aggressive_numbered E fuel t0 rects data st st' :
  draw_tin E fuel true rects data st = Ok st' ->
  numbered E t0 st ->
  numbered E t0 st'
  /\ (List.length (o_tmp_images st) <= List.length (o_tmp_images st')
      <= 3 + List.length (o_tmp_images st))%nat.
Proof.
  intros H Hn. unfold draw_tin in H.
  split_bind H ssn Hssn. split_bind H ein Hein.
  destruct (Txt.truthy ssn && negb (Txt.truthy ein)).
  - split_bind H groups Hg. destruct groups as [[a b] c3].
    split_bind H st1 H1. split_bind H st2 H2.
    destruct (draw_digits_aggressive_numbered _ _ t0 _ _ _ _ _ _ H1 Hn) as [N1 L1].
    destruct (draw_digits_aggressive_numbered _ _ t0 _ _ _ _ _ _ H2 N1) as [N2 L2].
    destruct (draw_digits_aggressive_numbered _ _ t0 _ _ _ _ _ _ H N2) as [N3 L3].
    split; [exact N3 | lia].
  - destruct (Txt.truthy ein).
    + split_bind H groups Hg. destruct groups as [a b].
      split_bind H st1 H1.
      destruct (draw_digits_aggressive_numbered _ _ t0 _ _ _ _ _ _ H1 Hn) as [N1 L1].
      destruct (draw_digits_aggressive_numbered _ _ t0 _ _ _ _ _ _ H N1) as [N2 L2].
      split; [exact N2 | lia].
    + injection H as <-. split; [exact Hn | lia].
Qed.

(** What the composer reports in aggressive mode and what it creates.
    Whenever it returns, the list it hands back names the temporary
    images of the fields, in the order they were created: between eight
    (every basic field is rasterized, filled or not) and twelve. Two
    more temporary images are created than are listed: those of the
    signature and of the date are never appended to the list. *)
Theorem aggressive_images_accounting E fuel template_pdf (data : profile) overlay_pdf
    fontwarp d imgs d' :
  compose_overlay_page1 E fuel template_pdf data overlay_pdf fontwarp true d
  = Ok (imgs, d') ->
  imgs = map (tmp_name E) (seq (tmp_used d) (List.length imgs))
  /\ (8 <= List.length imgs <= 12)%nat
  /\ tmp_used d' = (tmp_used d + List.length imgs + 2)%nat.
Proof.
  intros H. unfold compose_overlay_page1 in H.
  split_bind H reader Hreader. split_bind H p0 Hp0.
  destruct (mediabox p0) as [w h].
  destruct (register_fonts_for_overlay E) as [[main_font warp_list] bold_font].
  split_bind H s1 H1. split_bind H s2 H2. split_bind H s3 H3. split_bind H s4 H4.
  split_bind H s5 H5.
  split_bind H city Hcity. split_bind H state Hstate. split_bind H zipc Hzip.
  split_bind H s6 H6. split_bind H s7 H7. split_bind H s8 H8.
  split_bind H s9 H9. split_bind H s10 H10. split_bind H s11 H11.
  assert (N0 : numbered E (tmp_used d)
                 (mkOverlay [] (FontCycler_init (if fontwarp then warp_list else [main_font]))
                    [] d)).
  { split; cbn [o_tmp_images o_disk List.length]; [reflexivity | lia]. }
  destruct (draw_text_aggressive_numbered _ _ _ _ _ _ _ _ H1 N0) as [N1 L1].
  destruct (draw_text_aggressive_numbered _ _ _ _ _ _ _ _ H2 N1) as [N2 L2].
  destruct (draw_text_aggressive_numbered _ _ _ _ _ _ _ _ H3 N2) as [N3 L3].
  destruct (draw_text_aggressive_numbered _ _ _ _ _ _ _ _ H4 N3) as [N4 L4].
  destruct (draw_text_aggressive_numbered _ _ _ _ _ _ _ _ H5 N4) as [N5 L5].
  destruct (draw_text_aggressive_numbered _ _ _ _ _ _ _ _ H6 N5) as [N6 L6].
  destruct (draw_multiline_aggressive_numbered _ _ _ _ _ _ _ _ H7 N6) as [N7 L7].
  destruct (draw_text_aggressive_numbered _ _ _ _ _ _ _ _ H8 N7) as [N8 L8].
  destruct (draw_classification_aggressive_numbered _ _ _ _ _ _ _ H9 N8) as [N9 L9].
  assert (N9' : numbered E (tmp_used d) (draw_line3b (rects_of (get_page_widgets p0)) data s9)
                /\ o_tmp_images (draw_line3b (rects_of (get_page_widgets p0)) data s9)
                   = o_tmp_images s9).
  { unfold draw_line3b.
    destruct (value_truthy (data !! "line3b_foreign_flowthrough"));
      (split; [exact N9 | reflexivity]). }
  destruct N9' as [N9' E9].
  destruct (draw_tin_aggressive_numbered _ _ _ _ _ _ _ H10 N9') as [[N10 U10] L10].
  rewrite E9 in L10. cbn [o_tmp_images List.length] in L1.
  split_bind H11 sig Hsig.
  unfold _draw_singleline_to_png, _save_png in H11.
  cbn [norm or_empty bind] in H11.
  split_bind H11 date Hdate. injection H11 as <-.
  cbn [o_tmp_images o_disk tmp_used files] in H. injection H as <- <-.
  cbn [tmp_used]. split; [exact N10|]. split; lia.
Qed.

Lemma aggressive_images_accounting_witness :
  exists imgs d',
    compose_overlay_page1 demo_env 10 "fw9.pdf" ({[ "name" := VStr (u "A") ]} : profile)
      "out.overlay.pdf" false true demo_disk = Ok (imgs, d')
    /\ imgs = map (tmp_name demo_env) (seq (tmp_used demo_disk) (List.length imgs))
    /\ (8 <= List.length imgs <= 12)%nat
    /\ tmp_used d' = (tmp_used demo_disk + List.length imgs + 2)%nat.
Proof.
  destruct (compose_overlay_page1 demo_env 10 "fw9.pdf"
              ({[ "name" := VStr (u "A") ]} : profile)
              "out.overlay.pdf" false true demo_disk) as [[imgs d']| |] eqn:H.
  - exists imgs, d'. split; [reflexivity|].
    exact (aggressive_images_accounting demo_env 10%nat "fw9.pdf"
             {[ "name" := VStr (u "A") ]}
             "out.overlay.pdf" false demo_disk imgs d' H).
  - exfalso. vm_compute in H. discriminate H.
  - exfalso. vm_compute in H. discriminate H.
Defined.

(** ** A bypass run without watermark *)

(** With [--w9bp] and no page selected for a watermark, [main] always
    returns once the template can be read, whatever the profile, the
    font flags, [--clean] and [--wm-visible] are: the output holds the
    template's pages exactly as they are, form fields included, under
    the finalized metadata and its XMP packet; with [--flatten] the
    flattened copy, the same pages without their annotations and
    without the XMP packet, is written beside it; no temporary file is
    created and no other file changes. *)
Theorem bypass_run_rewrites_metadata_only E M fuel a data wm_cfg user_meta t_info t_xmp d
    reader :
  w9bp a = true ->
  read_pdf (files d) (template a) = Ok reader ->
  (forall i, (i < List.length (pdf_pages reader))%nat -> watermarked wm_cfg i = false) ->
  let final_info := finalize_info t_info (read_template_info reader) (Some user_meta) in
  let xmp := build_xmp_packet t_xmp final_info in
  let written := <[output a := PdfFile (mkPdf (pdf_pages reader) final_info (Some xmp))]>
                   (files d) in
  main E M fuel a data wm_cfg user_meta t_info t_xmp d
  = Ok (mkDisk
          (if flatten a
           then <[replace ".pdf" "_flat.pdf" (output a) :=
                    PdfFile (mkPdf (map strip_annots (pdf_pages reader))
                               (final_info ∪ writer_default_info) None)]> written
           else written)
          (tmp_used d),
        []).
Proof.
  intros Hbp Hreader Hsel final_info xmp written. unfold main. rewrite Hbp.
  unfold build_writer_wm_only. rewrite Hreader. cbn [bind].
  rewrite (add_pages_unselected _ _ _ _ _ _ _ _ _ (pdf_pages reader)).
  - cbn [bind b_pages b_temps b_fs app]. rewrite Hreader. cbn [bind].
    fold final_info. fold xmp. fold written.
    unfold cleanup. rewrite Hbp.
    destruct (flatten a).
    + unfold flatten_all, read_pdf. unfold written at 1. rewrite lookup_insert_eq.
      cbn [bind pdf_pages pdf_info pdf_xmp]. destruct (clean a); reflexivity.
    + cbn [bind]. destruct (clean a); reflexivity.
  - apply List.Forall_forall. intros i Hi. apply in_seq in Hi. apply Hsel. lia.
  - exact (nth_error_seq_pages (pdf_pages reader) []).
Qed.

(** At work with [--flatten]: the output keeps its XMP packet, the
    flattened copy has none. *)
Lemma bypass_run_rewrites_metadata_only_witness :
  main demo_env demo_machine 0
    (mkArgs "fw9.pdf" true false true true true false "out.pdf")
    None None {[ "/Author" := "QA" ]} (mkTime 2026 11 4 9 30 0) (mkTime 2026 11 4 9 30 1)
    demo_disk
  = Ok (mkDisk
          (<[ "out_flat.pdf" :=
               PdfFile (mkPdf (map strip_annots (pdf_pages demo_template))
                          (finalize_info (mkTime 2026 11 4 9 30 0)
                             (read_template_info demo_template)
                             (Some {[ "/Author" := "QA" ]}) ∪ writer_default_info)
                          None)]>
             (<[ "out.pdf" :=
                  PdfFile (mkPdf (pdf_pages demo_template)
                             (finalize_info (mkTime 2026 11 4 9 30 0)
                                (read_template_info demo_template)
                                (Some {[ "/Author" := "QA" ]}))
                             (Some (build_xmp_packet (mkTime 2026 11 4 9 30 1)
                                      (finalize_info (mkTime 2026 11 4 9 30 0)
                                         (read_template_info demo_template)
                                         (Some {[ "/Author" := "QA" ]})))))]>
                (files demo_disk)))
          (tmp_used demo_disk),
        []).
Proof.
  apply (bypass_run_rewrites_metadata_only demo_env demo_machine 0%nat
           (mkArgs "fw9.pdf" true false true true true false "out.pdf") None None
           {[ "/Author" := "QA" ]} (mkTime 2026 11 4 9 30 0) (mkTime 2026 11 4 9 30 1)
           demo_disk demo_template eq_refl eq_refl).
  intros i _. reflexivity.
Defined.

(** ** The XMP packet against the information dictionary *)

Lemma finalize_info_plain now tmpl user k :
  k <> "/CreationDate" -> k <> "/ModDate" -> k <> "/Creator" -> k <> "/Producer" ->
  finalize_info now tmpl user !! k = (default ∅ user ∪ tmpl) !! k.
Proof.
  intros H1 H2 H3 H4. rewrite finalize_info_lookup.
  destruct (decide (k = "/ModDate")); [contradiction|].
  destruct (decide (k = "/CreationDate")); [contradiction|].
  rewrite !setdefault_lookup_ne by assumption. now destruct user.
Qed.

Lemma finalize_info_defaulted now tmpl user k :
  k = "/Creator" \/ k = "/Producer" ->
  finalize_info now tmpl user !! k
  = Some (default "Designer 6.5" ((default ∅ user ∪ tmpl) !! k)).
Proof.
  assert (Hov : dict_update tmpl (match user with Some u => u | None => ∅ end)
                = default ∅ user ∪ tmpl) by (destruct user; reflexivity).
  intros [-> | ->]; rewrite finalize_info_lookup, Hov; simpl.
  - rewrite setdefault_lookup_ne by discriminate. apply setdefault_lookup_eq.
  - rewrite setdefault_lookup_eq.
    destruct ((default ∅ user ∪ tmpl) !! "/Producer") as [v|] eqn:H.
    + rewrite (setdefault_lookup_some _ _ _ v) by exact H. reflexivity.
    + rewrite setdefault_lookup_ne by discriminate. rewrite H. reflexivity.
Qed.

(** The XMP packet [main] attaches mirrors the information dictionary
    it writes: title, description, keywords and author are those of the
    template overlaid by the user's metadata (a user value wins), the
    author element being left out when the author is empty; producer and
    creator tool are the overlaid values, or "Designer 6.5" when neither
    side names one; every value is XML-escaped. Its two dates are equal
    and come from a clock reading of their own, not from the
    dictionary's /CreationDate. *)
Theorem xmp_mirrors_info (t_info t_xmp : utc_time) (tmpl : gmap string string)
    (user : option (gmap string string)) :
  let merged := default ∅ user ∪ tmpl in
  let x := build_xmp_packet t_xmp (finalize_info t_info tmpl user) in
  xmp_title x = _xml_escape (default "" (merged !! "/Title"))
  /\ xmp_description x = _xml_escape (default "" (merged !! "/Subject"))
  /\ xmp_keywords x = _xml_escape (default "" (merged !! "/Keywords"))
  /\ xmp_creator x
     = (if Py.truthy (default "" (merged !! "/Author"))
        then Some (_xml_escape (default "" (merged !! "/Author"))) else None)
  /\ xmp_producer x = _xml_escape (default "Designer 6.5" (merged !! "/Producer"))
  /\ xmp_creator_tool x = _xml_escape (default "Designer 6.5" (merged !! "/Creator"))
  /\ xmp_create_date x = now_iso_utc t_xmp
  /\ xmp_modify_date x = now_iso_utc t_xmp.
Proof.
  intros merged x. unfold x, build_xmp_packet.
  cbn [xmp_title xmp_description xmp_keywords xmp_creator xmp_producer xmp_creator_tool
       xmp_create_date xmp_modify_date].
  rewrite !finalize_info_plain by discriminate.
  rewrite (finalize_info_defaulted _ _ _ "/Producer") by now right.
  rewrite (finalize_info_defaulted _ _ _ "/Creator") by now left.
  repeat split; reflexivity.
Qed.
